(** * auto-FE, data_clean.py: data cleaning and resampling

    A shallow embedding of [src/auto-FE/data_clean.py] and the properties
    of its cleaning pipeline.

    The program is written against pandas, numpy, scikit-learn and
    imbalanced-learn.  The part of those libraries the program relies on
    is modelled in the first half of the file (module [pd] for the
    dataframe operations, [np] for the array reductions, [sklearn] for
    the imputer); the estimators whose internals are numeric and
    randomised (isolation forest, SMOTE, the random number generator) and
    the [feature_engineering] module, which is not part of the sources,
    are parameters of the development.

    Numbers.  The program computes in binary64.  The outlier rule
    [mean_detection], where a rounding decides what is flagged, is
    modelled in binary64 itself: its numbers are the IEEE 754 numbers of
    the Standard Library ([spec_float], with their infinities, signed
    zeros and NaN), its operations round to the nearest number, a tie to
    the even one, and its sums are taken in the order numpy takes them.
    The cells of a table are exact rationals ([Qc], canonical fractions,
    so that two equal numbers are equal terms), of which the binary64
    numbers are some; where the program computes a new number from them
    (the statistic of an imputer, the size of a sample, the ratio it
    prints), the model computes the exact one, which the program
    rounds. *)

From Stdlib Require Import QArith Qcanon Qround SpecFloat.
From stdpp Require Import numbers strings gmap list.

Open Scope Qc_scope.
Open Scope Z_scope.
Open Scope nat_scope.

(** ** Python exceptions *)

Inductive exn :=
  | KeyError
  | ValueError
  | IndexError
  | AttributeError
  | ZeroDivisionError
  | InvalidIndexError.

#[global] Instance exn_eq_dec : EqDecision exn.
Proof. solve_decision. Defined.

Inductive Result (A : Type) :=
  | Ok (a : A)
  | Raise (e : exn).
Arguments Ok {A} a.
Arguments Raise {A} e.

#[global] Instance Result_eq_dec {A} `{EqDecision A} : EqDecision (Result A).
Proof. solve_decision. Defined.

#[global] Instance Result_ret : MRet Result := @Ok.
#[global] Instance Result_bind : MBind Result := λ A B f m,
  match m with
  | Ok a => f a
  | Raise e => Raise e
  end.

#[global] Instance Result_fmap : FMap Result := λ A B f m,
  match m with
  | Ok a => Ok (f a)
  | Raise e => Raise e
  end.

Definition raises {A} (m : Result A) : Prop :=
  match m with
  | Ok _ => False
  | Raise _ => True
  end.

(** A computation over a mutable store [S]: the store it leaves is kept
    when an exception is raised, as an object mutated in place is. *)
Definition Py (S A : Type) : Type := S → Result A * S.

#[global] Instance Py_ret {S} : MRet (Py S) := λ A a s, (Ok a, s).
#[global] Instance Py_bind {S} : MBind (Py S) := λ A B f m s,
  match m s with
  | (Ok a, s') => f a s'
  | (Raise e, s') => (Raise e, s')
  end.

Definition lift {S A} (r : Result A) : Py S A := λ s, (r, s).
Definition get {S} : Py S S := λ s, (Ok s, s).
Definition put {S} (s : S) : Py S unit := λ _, (Ok (), s).

(** ** Cells, series and dataframes *)

Inductive cell :=
  | Num (q : Qc)
  | Str (s : string)
  | NaN.

#[global] Instance cell_eq_dec : EqDecision cell.
Proof. solve_decision. Defined.
#[global] Instance cell_inhabited : Inhabited cell := populate NaN.
#[global] Instance Qc_inhabited : Inhabited Qc := populate (Q2Qc 0).

(** The dtypes the program tells apart: [data.dtypes[column] not in
    ['float', 'int']] is false exactly for float64 and int64. *)
Inductive dtype := float64 | int64 | object.

#[global] Instance dtype_eq_dec : EqDecision dtype.
Proof. solve_decision. Defined.

Definition isnull (c : cell) : bool :=
  match c with
  | NaN => true
  | _ => false
  end.

(** A series: index labels with their values. *)
Definition Series : Type := list (Z * cell).

(** A dataframe: the column names with their dtypes, and the rows, each
    with its index label.  Row [i] is at position [i]; its label is
    whatever the index holds there. *)
Record DataFrame := mkDataFrame {
  columns : list (string * dtype);
  rows : list (Z * list cell)
}.

#[global] Instance DataFrame_eq_dec : EqDecision DataFrame.
Proof. solve_decision. Defined.

(** ** Binary64

    A [float64] of numpy, a [float] of Python: a number of IEEE 754
    binary64.  The operations are those of the standard, with rounding
    to the nearest number, a tie to the even one. *)

Definition float : Type := spec_float.

#[global] Instance float_inhabited : Inhabited float := populate S754_nan.

Module f64.

Definition prec : Z := 53.
Definition emax : Z := 1024.

(** The binary64 number nearest to an integer: [float(z)]. *)
Definition of_Z (z : Z) : float := binary_normalize prec emax z 0 false.
Definition of_nat (n : nat) : float := of_Z (Z.of_nat n).

Definition zero : float := S754_zero false.

Definition add : float → float → float := SFadd prec emax.
Definition sub : float → float → float := SFsub prec emax.
Definition mul : float → float → float := SFmul prec emax.
Definition div : float → float → float := SFdiv prec emax.
Definition sqrt : float → float := SFsqrt prec emax.

(** [x < y]: false when one of the two is NaN. *)
Definition ltb : float → float → bool := SFltb.

End f64.

(** ** numpy reductions *)

Module np.

Definition of_nat (n : nat) : Qc := Q2Qc (inject_Z (Z.of_nat n)).

(** The sum of a float64 array, [np.add.reduce], as numpy takes it:
    fewer than eight numbers are added one after the other; up to 128
    numbers are added into eight running sums, the numbers at the
    positions 0, 8, 16, ... into the first, those at 1, 9, 17, ... into
    the second and so on, the eight sums are added in pairs, and what is
    left of the array beyond a multiple of eight is added to the
    result, one number after the other; a longer array is cut in two
    near the middle, at a multiple of eight, and the sums of the two
    parts are added. *)

Definition sequential (start : float) (a : list float) : float :=
  foldl f64.add start a.

(** The eight running sums after [blocks] further blocks of eight, and
    the part of the array not yet added. *)
Fixpoint unrolled (r a : list float) (blocks : nat) : list float * list float :=
  match blocks with
  | 0 => (r, a)
  | S blocks' => unrolled (zip_with f64.add r (take 8 a)) (drop 8 a) blocks'
  end.

Definition block_sum (a : list float) : float :=
  let n := length a in
  let '(r, rest) := unrolled (take 8 a) (drop 8 a) (n / 8 - 1) in
  let res :=
    f64.add (f64.add (f64.add (r !!! 0) (r !!! 1)) (f64.add (r !!! 2) (r !!! 3)))
            (f64.add (f64.add (r !!! 4) (r !!! 5)) (f64.add (r !!! 6) (r !!! 7))) in
  sequential res rest.

(** [fuel] bounds the number of cuts; the length of the array is
    enough of it ([pairwise_sum_fuel] below). *)
Fixpoint pairwise_sum (fuel : nat) (a : list float) : float :=
  let n := length a in
  if decide (n < 8) then sequential f64.zero a
  else if decide (n ≤ 128) then block_sum a
  else match fuel with
       | 0 => block_sum a
       | S fuel' =>
           let n2 := n / 2 - (n / 2) mod 8 in
           f64.add (pairwise_sum fuel' (take n2 a)) (pairwise_sum fuel' (drop n2 a))
       end.

(** The reduction starts from the identity of the addition. *)
Definition sum (a : list float) : float :=
  f64.add f64.zero (pairwise_sum (length a) a).

(** [np.mean(a)]: the sum over the number of entries. *)
Definition mean (a : list float) : float :=
  f64.div (sum a) (f64.of_nat (length a)).

(** [np.std(a)]: the mean is taken off every entry, the differences are
    squared, and the root is drawn of their sum over the number of
    entries. *)
Definition std (a : list float) : float :=
  let arrmean := f64.div (sum a) (f64.of_nat (length a)) in
  let x := (λ v, f64.sub v arrmean) <$> a in
  let x := (λ d, f64.mul d d) <$> x in
  f64.sqrt (f64.div (sum x) (f64.of_nat (length a))).

(** [np.zeros(shape=n)] *)
Definition zeros (n : nat) : list cell := replicate n (Num (Q2Qc 0)).

(** [np.where(mask)[0].tolist()]: the positions at which [mask] holds. *)
Definition where_ (mask : list bool) : list nat :=
  filter (λ i, mask !! i = Some true) (seq 0 (length mask)).

End np.

(** [int(x)]: truncation towards zero. *)
Definition int (x : Qc) : Z := (Qnum x ÷ Zpos (Qden x))%Z.

(** [round(x)] of Python 2: to the nearest integer, a tie away from zero. *)
Definition round (x : Qc) : Z :=
  if decide (Q2Qc 0 ≤ x)%Qc then Qfloor (x + Q2Qc (1 # 2))%Qc
  else Qceiling (x - Q2Qc (1 # 2))%Qc.

(** ** pandas

    The operations of pandas the program uses, as of the releases that
    run under Python 2, which the program is written for.  The index of
    a table is a list of integer labels: that is what reading a file,
    [DataFrame(...)], [concat(..., ignore_index=True)] and the selection
    of rows give.  Where the releases differ in the exception they raise
    for the same misuse ([ValueError] or [KeyError] for a label that is
    not in the index) one is taken; no statement below depends on which. *)

Module pd.

Definition index (data : DataFrame) : list Z := (rows data).*1.

(** [data.shape] *)
Definition shape0 (data : DataFrame) : nat := length (rows data).
Definition shape1 (data : DataFrame) : nat := length (columns data).

(** [data.columns.tolist()] *)
Definition columns_tolist (data : DataFrame) : list string := (columns data).*1.

Definition get_loc (data : DataFrame) (column : string) : option nat :=
  fst <$> list_find (λ c, c.1 = column) (columns data).

(** [data.dtypes[column]] *)
Definition dtypes_getitem (data : DataFrame) (column : string) : Result dtype :=
  match list_find (λ c, c.1 = column) (columns data) with
  | Some (_, (_, dt)) => Ok dt
  | None => Raise KeyError
  end.

(** [data[column]] *)
Definition getitem (data : DataFrame) (column : string) : Result Series :=
  match get_loc data column with
  | Some j => Ok ((λ r, (r.1, r.2 !!! j)) <$> rows data)
  | None => Raise KeyError
  end.

(** [data[column] = values]: an existing column is overwritten where it
    stands, a new one is appended. *)
Definition setitem (data : DataFrame) (column : string) (dt : dtype)
    (values : list cell) : Result DataFrame :=
  if decide (length values = length (rows data)) then
    match get_loc data column with
    | Some j =>
        Ok {| columns := <[j := (column, dt)]> (columns data);
              rows := zip_with (λ r v, (r.1, <[j := v]> r.2)) (rows data) values |}
    | None =>
        Ok {| columns := columns data ++ [(column, dt)];
              rows := zip_with (λ r v, (r.1, r.2 ++ [v])) (rows data) values |}
    end
  else Raise ValueError.

(** The cells of a row at the given positions, under the label of the
    row. *)
Definition take_cells (locs : list nat) (r : Z * list cell) : Z * list cell :=
  (r.1, (λ j, r.2 !!! j) <$> locs).

(** Where each column of a list stands in the table. *)
Definition locate (data : DataFrame) (column_list : list string)
    : Result (list (nat * (string * dtype))) :=
  mapM (λ c, match list_find (λ d, d.1 = c) (columns data) with
             | Some (j, d) => Ok (j, d)
             | None => Raise KeyError
             end) column_list.

(** [data[column_list]] *)
Definition getitems (data : DataFrame) (column_list : list string) : Result DataFrame :=
  locate data column_list ≫= λ locs : list (nat * (string * dtype)),
  Ok {| columns := locs.*2; rows := take_cells locs.*1 <$> rows data |}.

(** [series.fillna(value)] *)
Definition fillna (s : Series) (value : cell) : Series :=
  (λ p, (p.1, if isnull p.2 then value else p.2)) <$> s.

(** [series[key] = value] for a list [key] of integers.  On an integer
    index the integers are labels, not positions: the index must be free
    of repetitions, whatever the key, each label of the key must be in
    it, and the entries with these labels are written. *)
Definition Series_setitem (s : Series) (key : list Z) (value : cell) : Result Series :=
  if decide (NoDup s.*1) then
    if decide (Forall (λ k, k ∈ s.*1) key)
    then Ok ((λ p, if decide (p.1 ∈ key) then (p.1, value) else p) <$> s)
    else Raise ValueError
  else Raise InvalidIndexError.

(** A Python scalar used as a key. *)
Inductive scalar := PyInt (z : Z) | PyBool (b : bool).

(** [series[key]] for a scalar key: the entry labelled [key].  A
    [bool] is not a label of an integer index. *)
Definition Series_getitem (s : Series) (key : scalar) : Result cell :=
  match key with
  | PyInt z =>
      match list_find (λ p, p.1 = z) s with
      | Some (_, p) => Ok p.2
      | None => Raise KeyError
      end
  | PyBool _ => Raise KeyError
  end.

(** [data.drop_duplicates(keep='first')]: a row is dropped when an
    earlier row has the same cells; labels play no part. *)
Fixpoint keep_first (seen : list (list cell)) (rs : list (Z * list cell))
    : list (Z * list cell) :=
  match rs with
  | [] => []
  | r :: rs' =>
      if decide (r.2 ∈ seen) then keep_first seen rs'
      else r :: keep_first (r.2 :: seen) rs'
  end.

Definition drop_duplicates (data : DataFrame) : DataFrame :=
  {| columns := columns data; rows := keep_first [] (rows data) |}.

(** The number of cells of a row that are not missing. *)
Definition count (r : list cell) : nat := length (filter (λ c, isnull c = false) r).

(** The number of cells of a row that are missing (used in statements
    only). *)
Definition missing (r : list cell) : nat := length (filter (λ c, isnull c = true) r).

(** [data.dropna(thresh=thresh)]: keep the rows with at least [thresh]
    cells that are not missing. *)
Definition dropna (data : DataFrame) (thresh : Z) : DataFrame :=
  {| columns := columns data;
     rows := filter (λ r, (thresh ≤ Z.of_nat (count r.2))%Z) (rows data) |}.

(** [data.drop(labels, axis=0)]: the rows whose label is in [labels]
    go; a label that is not in the index is an error. *)
Definition drop (data : DataFrame) (labels : list Z) : Result DataFrame :=
  if decide (Forall (λ l, l ∈ index data) labels)
  then Ok {| columns := columns data;
             rows := filter (λ r, r.1 ∉ labels) (rows data) |}
  else Raise KeyError.

(** [data[data[column] == value]]: the rows whose entry in [column] is
    [value]; a missing entry equals nothing. *)
Definition getitem_eq (data : DataFrame) (column : string) (value : cell)
    : Result DataFrame :=
  match get_loc data column with
  | Some j =>
      Ok {| columns := columns data;
            rows := filter (λ r, r.2 !!! j = value ∧ value ≠ NaN) (rows data) |}
  | None => Raise KeyError
  end.

(** The values of a list in the order of their first occurrence. *)
Fixpoint unique (seen l : list cell) : list cell :=
  match l with
  | [] => []
  | x :: l' =>
      if decide (x ∈ seen) then unique seen l' else x :: unique (x :: seen) l'
  end.

Fixpoint insert_count (x : cell * nat) (l : list (cell * nat)) : list (cell * nat) :=
  match l with
  | [] => [x]
  | y :: l' => if decide (y.2 ≤ x.2) then x :: l else y :: insert_count x l'
  end.

(** [series.value_counts()]: the values that are not missing with the
    number of their occurrences, the most frequent first.  (pandas does
    not fix the order of values that occur equally often; here the one
    seen first comes first.) *)
Definition value_counts (s : Series) : list (cell * nat) :=
  let present := filter (λ c, isnull c = false) s.*2 in
  foldr insert_count []
    ((λ v, (v, length (filter (v =.) present))) <$> unique [] present).

(** [counts.keys()[i]] *)
Definition keys_getitem (counts : list (cell * nat)) (i : nat) : Result cell :=
  match counts.*1 !! i with
  | Some v => Ok v
  | None => Raise IndexError
  end.

(** [pd.concat(frames, ignore_index=True)] for frames with the same
    columns: the rows one frame after the other, labelled anew. *)
Definition concat (frames : list DataFrame) : DataFrame :=
  {| columns := from_option columns [] (head frames);
     rows := imap (λ i r, (Z.of_nat i, r.2)) (frames ≫= rows) |}.

(** [pd.DataFrame(columns=columns, data=X)] *)
Definition DataFrame_new (columns : list (string * dtype)) (X : list (list cell))
    : DataFrame :=
  {| columns := columns; rows := imap (λ i r, (Z.of_nat i, r)) X |}.

(** Every row has one cell for each column (used in statements only). *)
Definition rectangular (data : DataFrame) : Prop :=
  Forall (λ r, length r.2 = length (columns data)) (rows data).

Section sample.

(** [np.random.RandomState(seed).choice(n, size=k, replace=False)]: [k]
    positions below [n], fixed by [seed]. *)
Variable choice : Z → nat → nat → list nat.

(** [data.sample(frac=frac, random_state=random_state)].  The number of
    rows asked for is [round] of the exact product; the program rounds
    the product to binary64 first. *)
Definition sample (data : DataFrame) (frac : Qc) (random_state : Z)
    : Result DataFrame :=
  let axis_length := shape0 data in
  let n := round (frac * np.of_nat axis_length)%Qc in
  if decide (n < 0)%Z then Raise ValueError
  else if decide (Z.of_nat axis_length < n)%Z then Raise ValueError
  else
    (mapM (λ i, match rows data !! i with
                | Some r => Ok r
                | None => Raise IndexError
                end) (choice random_state axis_length (Z.to_nat n)))
    ≫= λ taken : list (Z * list cell),
    Ok {| columns := columns data; rows := taken |}.

End sample.

End pd.

(** ** scikit-learn's imputer *)

Module sklearn.

(** A fitted [Imputer(missing_values='NaN', strategy=..., axis=0)] for
    one column: its strategy and the statistic it learnt, [NaN] when the
    column held no value. *)
Record Imputer := mkImputer {
  strategy : string;
  statistics_ : cell
}.

(** The column as floats: a missing entry is [None]; a string is not a
    float. *)
Definition check_array (X : list cell) : Result (list (option Qc)) :=
  if decide (X = []) then Raise ValueError
  else mapM (λ c, match c with
                  | Num q => Ok (Some q)
                  | NaN => Ok None
                  | Str _ => Raise ValueError
                  end) X.

Fixpoint insert_sorted (x : Qc) (l : list Qc) : list Qc :=
  match l with
  | [] => [x]
  | y :: l' => if decide (x ≤ y)%Qc then x :: l else y :: insert_sorted x l'
  end.

Definition sort (l : list Qc) : list Qc := foldr insert_sorted [] l.

Definition median (l : list Qc) : Qc :=
  let s := sort l in
  let n := length s in
  let lo := s !!! (n / 2 - 1) in
  let hi := s !!! (n / 2) in
  if Nat.even n then ((lo + hi) / Q2Qc 2)%Qc else hi.

(** The most frequent value, the smallest one among several. *)
Definition most_frequent (l : list Qc) : Qc :=
  let occ x := length (filter (x =.) l) in
  foldr (λ x best, if decide (occ best ≤ occ x) then x else best)
        (Q2Qc 0) (sort l).

(** The statistic an imputer learns from the entries that are there.
    The mean and the median are the exact ones; the imputer holds the
    binary64 number next to them. *)
Definition mean (l : list Qc) : Qc :=
  (foldr Qcplus (Q2Qc 0) l / np.of_nat (length l))%Qc.

Definition statistic (strategy : string) (present : list Qc) : cell :=
  if decide (present = []) then NaN
  else if decide (strategy = "mean") then Num (mean present)
  else if decide (strategy = "median") then Num (median present)
  else Num (most_frequent present).

(** [imp.fit(X)] on a two-dimensional [X] of one column. *)
Definition fit (strategy : string) (X : list cell) : Result Imputer :=
  if decide (strategy ∈ ["mean"; "median"; "most_frequent"]) then
    check_array X ≫= λ xs : list (option Qc),
    Ok (mkImputer strategy (statistic strategy (omap id xs)))
  else Raise ValueError.

(** [imp.transform(X)] on a two-dimensional [X] of one column: the
    array with the missing entries filled in, as the list of its
    columns.  A column whose statistic is [NaN] is left out of the
    result. *)
Definition transform (imp : Imputer) (X : list cell) : Result (list (list cell)) :=
  check_array X ≫= λ xs : list (option Qc),
  Ok (match statistics_ imp with
      | Num stat => [(λ x, Num (default stat x)) <$> xs]
      | _ => []
      end).

Definition fit_transform (strategy : string) (X : list cell)
    : Result (Imputer * list (list cell)) :=
  imp ← fit strategy X;
  out ← transform imp X;
  Ok (imp, out).

(** [imp.transform(x)] on a one-dimensional [x], as [transform] of the
    filler calls it: refused, the imputer takes two-dimensional input
    ([fit_transform] of the filler hands it [data[[column]]]). *)
Definition transform_1d (imp : Imputer) (x : Series) : Result (list (list cell)) :=
  Raise ValueError.

End sklearn.

(** ** NaFiller *)

Record NaFiller := mkNaFiller {
  numeric_method : string;
  num_imputer_dic : gmap string sklearn.Imputer
}.

Module NaFiller.

(** [NaFiller(numeric_method='mean')] *)
Definition init (numeric_method : string) : NaFiller :=
  mkNaFiller numeric_method ∅.

(** The two objects a method of the filler works on and mutates: the
    filler itself and the dataframe it was handed. *)
Record store := mkStore {
  self : NaFiller;
  data : DataFrame
}.

(** [data[column]] *)
Definition data_getitem (column : string) : Py store Series :=
  st ← get; lift (pd.getitem (data st) column).

(** [data[column] = values], in place. *)
Definition data_setitem (column : string) (dt : dtype) (values : list cell)
    : Py store unit :=
  st ← get;
  d ← lift (pd.setitem (data st) column dt values);
  put (mkStore (self st) d).

(** [data[column] = X] for a two-dimensional [X]: it must have one
    column. *)
Definition data_setitem_2d (column : string) (X : list (list cell)) : Py store unit :=
  match X with
  | [values] => data_setitem column float64 values
  | _ => lift (Raise ValueError)
  end.

(** [data[column][key] = value]: the series [data[column]] is a view of
    the frame, so the write lands in [data]. *)
Definition data_getitem_setitem (column : string) (key : list Z) (value : cell)
    : Py store unit :=
  st ← get;
  dt ← lift (pd.dtypes_getitem (data st) column);
  s ← data_getitem column;
  s' ← lift (pd.Series_setitem s key value);
  data_setitem column dt s'.*2.

(** [self.num_imputer_dic[column] = imp] *)
Definition dic_setitem (column : string) (imp : sklearn.Imputer) : Py store unit :=
  st ← get;
  put (mkStore (mkNaFiller (numeric_method (self st))
                           (<[column := imp]> (num_imputer_dic (self st))))
               (data st)).

(** [self.num_imputer_dic[column]] *)
Definition dic_getitem (column : string) : Py store sklearn.Imputer :=
  st ← get;
  match num_imputer_dic (self st) !! column with
  | Some imp => mret imp
  | None => lift (Raise KeyError)
  end.

Fixpoint for_ {S A} (l : list A) (body : A → Py S unit) : Py S unit :=
  match l with
  | [] => mret ()
  | x :: l' => body x ≫= λ _, for_ l' body
  end.

(** The body of the loop of [fit_transform]. *)
Definition fit_transform_body (column : string) : Py store unit :=
  st ← get;
  dt ← lift (pd.dtypes_getitem (data st) column);
  if decide (dt ∉ [float64; int64]) then
    s ← data_getitem column;
    data_setitem column object (pd.fillna s (Str "missing")).*2
  else
    s ← data_getitem column;
    data_setitem (column +:+ "_flag") float64 (np.zeros (length s));;
    s ← data_getitem column;
    data_getitem_setitem (column +:+ "_flag")
      (Z.of_nat <$> np.where_ (isnull <$> s.*2)) (Num (Q2Qc 1));;
    st ← get;
    X ← data_getitem column;
    r ← lift (sklearn.fit_transform (numeric_method (self st)) X.*2);
    data_setitem_2d column r.2;;
    dic_setitem column r.1.

(** [NaFiller.fit_transform(self, data, column_list)]: what it returns
    is [data] itself, as the loop left it. *)
Definition fit_transform (column_list : list string) : Py store DataFrame :=
  for_ column_list fit_transform_body;;
  st ← get; mret (data st).

(** [data[column][data[column].isnull().values is True].index.tolist()]:
    [is] compares the array with [True] for identity, so the key is not
    a mask but the scalar [False].  A scalar key is looked up as a label,
    and a [bool] is no label of an integer index; were an entry found it
    would be a scalar, which has no [index]. *)
Definition flagged_index (s : Series) : Result (list Z) :=
  let key := pd.PyBool false in
  _ ← pd.Series_getitem s key;
  Raise AttributeError.

(** The body of the loop of [transform]. *)
Definition transform_body (column : string) : Py store unit :=
  st ← get;
  dt ← lift (pd.dtypes_getitem (data st) column);
  if decide (dt ∉ [float64; int64]) then
    s ← data_getitem column;
    data_setitem column object (pd.fillna s (Str "missing")).*2
  else
    s ← data_getitem column;
    data_setitem (column +:+ "_flag") float64 (np.zeros (length s));;
    s ← data_getitem column;
    key ← lift (flagged_index s);
    data_getitem_setitem (column +:+ "_flag") key (Num (Q2Qc 1));;
    imp ← dic_getitem column;
    x ← data_getitem column;
    r ← lift (sklearn.transform_1d imp x);
    data_setitem_2d column r.

(** [NaFiller.transform(self, data, column_list)] *)
Definition transform (column_list : list string) : Py store DataFrame :=
  for_ column_list transform_body;;
  st ← get; mret (data st).

End NaFiller.

(** ** Python lists of column names *)

Fixpoint remove1 (x : string) (l : list string) : list string :=
  match l with
  | [] => []
  | y :: l' => if decide (x = y) then l' else y :: remove1 x l'
  end.

(** [l.remove(x)]: the first occurrence goes; an [x] that is not there
    is an error. *)
Definition list_remove (x : string) (l : list string) : Result (list string) :=
  if decide (x ∈ l) then Ok (remove1 x l) else Raise ValueError.

(** [for element in id_columns: if element in l: l.remove(element)] *)
Definition remove_present (id_columns l : list string) : list string :=
  foldl (λ l element, if decide (element ∈ l) then remove1 element l else l)
        l id_columns.

(** [for element in id_columns: l.remove(element)] *)
Fixpoint remove_each (id_columns l : list string) : Result (list string) :=
  match id_columns with
  | [] => Ok l
  | element :: rest => list_remove element l ≫= remove_each rest
  end.

(** ** The samplers *)

Record UnderSampler := mkUnderSampler {
  us_data : DataFrame;
  us_target_column : string
}.

Module UnderSampler.
Section random.

Variable choice : Z → nat → nat → list nat.

(** [UnderSampler.random_sample(self, current_ratio, target_ratio)] *)
Definition random_sample (self : UnderSampler) (current_ratio target_ratio : Qc)
    : Result DataFrame :=
  pd.sample choice (us_data self) (current_ratio / target_ratio)%Qc 1021.

End random.
End UnderSampler.

Record OverSampler := mkOverSampler {
  os_data : DataFrame;
  os_target_column : string;
  os_id_columns : list string
}.

Module OverSampler.
Section smote.

(** [over_sampling.SMOTE(ratio='minority', random_state=1021).fit_sample(X, y)]:
    the features and the targets after synthesis. *)
Variable SMOTE_fit_sample :
  list (list cell) → list cell → Result (list (list cell) * list cell).

(** [OverSampler.smote_sample(self)] *)
Definition smote_sample (self : OverSampler) : Result DataFrame :=
  list_remove (os_target_column self) (pd.columns_tolist (os_data self))
  ≫= λ feature_column : list string,
  let feature_column := remove_present (os_id_columns self) feature_column in
  pd.getitems (os_data self) feature_column ≫= λ X : DataFrame,
  pd.getitem (os_data self) (os_target_column self) ≫= λ y : Series,
  SMOTE_fit_sample (rows X).*2 y.*2 ≫= λ r : list (list cell) * list cell,
  let feature_df := pd.DataFrame_new ((λ c, (c, float64)) <$> feature_column) r.1 in
  pd.dtypes_getitem (os_data self) (os_target_column self) ≫= λ dt : dtype,
  pd.setitem feature_df (os_target_column self) dt r.2.

End smote.
End OverSampler.

(** ** OutlierDetector *)

(** What the program prints. *)
Inductive line :=
  | outlier_ratio (ratio : Qc)
  | outlier_rows (outlier_index : list nat).

#[global] Instance line_eq_dec : EqDecision line.
Proof. solve_decision. Defined.

Definition stdout : Type := list line.

Definition print (l : line) : Py stdout unit := λ out, (Ok (), out ++ [l]).

Record OutlierDetector := mkOutlierDetector {
  od_data : DataFrame;
  od_target_column : string;
  od_id_columns : list string
}.


Module OutlierDetector.

(** [OutlierDetector.mean_detection(values)], for an array of float64
    as [decision_function] returns it. *)
Definition mean_detection (values : list float) : list nat :=
  let std := np.std values in
  let mean := np.mean values in
  let b := f64.of_Z 3 in
  let lower_limit := f64.sub mean (f64.mul b std) in
  let upper_limit := f64.add mean (f64.mul b std) in
  let lower_index :=
    filter (λ num, f64.ltb (values !!! num) lower_limit = true)
           (seq 0 (length values)) in
  let upper_index :=
    filter (λ num, f64.ltb upper_limit (values !!! num) = true)
           (seq 0 (length values)) in
  lower_index ++ upper_index.

Section estimators.

(** [fe.column_type_detection(data, id_columns, target_column)]: the
    numeric and the category columns. *)
Variable column_type_detection :
  DataFrame → list string → string → Result (list string * list string).

(** [fe.CategoryFeatureEngineer(cate_columns).fit_transform(data)] *)
Variable CategoryFeatureEngineer_fit_transform :
  list string → DataFrame → Result DataFrame.

(** [IsolationForest(max_samples=0.5, random_state=1021)] fitted to the
    features, and its [decision_function] on them: a score for each
    row. *)
Variable IsolationForest_decision_function : DataFrame → Result (list float).

(** [OutlierDetector.preprocess(data, cate_columns)] *)
Definition preprocess (data : DataFrame) (cate_columns : list string)
    : Result DataFrame :=
  CategoryFeatureEngineer_fit_transform cate_columns data.

(** [OutlierDetector.isolation_forest(self)].  The filler works on
    [self.data] in place; the detector is not used again after the
    call, so the frame it leaves is not returned. *)
Definition isolation_forest (self : OutlierDetector) : Py stdout (list nat) :=
  let na_filler := NaFiller.init "mean" in
  lift (NaFiller.fit_transform (pd.columns_tolist (od_data self))
          (NaFiller.mkStore na_filler (od_data self))).1
  ≫= λ data : DataFrame,
  lift (list_remove (od_target_column self) (pd.columns_tolist data))
  ≫= λ feature_column : list string,
  let feature_column := remove_present (od_id_columns self) feature_column in
  lift (pd.getitems data feature_column) ≫= λ features : DataFrame,
  lift (column_type_detection data (od_id_columns self) (od_target_column self))
  ≫= λ types : list string * list string,
  lift (preprocess features types.2) ≫= λ features : DataFrame,
  lift (IsolationForest_decision_function features)
  ≫= λ feature_score : list float,
  let outlier_index := mean_detection feature_score in
  (if decide (length feature_score = 0) then lift (Raise ZeroDivisionError)
   else print (outlier_ratio (np.of_nat (length outlier_index)
                              / np.of_nat (length feature_score))%Qc));;
  mret outlier_index.

End estimators.
End OutlierDetector.

(** Not an operation of the program: the table without the rows that
    stand at the given positions, which is what removing the flagged
    rows asks for.  It is what [pd.drop] is compared with. *)
Definition drop_positions (data : DataFrame) (positions : list nat) : DataFrame :=
  {| columns := columns data;
     rows := (filter (λ p, p.1 ∉ positions) (imap pair (rows data))).*2 |}.

(** ** wash_data and sample_data *)

Section wash_data.

Variable column_type_detection :
  DataFrame → list string → string → Result (list string * list string).
Variable CategoryFeatureEngineer_fit_transform :
  list string → DataFrame → Result DataFrame.
Variable IsolationForest_decision_function : DataFrame → Result (list float).

(** The table after the first two steps of [wash_data]: repeated rows
    removed, then the rows with too many missing values.  [int] of the
    product is computed on rationals; for any number of columns a table
    can have it is the integer the program computes in binary64. *)
Definition washed (data : DataFrame) : DataFrame :=
  let data := pd.drop_duplicates data in
  let percent := Q2Qc (6 # 10) in
  pd.dropna data (int (np.of_nat (pd.shape1 data) * percent)%Qc).

(** [wash_data(data, target_column, id_columns, outlier)].  The
    detector is handed [data.copy()]: what the filler writes into the
    copy does not reach [data]. *)
Definition wash_data (data : DataFrame) (target_column : string)
    (id_columns : list string) (outlier : bool) : Py stdout DataFrame :=
  let data := washed data in
  let outlier_detector := mkOutlierDetector data target_column id_columns in
  OutlierDetector.isolation_forest column_type_detection
    CategoryFeatureEngineer_fit_transform IsolationForest_decision_function
    outlier_detector
  ≫= λ outlier_index : list nat,
  (if negb outlier
   then print (outlier_rows outlier_index);; mret data
   else lift (pd.drop data (Z.of_nat <$> outlier_index)))
  ≫= λ data : DataFrame,
  lift (remove_each id_columns (pd.columns_tolist data))
  ≫= λ feature_column : list string,
  lift (pd.getitems data feature_column).

End wash_data.

Section sample_data.

Variable choice : Z → nat → nat → list nat.
Variable SMOTE_fit_sample :
  list (list cell) → list cell → Result (list (list cell) * list cell).

(** [sample_data(data, target_column, id_columns, method)] *)
Definition sample_data (data : DataFrame) (target_column : string)
    (id_columns : list string) (method : string) : Result DataFrame :=
  pd.getitem data target_column ≫= λ target : Series,
  pd.keys_getitem (pd.value_counts target) 0 ≫= λ major_label : cell,
  pd.keys_getitem (pd.value_counts target) 1 ≫= λ minor_label : cell,
  pd.getitem_eq data target_column major_label ≫= λ major_data : DataFrame,
  pd.getitem_eq data target_column minor_label ≫= λ minor_data : DataFrame,
  let current_ratio :=
    (np.of_nat (pd.shape0 major_data) / np.of_nat (pd.shape0 minor_data))%Qc in
  let target_ratio := Q2Qc (3 # 2) in
  (if decide (method ∈ ["both"; "under-sampling"]) then
     let under_sampler := mkUnderSampler major_data target_column in
     UnderSampler.random_sample choice under_sampler current_ratio target_ratio
     ≫= λ major_data : DataFrame,
     Ok (pd.concat [major_data; minor_data])
   else Ok data) ≫= λ data : DataFrame,
  if decide (method ∈ ["both"; "over-sampling"]) then
    let over_sampler := mkOverSampler data target_column id_columns in
    OverSampler.smote_sample SMOTE_fit_sample over_sampler
  else Ok data.

End sample_data.

(** ** Tables and estimators of the examples *)

Module examples.

(** A [RandomState] that picks the first positions, and a SMOTE that
    synthesises nothing. *)
Definition first_positions : Z → nat → nat → list nat := λ _ _ k, seq 0 k.
Definition no_synthesis (X : list (list cell)) (y : list cell)
    : Result (list (list cell) * list cell) := Ok (X, y).

(** No category column, an encoder that leaves the table alone, and an
    anomaly score read off the first feature of each row. *)
Definition no_category (data : DataFrame) (id_columns : list string)
    (target_column : string) : Result (list string * list string) :=
  Ok (remove_present (target_column :: id_columns) (pd.columns_tolist data), []).
Definition keep_table (cate_columns : list string) (data : DataFrame)
    : Result DataFrame := Ok data.
Definition to_float (q : Qc) : float :=
  f64.div (f64.of_Z (Qnum q)) (f64.of_Z (Zpos (Qden q))).
Definition first_feature (features : DataFrame) : Result (list float) :=
  Ok ((λ r, match r.2 with Num q :: _ => to_float q | _ => f64.zero end)
        <$> rows features).

(** [n] rows of the same cells, labelled from [start]. *)
Definition block (start n : nat) (cells : list cell) : list (Z * list cell) :=
  (λ i, (Z.of_nat i, cells)) <$> seq start n.

(** 100 rows of class 0 and 10 rows of class 1. *)
Definition majority100 : DataFrame :=
  mkDataFrame [("x", float64); ("y", int64)]
    (block 0 100 [Num (Q2Qc 0); Num (Q2Qc 0)]).
Definition imbalanced : DataFrame :=
  mkDataFrame [("x", float64); ("y", int64)]
    (block 0 100 [Num (Q2Qc 0); Num (Q2Qc 0)]
     ++ block 100 10 [Num (Q2Qc 1); Num (Q2Qc 1)]).

(** A column with one missing entry, under the default index. *)
Definition one_missing : DataFrame :=
  mkDataFrame [("x", float64)] [(0%Z, [NaN]); (1%Z, [Num (Q2Qc 1)])].

(** The same kind of table after its row 0 has been dropped: the index
    is 1, 2. *)
Definition shifted : DataFrame :=
  mkDataFrame [("x", float64)] [(1%Z, [Num (Q2Qc 5)]); (2%Z, [NaN])].

(** Twelve records, the second a repetition of the first, the last far
    from the others. *)
Definition with_repetition : DataFrame :=
  mkDataFrame [("id", int64); ("x", float64); ("y", int64)]
    ((0%Z, [Num (Q2Qc 0); Num (Q2Qc 0); Num (Q2Qc 0)])
     :: (1%Z, [Num (Q2Qc 0); Num (Q2Qc 0); Num (Q2Qc 0)])
     :: ((λ i, (Z.of_nat i, [Num (np.of_nat i); Num (Q2Qc 0); Num (Q2Qc 0)]))
           <$> seq 2 9)
     ++ [(11%Z, [Num (Q2Qc 11); Num (Q2Qc (-100)); Num (Q2Qc 1)])]).

(** Two records that differ in their id only, and one with a single
    cell of three filled in. *)
Definition twins_and_sparse : DataFrame :=
  mkDataFrame [("id", int64); ("x", float64); ("y", float64)]
    [(0%Z, [Num (Q2Qc 1); Num (Q2Qc 5); Num (Q2Qc 1)]);
     (1%Z, [Num (Q2Qc 2); Num (Q2Qc 5); Num (Q2Qc 1)]);
     (2%Z, [Num (Q2Qc 3); NaN; NaN])].

(** The same index, the first entry missing. *)
Definition shifted_first : DataFrame :=
  mkDataFrame [("x", float64)] [(1%Z, [NaN]); (2%Z, [Num (Q2Qc 5)])].

(** Two numeric columns. *)
Definition two_numeric : DataFrame :=
  mkDataFrame [("a", float64); ("b", float64)]
    [(0%Z, [NaN; Num (Q2Qc 1)]); (1%Z, [Num (Q2Qc 2); NaN])].

(** A category column and two numeric columns, and the filler after
    [fit_transform] on a copy of the table. *)
Definition mixed : DataFrame :=
  mkDataFrame [("c", object); ("a", float64); ("b", float64)]
    [(0%Z, [Str "u"; NaN; Num (Q2Qc 1)]); (1%Z, [NaN; Num (Q2Qc 2); NaN])].
Definition fitted : NaFiller :=
  NaFiller.self
    (NaFiller.fit_transform ["c"; "a"; "b"]
       (NaFiller.mkStore (NaFiller.init "mean") mixed)).2.

End examples.

(** ** Notions used in the further statements *)

(** One write of a column. *)
Definition setitem_step (data data' : DataFrame) : Prop :=
  ∃ (column : string) (dt : dtype) (values : list cell),
    pd.setitem data column dt values = Ok data'.

(** A column that is there and has no missing entry. *)
Definition filled_column (data : DataFrame) (column : string) : Prop :=
  ∃ s : Series,
    pd.getitem data column = Ok s ∧ Forall (λ c, isnull c = false) s.*2.

(** A computation of the filler that touches the table by writing
    columns only, whether it returns or raises. *)
Definition writes_only {A} (m : Py NaFiller.store A) : Prop :=
  ∀ st : NaFiller.store,
    rtc setitem_step (NaFiller.data st) (NaFiller.data (m st).2).

(** The numbers in a column. *)
Definition numbers (X : list cell) : list Qc :=
  omap (λ c, match c with Num q => Some q | _ => None end) X.

(** Counts, the largest first. *)
Fixpoint descending (counts : list (cell * nat)) : Prop :=
  match counts with
  | [] => True
  | x :: counts' => Forall (λ y, y.2 ≤ x.2) counts' ∧ descending counts'
  end.

Module more_examples.

(** A numeric column that misses nothing, under an index that is not
    0, 1, ... *)
Definition complete : DataFrame :=
  mkDataFrame [("x", float64)] [(3%Z, [Num (Q2Qc 1)]); (7%Z, [Num (Q2Qc 2)])].

(** Two category columns. *)
Definition categories : DataFrame :=
  mkDataFrame [("c", object); ("d", object)]
    [(0%Z, [Str "u"; NaN]); (1%Z, [NaN; Str "v"]); (2%Z, [NaN; NaN])].

(** Three rows of class 0, two of class 1 and one of class 2. *)
Definition three_classes : DataFrame :=
  mkDataFrame [("x", float64); ("y", int64)]
    [(0%Z, [Num (Q2Qc 1); Num (Q2Qc 0)]); (1%Z, [Num (Q2Qc 2); Num (Q2Qc 1)]);
     (2%Z, [Num (Q2Qc 3); Num (Q2Qc 0)]); (3%Z, [Num (Q2Qc 4); Num (Q2Qc 2)]);
     (4%Z, [Num (Q2Qc 5); Num (Q2Qc 1)]); (5%Z, [Num (Q2Qc 6); Num (Q2Qc 0)])].

End more_examples.

(** * Properties *)

(** ** The one-variable rule *)

(** The sum never runs out of fuel: any amount from the length of the
    array on gives the same sum. *)
Lemma pairwise_sum_fuel (fuel : nat) :
  ∀ (fuel' : nat) (a : list float),
    length a ≤ fuel → length a ≤ fuel' →
    np.pairwise_sum fuel a = np.pairwise_sum fuel' a.
Proof.
  induction fuel as [|fuel IH]; intros fuel' a Hfuel Hfuel'.
  { destruct a; [| cbn in Hfuel; lia]. by destruct fuel'. }
  destruct fuel' as [|fuel'].
  { destruct a; [done | cbn in Hfuel'; lia]. }
  cbn [np.pairwise_sum]. repeat case_decide; try done.
  assert (Hcut : 0 < length a / 2 - (length a / 2) mod 8 < length a).
  { pose proof (Nat.mod_upper_bound (length a / 2) 8).
    pose proof (Nat.Div0.div_mul_le (length a) 2 1) as Hdiv.
    assert (64 ≤ length a / 2) by (apply Nat.div_le_lower_bound; lia).
    pose proof (Nat.Div0.mul_div_le (length a) 2). lia. }
  f_equal; apply IH; rewrite ?length_take, ?length_drop; lia.
Qed.

(** Fewer than eight numbers are added from left to right. *)
Lemma sum_short (a : list float) :
  length a < 8 → np.sum a = f64.add f64.zero (foldl f64.add f64.zero a).
Proof.
  intros Hshort. unfold np.sum. f_equal.
  destruct a; [done |]. cbn [np.pairwise_sum length].
  by rewrite decide_True by done.
Qed.

(** Ten tenths add up to one in the order of numpy; from left to right
    they do not. *)
Lemma sum_tenths :
  let tenth := f64.div (f64.of_Z 1) (f64.of_Z 10) in
  np.sum (replicate 10 tenth) = f64.of_Z 1 ∧
  foldl f64.add f64.zero (replicate 10 tenth) ≠ f64.of_Z 1.
Proof. by vm_compute. Qed.



(** ** The samplers *)

(** The fraction [random_sample] hands to [sample] is
    [current_ratio / target_ratio]; for the ratios of [sample_data] on
    100 rows of the majority class the sample would have 667 rows of the
    100, where the fraction [target_ratio / current_ratio] asks for
    15. *)
Lemma sample_sizes :
  round (Q2Qc 10 / Q2Qc (3 # 2) * np.of_nat 100)%Qc = 667%Z ∧
  round (Q2Qc (3 # 2) / Q2Qc 10 * np.of_nat 100)%Qc = 15%Z.
Proof. by vm_compute. Qed.

Lemma round_lower (x : Qc) (z : Z) :
  (Q2Qc 0 ≤ x)%Qc → (Q2Qc (inject_Z z) ≤ x + Q2Qc (1 # 2))%Qc → (z ≤ round x)%Z.
Proof.
  intros Hpos Hle. unfold round. rewrite decide_True by done.
  rewrite <-(Qfloor_Z z). apply Qfloor_resp_le.
  unfold Qcle in Hle. cbn [this Q2Qc] in Hle.
  by rewrite Qred_correct in Hle.
Qed.

Lemma of_nat_ge_1 (n : nat) : 1 ≤ n → (Q2Qc 1 ≤ np.of_nat n)%Qc.
Proof.
  intros Hn. unfold np.of_nat, Qcle. cbn [this Q2Qc]. rewrite !Qred_correct.
  unfold Qle. cbn. lia.
Qed.

Lemma oversample_size (f : Qc) (n : nat) :
  (Q2Qc (3 # 2) ≤ f)%Qc → 1 ≤ n → (Z.of_nat n < round (f * np.of_nat n))%Z.
Proof.
  intros Hf Hn. pose proof (of_nat_ge_1 n Hn) as Hm.
  assert (Hfm : (Q2Qc (3 # 2) * np.of_nat n ≤ f * np.of_nat n)%Qc).
  { apply Qcmult_le_compat_r; [done |].
    eapply Qcle_trans; [| exact Hm]. by vm_compute. }
  enough (Z.of_nat n + 1 ≤ round (f * np.of_nat n))%Z by lia.
  apply round_lower.
  - eapply Qcle_trans; [| exact Hfm].
    eapply Qcle_trans; [| apply Qcmult_le_compat_r with (x := Q2Qc 0)].
    + rewrite Qcmult_0_l. apply Qcle_refl.
    + by vm_compute.
    + eapply Qcle_trans; [| exact Hm]. by vm_compute.
  - eapply Qcle_trans; [| apply Qcplus_le_mono_r, Hfm].
    revert Hm. unfold np.of_nat, Qcle. cbn [this Q2Qc Qcplus Qcmult].
    rewrite !Qred_correct. unfold inject_Z, Qle, Qplus, Qmult. cbn. lia.
Qed.

(** [sample] with a fraction of one and a half or more: more rows are
    asked for than there are. *)
Lemma sample_oversize (choice : Z → nat → nat → list nat) (data : DataFrame)
    (frac : Qc) (random_state : Z) :
  (Q2Qc (3 # 2) ≤ frac)%Qc → 1 ≤ pd.shape0 data →
  pd.sample choice data frac random_state = Raise ValueError.
Proof.
  intros Hfrac Hrows. pose proof (oversample_size _ _ Hfrac Hrows) as Hsize.
  unfold pd.sample. repeat case_decide; (done || lia).
Qed.

Lemma Qcdiv_lower (x y z : Qc) :
  (Q2Qc 0 < z)%Qc → (x * z ≤ y)%Qc → (x ≤ y / z)%Qc.
Proof.
  intros Hz Hxy. apply (Qcmult_lt_0_le_reg_r _ _ z); [done |].
  rewrite (Qcmult_comm (y / z)), Qcmult_div_r; [done |].
  intros ->. by apply Qclt_not_eq in Hz.
Qed.

(** C1. [random_sample] does not draw the fraction
    [target_ratio / current_ratio] of the rows.  Whenever the current
    ratio is at least one and a half times the target ratio and there is
    a row to sample from, it asks for more rows than there are and ends
    in a [ValueError], whatever the random generator. *)
Theorem random_sample_inverted_fraction
    (choice : Z → nat → nat → list nat) (self : UnderSampler)
    (current_ratio target_ratio : Qc) :
  (Q2Qc 0 < target_ratio)%Qc →
  (Q2Qc (3 # 2) * target_ratio ≤ current_ratio)%Qc →
  1 ≤ pd.shape0 (us_data self) →
  UnderSampler.random_sample choice self current_ratio target_ratio
  = Raise ValueError.
Proof.
  intros Htarget Hratio Hrows. unfold UnderSampler.random_sample.
  apply sample_oversize; [| done]. by apply Qcdiv_lower.
Qed.

Lemma random_sample_inverted_fraction_witness :
  UnderSampler.random_sample examples.first_positions
    (mkUnderSampler examples.majority100 "y") (Q2Qc 10) (Q2Qc (3 # 2))
  = Raise ValueError.
Proof.
  apply (random_sample_inverted_fraction examples.first_positions
           (mkUnderSampler examples.majority100 "y") (Q2Qc 10) (Q2Qc (3 # 2))).
  - by vm_compute.
  - by vm_compute.
  - vm_compute. lia.
Defined.

(** C2. [sample_data] with [method='both'] returns no table when the
    majority class has at least two and a quarter times the rows of the
    minority class, as with 100 rows against 10: the under-sampling step
    ends in a [ValueError], whatever the random generator and SMOTE. *)
Theorem sample_data_both_raises
    (choice : Z → nat → nat → list nat)
    (SMOTE_fit_sample :
       list (list cell) → list cell → Result (list (list cell) * list cell))
    (data : DataFrame) (target_column : string) (id_columns : list string)
    (target : Series) (major_label minor_label : cell)
    (major_data minor_data : DataFrame) :
  pd.getitem data target_column = Ok target →
  pd.keys_getitem (pd.value_counts target) 0 = Ok major_label →
  pd.keys_getitem (pd.value_counts target) 1 = Ok minor_label →
  pd.getitem_eq data target_column major_label = Ok major_data →
  pd.getitem_eq data target_column minor_label = Ok minor_data →
  1 ≤ pd.shape0 minor_data →
  9 * pd.shape0 minor_data ≤ 4 * pd.shape0 major_data →
  sample_data choice SMOTE_fit_sample data target_column id_columns "both"
  = Raise ValueError.
Proof.
  intros Htarget Hmajor Hminor Hmajor_data Hminor_data Hone Hratio.
  unfold sample_data, mbind, Result_bind.
  rewrite Htarget, Hmajor, Hminor, Hmajor_data, Hminor_data.
  rewrite decide_True by repeat constructor.
  unfold UnderSampler.random_sample. cbn [us_data].
  rewrite sample_oversize; [done | | lia].
  apply Qcdiv_lower; [by vm_compute |].
  apply Qcdiv_lower.
  - eapply Qclt_le_trans; [| apply (of_nat_ge_1 _ Hone)]. by vm_compute.
  - unfold np.of_nat, Qcle. cbn [this Q2Qc Qcplus Qcmult].
    rewrite !Qred_correct. unfold inject_Z, Qle, Qplus, Qmult. cbn. lia.
Qed.

Lemma sample_data_both_raises_witness :
  sample_data examples.first_positions examples.no_synthesis
    examples.imbalanced "y" [] "both"
  = Raise ValueError.
Proof.
  eapply (sample_data_both_raises examples.first_positions examples.no_synthesis
            examples.imbalanced "y" []).
  - vm_compute. reflexivity.
  - vm_compute. reflexivity.
  - vm_compute. reflexivity.
  - vm_compute. reflexivity.
  - vm_compute. reflexivity.
  - vm_compute. lia.
  - vm_compute. lia.
Defined.

(** ** Reading and writing columns *)

Section list_find.
Context {A : Type} (P : A → Prop) `{!∀ x, Decision (P x)}.

Lemma list_find_insert_agree (l : list A) (j : nat) (x y : A) :
  l !! j = Some y → (P x ↔ P y) →
  list_find P (<[j := x]> l)
  = (λ p, (p.1, if decide (p.1 = j) then x else p.2)) <$> list_find P l.
Proof.
  revert j. induction l as [|a l IH]; intros [|j] Hj Hxy; simplify_eq/=.
  - repeat case_decide; try tauto; try done.
    destruct (list_find P l) as [[i z]|]; reflexivity.
  - case_decide; [done |]. rewrite (IH j) by done.
    destruct (list_find P l) as [[i z]|]; [| done]. cbn.
    repeat case_decide; simplify_eq; done.
Qed.

Lemma list_find_snoc_miss (l : list A) (x : A) :
  ¬ P x → list_find P (l ++ [x]) = list_find P l.
Proof.
  intros Hx. induction l as [|a l IH]; cbn.
  - by rewrite decide_False.
  - case_decide; [done |]. by rewrite IH.
Qed.

Lemma list_find_snoc_hit (l : list A) (x : A) :
  list_find P l = None → P x → list_find P (l ++ [x]) = Some (length l, x).
Proof.
  intros Hl Hx. induction l as [|a l IH]; cbn in *.
  - by rewrite decide_True.
  - case_decide; [done |].
    destruct (list_find P l); [done |]. by rewrite IH.
Qed.

End list_find.

Lemma dtypes_getitem_get_loc (data : DataFrame) (column : string) (dt : dtype) :
  pd.dtypes_getitem data column = Ok dt → is_Some (pd.get_loc data column).
Proof.
  unfold pd.dtypes_getitem, pd.get_loc.
  destruct (list_find _ _) as [[j [c d]]|]; [eauto | done].
Qed.

Lemma getitem_length (data : DataFrame) (column : string) (s : Series) :
  pd.getitem data column = Ok s → length s = length (rows data) ∧ s.*1 = pd.index data.
Proof.
  unfold pd.getitem, pd.index. destruct (pd.get_loc data column); [| done].
  intros [= <-]. rewrite length_fmap. split; [done |].
  rewrite <-list_fmap_compose. done.
Qed.

(** Writing a column leaves the dtype of every other column as it was. *)
Lemma setitem_dtypes_ne (data data' : DataFrame) (column other : string)
    (dt : dtype) (values : list cell) :
  pd.setitem data column dt values = Ok data' → other ≠ column →
  pd.dtypes_getitem data' other = pd.dtypes_getitem data other.
Proof.
  unfold pd.setitem, pd.dtypes_getitem, pd.get_loc. intros Hset Hne.
  case_decide; [| done].
  destruct (list_find (λ c, c.1 = column) (columns data)) as [[j [c d]]|] eqn:Hfind;
    simplify_eq/=.
  - apply list_find_Some in Hfind as (Hj & Hc & _).
    rewrite (list_find_insert_agree _ _ _ _ _ Hj) by (cbn in *; naive_solver).
    destruct (list_find _ (columns data)) as [[i [c' d']]|] eqn:Hother; [| done].
    cbn. case_decide; [| done]. simplify_eq.
    apply list_find_Some in Hother as (Hj' & Hc' & _). naive_solver.
  - by rewrite list_find_snoc_miss by (cbn; congruence).
Qed.

(** Writing a column gives it the dtype written. *)
Lemma setitem_dtypes_eq (data data' : DataFrame) (column : string)
    (dt : dtype) (values : list cell) :
  pd.setitem data column dt values = Ok data' →
  pd.dtypes_getitem data' column = Ok dt.
Proof.
  unfold pd.setitem, pd.dtypes_getitem, pd.get_loc. intros Hset.
  case_decide; [| done].
  destruct (list_find (λ c, c.1 = column) (columns data)) as [[j [c d]]|] eqn:Hfind;
    simplify_eq/=.
  - pose proof Hfind as (Hj & Hc & _)%list_find_Some.
    rewrite (list_find_insert_agree _ _ _ _ _ Hj) by (cbn in *; naive_solver).
    rewrite Hfind. cbn. by rewrite decide_True.
  - by rewrite (list_find_snoc_hit _ _ _ Hfind).
Qed.

Lemma zip_with_labels {B C} (h : Z * B → C → B) (rs : list (Z * B)) (vs : list C) :
  length vs = length rs → (zip_with (λ r v, (r.1, h r v)) rs vs).*1 = rs.*1.
Proof.
  revert vs. induction rs as [|r rs IH]; intros [|v vs] ?; simplify_eq/=; [done |].
  f_equal. eauto.
Qed.

Lemma setitem_index (data data' : DataFrame) (column : string)
    (dt : dtype) (values : list cell) :
  pd.setitem data column dt values = Ok data' → pd.index data' = pd.index data.
Proof.
  unfold pd.setitem, pd.index. intros Hset. case_decide as Hlen; [| done].
  destruct (pd.get_loc data column); simplify_eq/=.
  - by apply (zip_with_labels (λ r v, <[n := v]> r.2)).
  - by apply (zip_with_labels (λ r v, r.2 ++ [v])).
Qed.

Lemma setitem_rectangular (data data' : DataFrame) (column : string)
    (dt : dtype) (values : list cell) :
  pd.setitem data column dt values = Ok data' →
  pd.rectangular data → pd.rectangular data'.
Proof.
  unfold pd.setitem, pd.rectangular. intros Hset Hrect.
  case_decide as Hlen; [| done].
  destruct (pd.get_loc data column); simplify_eq/=.
  - rewrite length_insert. revert values Hlen.
    induction Hrect as [|r rs Hr _ IH]; intros [|v vs] ?; simplify_eq/=;
      constructor; first [by cbn; rewrite length_insert | eauto].
  - rewrite length_app. cbn. revert values Hlen.
    induction Hrect as [|r rs Hr _ IH]; intros [|v vs] ?; simplify_eq/=;
      constructor; first [cbn; rewrite length_app; cbn; lia | eauto].
Qed.

(** Reading back the column just written, in a rectangular table. *)
Lemma getitem_setitem (data data' : DataFrame) (column : string)
    (dt : dtype) (values : list cell) :
  pd.rectangular data →
  pd.setitem data column dt values = Ok data' →
  pd.getitem data' column = Ok (zip (pd.index data) values).
Proof.
  unfold pd.setitem, pd.getitem, pd.get_loc, pd.index, pd.rectangular.
  intros Hrect Hset. case_decide as Hlen; [| done].
  destruct (list_find (λ c, c.1 = column) (columns data)) as [[j [c d]]|] eqn:Hfind;
    simplify_eq/=.
  - pose proof Hfind as (Hj & Hc & _)%list_find_Some.
    rewrite (list_find_insert_agree _ _ _ _ _ Hj) by (cbn in *; naive_solver).
    rewrite Hfind. cbn. f_equal. apply lookup_lt_Some in Hj.
    revert values Hlen.
    induction Hrect as [|r rs Hr _ IH]; intros [|v vs] ?; simplify_eq/=; [done |].
    f_equal; [| eauto].
    f_equal. apply list_lookup_total_insert_eq. lia.
  - rewrite (list_find_snoc_hit _ _ _ Hfind) by done. cbn. f_equal.
    revert values Hlen.
    induction Hrect as [|r rs Hr _ IH]; intros [|v vs] ?; simplify_eq/=; [done |].
    f_equal; [| eauto].
    f_equal. rewrite <-Hr. by rewrite list_lookup_total_middle.
Qed.

(** ** NaFiller *)

(** Writing a column of a rectangular table leaves every other column
    as it was. *)
Lemma getitem_setitem_ne (data data' : DataFrame) (column other : string)
    (dt : dtype) (values : list cell) :
  pd.rectangular data →
  pd.setitem data column dt values = Ok data' → other ≠ column →
  pd.getitem data' other = pd.getitem data other.
Proof.
  unfold pd.setitem, pd.getitem, pd.get_loc, pd.rectangular.
  intros Hrect Hset Hne. case_decide as Hlen; [| done].
  destruct (list_find (λ c, c.1 = column) (columns data)) as [[j [c d]]|] eqn:Hfind;
    simplify_eq/=.
  - pose proof Hfind as (Hj & Hc & _)%list_find_Some.
    rewrite (list_find_insert_agree _ _ _ _ _ Hj) by (cbn in *; naive_solver).
    destruct (list_find (λ c, c.1 = other) (columns data)) as [[j' [c' d']]|]
      eqn:Hother; [| done].
    cbn. f_equal.
    assert (j' ≠ j).
    { intros ->. apply list_find_Some in Hother as (Hj' & Hc' & _).
      cbn in *. congruence. }
    clear Hrect. revert values Hlen.
    induction (rows data) as [|r rs IH]; intros [|v vs] ?; simplify_eq/=; [done |].
    f_equal; [| eauto].
    f_equal. by apply list_lookup_total_insert_ne.
  - rewrite list_find_snoc_miss by (cbn; congruence).
    destruct (list_find (λ c, c.1 = other) (columns data)) as [[j' [c' d']]|]
      eqn:Hother; [| done].
    cbn. f_equal.
    apply list_find_Some in Hother as (Hj' & _). apply lookup_lt_Some in Hj'.
    revert values Hlen.
    induction Hrect as [|r rs Hr _ IH]; intros [|v vs] ?; simplify_eq/=; [done |].
    f_equal; [| eauto].
    f_equal. apply lookup_total_app_l. lia.
Qed.

Ltac py_unfold :=
  unfold NaFiller.data_getitem, NaFiller.data_setitem, NaFiller.data_setitem_2d,
    NaFiller.data_getitem_setitem, NaFiller.dic_getitem, NaFiller.dic_setitem,
    print, lift, get, put, mbind, Py_bind, mret, Py_ret in *.

Lemma flagged_index_raises (s : Series) : NaFiller.flagged_index s = Raise KeyError.
Proof. reflexivity. Qed.

(** What one turn of the loop of [transform] does: on a column that is
    not numeric it fills the column in; on any other column it raises. *)
Lemma transform_body_cases (column : string) (st : NaFiller.store) :
  (∃ e st', NaFiller.transform_body column st = (Raise e, st')) ∨
  (∃ s d',
     pd.dtypes_getitem (NaFiller.data st) column = Ok object ∧
     pd.getitem (NaFiller.data st) column = Ok s ∧
     pd.setitem (NaFiller.data st) column object (pd.fillna s (Str "missing")).*2
       = Ok d' ∧
     NaFiller.transform_body column st = (Ok (), NaFiller.mkStore (NaFiller.self st) d')).
Proof.
  unfold NaFiller.transform_body. py_unfold.
  destruct (pd.dtypes_getitem (NaFiller.data st) column) as [dt|e] eqn:Hdt;
    [| eauto].
  case_decide as Hnum.
  - assert (dt = object) as ->.
    { destruct dt; [exfalso; apply Hnum; repeat constructor.. | done]. }
    destruct (pd.getitem (NaFiller.data st) column) as [s|e] eqn:Hs; [| eauto].
    destruct (pd.setitem _ _ _ _) as [d'|e] eqn:Hd'; [| eauto].
    right. eauto 10.
  - left.
    destruct (pd.getitem (NaFiller.data st) column) as [s|e]; [| eauto].
    destruct (pd.setitem _ _ _ _) as [d'|e]; [| eauto]. cbn.
    destruct (pd.getitem d' column) as [s'|e]; eauto.
Qed.

Lemma for_cons {S A} (x : A) (l : list A) (body : A → Py S unit) (s : S) :
  NaFiller.for_ (x :: l) body s
  = match body x s with
    | (Ok _, s') => NaFiller.for_ l body s'
    | (Raise e, s') => (Raise e, s')
    end.
Proof. reflexivity. Qed.

Lemma numeric_not_object (dt : dtype) : dt ∈ [float64; int64] → dt ≠ object.
Proof.
  intros Hin ->.
  repeat (apply elem_of_cons in Hin as [Hin|Hin]; [done |]).
  by apply elem_of_nil in Hin.
Qed.

(** The loop of [transform] does not get past a numeric column. *)
Lemma for_transform_raises (column_list : list string) :
  ∀ (st : NaFiller.store) (column : string) (dt : dtype),
    column ∈ column_list →
    pd.dtypes_getitem (NaFiller.data st) column = Ok dt →
    dt ∈ [float64; int64] →
    ∃ e st', NaFiller.for_ column_list NaFiller.transform_body st = (Raise e, st').
Proof.
  induction column_list as [|c0 l IH]; intros st column dt Hin Hdt Hnum.
  { by apply elem_of_nil in Hin. }
  rewrite for_cons.
  destruct (transform_body_cases c0 st)
    as [(e & st' & ->) | (s & d' & Hobj & Hs & Hd' & ->)]; [eauto |].
  apply elem_of_cons in Hin as [-> | Hin].
  { rewrite Hobj in Hdt. simplify_eq. by apply numeric_not_object in Hnum. }
  apply (IH _ column dt); [done | | done]. cbn.
  rewrite <-Hdt. eapply setitem_dtypes_ne; [done |].
  intros ->. rewrite Hobj in Hdt. simplify_eq. by apply numeric_not_object in Hnum.
Qed.

(** C5. [transform] on a column list that holds a numeric column for
    which the filler has no fill rule ends in an error; the lookup of the
    rule, [self.num_imputer_dic[column]], is itself a [KeyError]. *)
Theorem transform_unfit_raises (st : NaFiller.store) (column_list : list string)
    (column : string) (dt : dtype) :
  column ∈ column_list →
  pd.dtypes_getitem (NaFiller.data st) column = Ok dt →
  dt ∈ [float64; int64] →
  num_imputer_dic (NaFiller.self st) !! column = None →
  raises (NaFiller.transform column_list st).1 ∧
  (NaFiller.dic_getitem column st).1 = Raise KeyError.
Proof.
  intros Hin Hdt Hnum Hunfit. split.
  - destruct (for_transform_raises column_list st column dt) as (e & st' & Hfor);
      [done..|].
    unfold NaFiller.transform. py_unfold. by rewrite Hfor.
  - unfold NaFiller.dic_getitem. py_unfold. by rewrite Hunfit.
Qed.

Lemma transform_unfit_raises_witness :
  raises (NaFiller.transform ["a"; "b"]
            (NaFiller.mkStore (NaFiller.init "mean") examples.two_numeric)).1 ∧
  (NaFiller.dic_getitem "b"
     (NaFiller.mkStore (NaFiller.init "mean") examples.two_numeric)).1
  = Raise KeyError.
Proof.
  apply (transform_unfit_raises
           (NaFiller.mkStore (NaFiller.init "mean") examples.two_numeric)
           ["a"; "b"] "b" float64).
  - repeat constructor.
  - reflexivity.
  - repeat constructor.
  - reflexivity.
Defined.

Lemma flag_name_fresh (column : string) : column ≠ column +:+ "_flag".
Proof.
  induction column as [|a column IH]; [done |].
  intros Heq. apply IH. by injection Heq.
Qed.

Lemma getitem_of_dtypes (data : DataFrame) (column : string) (dt : dtype) :
  pd.dtypes_getitem data column = Ok dt →
  ∃ s, pd.getitem data column = Ok s.
Proof.
  intros [j Hj]%dtypes_getitem_get_loc. unfold pd.getitem. rewrite Hj. eauto.
Qed.

Lemma setitem_ok (data : DataFrame) (column : string) (dt : dtype)
    (values : list cell) :
  length values = length (rows data) →
  ∃ data', pd.setitem data column dt values = Ok data'.
Proof.
  intros Hlen. unfold pd.setitem. rewrite decide_True by done.
  destruct (pd.get_loc data column); eauto.
Qed.

(** On a column that is not numeric, one turn of the loop of [transform]
    fills the column in. *)
Lemma transform_body_object (column : string) (st : NaFiller.store) :
  pd.dtypes_getitem (NaFiller.data st) column = Ok object →
  ∃ s d',
    pd.getitem (NaFiller.data st) column = Ok s ∧
    pd.setitem (NaFiller.data st) column object (pd.fillna s (Str "missing")).*2
      = Ok d' ∧
    NaFiller.transform_body column st
      = (Ok (), NaFiller.mkStore (NaFiller.self st) d').
Proof.
  intros Hdt. destruct (getitem_of_dtypes _ _ _ Hdt) as [s Hs].
  destruct (setitem_ok (NaFiller.data st) column object
              (pd.fillna s (Str "missing")).*2) as [d' Hd'].
  { apply getitem_length in Hs as [<- _].
    unfold pd.fillna. by rewrite !length_fmap. }
  exists s, d'. split_and!; [done..|].
  unfold NaFiller.transform_body. py_unfold.
  rewrite Hdt, decide_True, Hs, Hd'; [done |].
  intros Hin. by apply numeric_not_object in Hin.
Qed.


Lemma zip_zeros (idx : list Z) :
  zip idx (np.zeros (length idx)) = (λ l, (l, Num (Q2Qc 0))) <$> idx.
Proof. unfold np.zeros. by rewrite zip_with_replicate_r_eq. Qed.


(** The filler of the examples has a fill rule for both numeric
    columns. *)
Lemma fitted_rules :
  num_imputer_dic examples.fitted !! "a"
  = Some (sklearn.mkImputer "mean" (Num (Q2Qc 2))) ∧
  num_imputer_dic examples.fitted !! "b"
  = Some (sklearn.mkImputer "mean" (Num (Q2Qc 1))).
Proof. split; by vm_compute. Qed.


(** C10. [transform] does not flag as the claim has it, nor as
    [fit_transform] does.  The table has a category column and two
    numeric columns that miss an entry each, and the filler was fitted
    to a copy of it.  [fit_transform] on the table sets the flag of each
    numeric column to 1 where the column misses its entry.  [transform]
    on a copy of the table writes the flag column of the first numeric
    column, all zeros, and raises [KeyError] at the statement that was
    to set the flags: it returns no table, the first numeric column
    still misses its entry, and the second numeric column has no flag
    column. *)
Theorem transform_stops_at_first_numeric_column :
  (∃ (filled : DataFrame) (st1 : NaFiller.store),
     NaFiller.fit_transform ["c"; "a"; "b"]
       (NaFiller.mkStore (NaFiller.init "mean") examples.mixed) = (Ok filled, st1) ∧
     NaFiller.self st1 = examples.fitted ∧
     pd.getitem filled "a_flag" = Ok [(0%Z, Num (Q2Qc 1)); (1%Z, Num (Q2Qc 0))] ∧
     pd.getitem filled "b_flag" = Ok [(0%Z, Num (Q2Qc 0)); (1%Z, Num (Q2Qc 1))]) ∧
  ∃ st' : NaFiller.store,
    NaFiller.transform ["c"; "a"; "b"]
      (NaFiller.mkStore examples.fitted examples.mixed) = (Raise KeyError, st') ∧
    pd.getitem (NaFiller.data st') "a_flag"
    = Ok [(0%Z, Num (Q2Qc 0)); (1%Z, Num (Q2Qc 0))] ∧
    pd.getitem (NaFiller.data st') "a" = Ok [(0%Z, NaN); (1%Z, Num (Q2Qc 2))] ∧
    pd.getitem (NaFiller.data st') "b_flag" = Raise KeyError ∧
    pd.getitem (NaFiller.data st') "b" = Ok [(0%Z, Num (Q2Qc 1)); (1%Z, NaN)].
Proof.
  split.
  - eexists _, _. split; [by vm_compute |]. split_and!; by vm_compute.
  - eexists. split; [by vm_compute |]. split_and!; by vm_compute.
Qed.

(** C4. [fit_transform] and then [transform] of the same filler on a
    copy of the input is no round trip: on a table with one numeric
    column [fit_transform] returns the filled table with its flags, and
    [transform] with the fitted filler, on a copy of the same input,
    raises. *)
Theorem transform_after_fit_transform_raises :
  ∃ (fitted : DataFrame) (st1 : NaFiller.store),
    NaFiller.fit_transform ["x"]
      (NaFiller.mkStore (NaFiller.init "mean") examples.one_missing)
    = (Ok fitted, st1) ∧
    pd.getitem fitted "x" = Ok [(0%Z, Num (Q2Qc 1)); (1%Z, Num (Q2Qc 1))] ∧
    pd.getitem fitted "x_flag" = Ok [(0%Z, Num (Q2Qc 1)); (1%Z, Num (Q2Qc 0))] ∧
    num_imputer_dic (NaFiller.self st1) !! "x"
    = Some (sklearn.mkImputer "mean" (Num (Q2Qc 1))) ∧
    (NaFiller.transform ["x"]
       (NaFiller.mkStore (NaFiller.self st1) examples.one_missing)).1
    = Raise KeyError.
Proof.
  eexists _, _. split; [by vm_compute |]. split_and!; by vm_compute.
Qed.

(** C6. In a table whose index is not 0, 1, ... the flags of
    [fit_transform] do not mark the missing entries.  The index of both
    tables is 1, 2.  In the first the column [x] misses its second
    entry, and the flag column has its 1 at the first.  In the second
    [x] misses its first entry; the position 0 is no label of the index,
    [fit_transform] raises and leaves a flag column without a 1. *)
Theorem fit_transform_flags_by_label :
  (∃ (filled : DataFrame) (st1 : NaFiller.store),
     NaFiller.fit_transform ["x"]
       (NaFiller.mkStore (NaFiller.init "mean") examples.shifted)
     = (Ok filled, st1) ∧
     pd.getitem examples.shifted "x" = Ok [(1%Z, Num (Q2Qc 5)); (2%Z, NaN)] ∧
     pd.getitem filled "x_flag" = Ok [(1%Z, Num (Q2Qc 1)); (2%Z, Num (Q2Qc 0))]) ∧
  (∃ st1 : NaFiller.store,
     NaFiller.fit_transform ["x"]
       (NaFiller.mkStore (NaFiller.init "mean") examples.shifted_first)
     = (Raise ValueError, st1) ∧
     pd.getitem examples.shifted_first "x" = Ok [(1%Z, NaN); (2%Z, Num (Q2Qc 5))] ∧
     pd.getitem (NaFiller.data st1) "x_flag"
     = Ok [(1%Z, Num (Q2Qc 0)); (2%Z, Num (Q2Qc 0))]).
Proof.
  split.
  - eexists _, _. split; [by vm_compute |]. split; by vm_compute.
  - eexists. split; [by vm_compute |]. split; by vm_compute.
Qed.

(** ** The flags of [fit_transform] under the default index *)

Lemma where_spec (mask : list bool) (i : nat) :
  i ∈ np.where_ mask ↔ mask !! i = Some true.
Proof.
  unfold np.where_. rewrite list_elem_of_filter, elem_of_seq.
  split; [by intros [? _] |].
  intros Hi. split; [done |]. apply lookup_lt_Some in Hi. lia.
Qed.

(** Setting entries of a series under the default index: the keys are
    the positions. *)
Lemma Series_setitem_positions (k : nat) (values : list cell)
    (positions : list nat) (v : cell) :
  (λ p : Z * cell, if decide (p.1 ∈ Z.of_nat <$> positions) then (p.1, v) else p)
    <$> zip (Z.of_nat <$> seq k (length values)) values
  = zip (Z.of_nat <$> seq k (length values))
        (imap (λ i x, if decide (k + i ∈ positions) then v else x) values).
Proof.
  revert k. induction values as [|x values IH]; intros k; [done |].
  cbn [length seq fmap list_fmap zip zip_with imap]. rewrite Nat.add_0_r.
  f_equal.
  - cbn. destruct (decide (Z.of_nat k ∈ Z.of_nat <$> positions)) as [Hin | Hout];
      destruct (decide (k ∈ positions)) as [Hin' | Hout']; try done.
    + apply list_elem_of_fmap in Hin as (p & Hp & Hin).
      apply Nat2Z.inj in Hp as <-. done.
    + exfalso. apply Hout. apply list_elem_of_fmap. eauto.
  - rewrite IH. f_equal. apply imap_ext. intros i y _. cbn.
    by replace (k + S i) with (S k + i) by lia.
Qed.

Lemma Series_setitem_default (values : list cell) (positions : list nat) (v : cell) :
  Forall (λ p, p < length values) positions →
  pd.Series_setitem (zip (Z.of_nat <$> seq 0 (length values)) values)
    (Z.of_nat <$> positions) v
  = Ok (zip (Z.of_nat <$> seq 0 (length values))
            (imap (λ i x, if decide (i ∈ positions) then v else x) values)).
Proof.
  intros Hpos. unfold pd.Series_setitem.
  assert (Hidx : (zip (Z.of_nat <$> seq 0 (length values)) values).*1
                 = Z.of_nat <$> seq 0 (length values)).
  { apply fst_zip. by rewrite length_fmap, length_seq. }
  rewrite Hidx, decide_True, decide_True.
  - f_equal. apply (Series_setitem_positions 0).
  - apply Forall_fmap. eapply Forall_impl; [exact Hpos |]. cbn.
    intros p Hp. apply list_elem_of_fmap. exists p. split; [done |].
    apply elem_of_seq. lia.
  - apply (NoDup_fmap_2 _), NoDup_seq.
Qed.

(** The flags written over zeros at the positions of the missing
    entries. *)
Lemma flags_of_where (col : list cell) :
  imap (λ i x, if decide (i ∈ np.where_ (isnull <$> col))
               then Num (Q2Qc 1) else x)
       (np.zeros (length col))
  = (λ c, if isnull c then Num (Q2Qc 1) else Num (Q2Qc 0)) <$> col.
Proof.
  apply list_eq. intros i. unfold np.zeros.
  rewrite list_lookup_imap, list_lookup_fmap.
  destruct (col !! i) as [c|] eqn:Hc.
  - rewrite lookup_replicate_2 by (by eapply lookup_lt_Some). cbn.
    f_equal. case_decide as Hin.
    + apply where_spec in Hin. rewrite list_lookup_fmap, Hc in Hin.
      by injection Hin as ->.
    + destruct (isnull c) eqn:Hnull; [| done].
      exfalso. apply Hin, where_spec. by rewrite list_lookup_fmap, Hc; cbn; f_equal.
  - apply lookup_ge_None_1 in Hc. cbn.
    by rewrite (proj1 (lookup_replicate_None _ _ _) Hc).
Qed.

Lemma zip_fst_fmap_snd {A B C} (f : B → C) (l : list (A * B)) :
  zip l.*1 (f <$> l.*2) = (λ p, (p.1, f p.2)) <$> l.
Proof. induction l as [|[a b] l IH]; [done |]. cbn. by rewrite IH. Qed.

(** Under the default index the flag column [fit_transform] leaves for a
    numeric column has a 1 where the column missed its entry and a 0
    elsewhere. *)
Lemma fit_transform_flags_default_index (st : NaFiller.store) (column : string)
    (dt : dtype) (s : Series) (filled : DataFrame) (st' : NaFiller.store) :
  pd.rectangular (NaFiller.data st) →
  pd.index (NaFiller.data st) = Z.of_nat <$> seq 0 (pd.shape0 (NaFiller.data st)) →
  pd.dtypes_getitem (NaFiller.data st) column = Ok dt →
  dt ∈ [float64; int64] →
  pd.getitem (NaFiller.data st) column = Ok s →
  NaFiller.fit_transform [column] st = (Ok filled, st') →
  pd.getitem filled (column +:+ "_flag")
  = Ok ((λ p, (p.1, if isnull p.2 then Num (Q2Qc 1) else Num (Q2Qc 0))) <$> s).
Proof.
  intros Hrect Hidx Hdt Hnum Hs.
  destruct (getitem_length _ _ _ Hs) as [Hlen Hsidx].
  destruct (setitem_ok (NaFiller.data st) (column +:+ "_flag") float64
              (np.zeros (length s))) as [d1 Hd1].
  { unfold np.zeros. by rewrite length_replicate. }
  pose proof (getitem_setitem_ne _ _ _ column _ _ Hrect Hd1 (flag_name_fresh column))
    as Hs1.
  rewrite Hs in Hs1.
  pose proof (getitem_setitem _ _ _ _ _ Hrect Hd1) as Hflag1.
  pose proof (setitem_dtypes_eq _ _ _ _ _ Hd1) as Hdt1.
  pose proof (setitem_rectangular _ _ _ _ _ Hd1 Hrect) as Hrect1.
  pose proof (setitem_index _ _ _ _ _ Hd1) as Hidx1.
  set (flags := (λ c, if isnull c then Num (Q2Qc 1) else Num (Q2Qc 0)) <$> s.*2).
  assert (Hset : pd.Series_setitem (zip (pd.index (NaFiller.data st))
                                        (np.zeros (length s)))
                   (Z.of_nat <$> np.where_ (isnull <$> s.*2)) (Num (Q2Qc 1))
                 = Ok (zip (pd.index (NaFiller.data st)) flags)).
  { rewrite Hidx. unfold pd.shape0. rewrite <-Hlen.
    replace (length s) with (length (np.zeros (length s))) at 1 3
      by (unfold np.zeros; by rewrite length_replicate).
    rewrite Series_setitem_default.
    - unfold flags. rewrite <-flags_of_where, length_fmap. done.
    - apply Forall_forall. intros i Hi%where_spec. apply lookup_lt_Some in Hi.
      unfold np.zeros. by rewrite length_replicate, !length_fmap in *. }
  destruct (setitem_ok d1 (column +:+ "_flag") float64
              (zip (pd.index (NaFiller.data st)) flags).*2) as [d2 Hd2].
  { rewrite snd_zip.
    - unfold flags. rewrite !length_fmap.
      rewrite <-(length_fmap fst (rows d1)). fold (pd.index d1).
      by rewrite Hidx1, <-Hsidx, length_fmap.
    - unfold flags. by rewrite <-Hsidx, !length_fmap. }
  pose proof (getitem_setitem _ _ _ _ _ Hrect1 Hd2) as Hflag2.
  pose proof (setitem_rectangular _ _ _ _ _ Hd2 Hrect1) as Hrect2.
  unfold NaFiller.fit_transform, NaFiller.fit_transform_body. py_unfold.
  cbn [NaFiller.for_]. py_unfold. cbn.
  rewrite Hdt, decide_False, Hs, Hd1 by (by intros []). cbn.
  rewrite Hs1, Hdt1, Hflag1. cbn. rewrite Hset. cbn. rewrite Hd2. cbn.
  destruct (pd.getitem d2 column) as [X|e]; [| done].
  destruct (sklearn.fit_transform _ _) as [[imp r]|e]; [| done]. cbn.
  destruct r as [|values [|??]]; try done. py_unfold. cbn.
  destruct (pd.setitem d2 column float64 values) as [d3|e] eqn:Hd3; [| done].
  intros [= <- <-].
  rewrite (getitem_setitem_ne _ _ _ _ _ _ Hrect2 Hd3)
    by (intros Heq; by apply (flag_name_fresh column)).
  rewrite Hflag2, Hidx1. f_equal.
  rewrite snd_zip by (unfold flags; by rewrite <-Hsidx, !length_fmap).
  unfold flags. rewrite <-Hsidx.
  apply (zip_fst_fmap_snd (λ c, if isnull c then Num (Q2Qc 1) else Num (Q2Qc 0))).
Qed.

(** ** wash_data *)

Lemma keep_first_sublist (seen : list (list cell)) (rs : list (Z * list cell)) :
  pd.keep_first seen rs `sublist_of` rs.
Proof.
  revert seen. induction rs as [|r rs IH]; intros seen; cbn; [done |].
  case_decide; [apply sublist_cons | apply sublist_skip]; apply IH.
Qed.

Lemma keep_first_fresh (seen : list (list cell)) (rs : list (Z * list cell)) :
  ∀ r, r ∈ pd.keep_first seen rs → r.2 ∉ seen.
Proof.
  revert seen. induction rs as [|r0 rs IH]; intros seen r; cbn.
  { by intros ?%elem_of_nil. }
  case_decide as Hseen; [apply IH |].
  intros [-> | Hin]%elem_of_cons; [done |].
  apply IH in Hin. by intros ?; apply Hin; right.
Qed.

Lemma keep_first_NoDup (seen : list (list cell)) (rs : list (Z * list cell)) :
  NoDup (pd.keep_first seen rs).*2.
Proof.
  revert seen. induction rs as [|r0 rs IH]; intros seen; cbn; [constructor |].
  case_decide as Hseen; [apply IH |].
  cbn. constructor; [| apply IH].
  intros (r & Hr & Hin)%list_elem_of_fmap.
  apply keep_first_fresh in Hin. apply Hin. rewrite <-Hr. by left.
Qed.

(** After the first two steps of [wash_data] the rows are rows of the
    input, no two with the same cells, each with at least
    [int(0.6 * columns)] cells that are not missing. *)
Lemma washed_rows (data : DataFrame) :
  rows (washed data) `sublist_of` rows data ∧
  NoDup (rows (washed data)).*2 ∧
  Forall (λ r, (int (np.of_nat (pd.shape1 data) * Q2Qc (6 # 10))%Qc
                ≤ Z.of_nat (pd.count r.2))%Z) (rows (washed data)).
Proof.
  unfold washed, pd.dropna, pd.drop_duplicates. cbn. split_and!.
  - etrans; [apply sublist_filter | apply keep_first_sublist].
  - eapply sublist_NoDup; [apply (keep_first_NoDup [] (rows data)) |].
    apply fmap_sublist, sublist_filter.
  - apply Forall_forall. by intros r [Hr _]%list_elem_of_filter.
Qed.

Lemma getitems_rows (data out : DataFrame) (column_list : list string) :
  pd.getitems data column_list = Ok out →
  ∃ locs, pd.locate data column_list = Ok locs ∧
          columns out = locs.*2 ∧
          rows out = pd.take_cells locs.*1 <$> rows data.
Proof.
  unfold pd.getitems, mbind, Result_bind.
  destruct (pd.locate data column_list) as [locs|]; [| done].
  intros [= <-]. eauto.
Qed.

(** Dropping by label and dropping by position. *)

Lemma filter_labels_positions (k : nat) (rs : list (Z * list cell))
    (flagged : list nat) :
  rs.*1 = Z.of_nat <$> seq k (length rs) →
  filter (λ r, r.1 ∉ Z.of_nat <$> flagged) rs
  = (filter (λ p, p.1 ∉ flagged) (imap (λ i r, (k + i, r)) rs)).*2.
Proof.
  revert k. induction rs as [|r rs IH]; intros k Hidx; [done |].
  cbn in Hidx. injection Hidx as Hr Hrs.
  rewrite imap_cons, !filter_cons. cbn [fst].
  rewrite (imap_ext _ (λ i r, (S k + i, r))) by (intros; cbn; f_equal; lia).
  rewrite Nat.add_0_r. specialize (IH (S k) Hrs).
  destruct (decide (r.1 ∉ Z.of_nat <$> flagged)) as [Hout | Hin];
    destruct (decide (k ∉ flagged)) as [Hout' | Hin'];
    cbn [fmap list_fmap snd]; rewrite <-?IH; try done.
  - exfalso. apply Hout. rewrite Hr. apply list_elem_of_fmap.
    exists k. split; [done |]. by apply dec_stable.
  - exfalso. apply Hin. intros (p & Hp & Hflag)%list_elem_of_fmap.
    rewrite Hr in Hp. apply Nat2Z.inj in Hp as <-. done.
Qed.

Lemma drop_by_position (data : DataFrame) (flagged : list nat) :
  pd.index data = Z.of_nat <$> seq 0 (pd.shape0 data) →
  Forall (λ p, p < pd.shape0 data) flagged →
  pd.drop data (Z.of_nat <$> flagged) = Ok (drop_positions data flagged).
Proof.
  unfold pd.drop, drop_positions, pd.shape0, pd.index. intros Hidx Hflag.
  rewrite decide_True.
  - f_equal. f_equal. by apply (filter_labels_positions 0).
  - apply Forall_fmap. eapply Forall_impl; [exact Hflag |].
    intros p Hp. cbn in *. rewrite Hidx. apply list_elem_of_fmap.
    exists p. split; [done |]. apply elem_of_seq. lia.
Qed.

Lemma default_index_of_drop (data : DataFrame) :
  (∀ p, p < pd.shape0 data →
        pd.drop data [Z.of_nat p] = Ok (drop_positions data [p])) →
  pd.index data = Z.of_nat <$> seq 0 (pd.shape0 data).
Proof.
  unfold pd.drop, drop_positions, pd.shape0, pd.index. intros Hdrop.
  apply list_eq. intros i. rewrite !list_lookup_fmap.
  destruct (decide (i < length (rows data))) as [Hi | Hi].
  - rewrite lookup_seq_lt by done.
    destruct (lookup_lt_is_Some_2 (rows data) i Hi) as [r Hr]. rewrite Hr. cbn.
    f_equal. specialize (Hdrop i Hi).
    case_decide as Hin; [| done]. injection Hdrop as Hrows.
    rewrite Forall_singleton in Hin.
    apply list_elem_of_fmap in Hin as ([l cs] & Hl & Hin). cbn in Hl.
    apply list_elem_of_lookup in Hin as [q Hq].
    destruct (decide (q = i)) as [-> | Hqi]; [by simplify_eq |].
    exfalso.
    assert (Hpos : (l, cs) ∈ (filter (λ p, p.1 ∉ [i])
                                (imap pair (rows data))).*2).
    { apply list_elem_of_fmap. exists (q, (l, cs)). split; [done |].
      apply list_elem_of_filter. split.
      - cbn. by intros ?%list_elem_of_singleton.
      - apply elem_of_lookup_imap. eauto. }
    rewrite <-Hrows in Hpos. apply list_elem_of_filter in Hpos as [Hne _].
    apply Hne. cbn. rewrite <-Hl. by left.
  - rewrite lookup_ge_None_2 by lia. cbn.
    by rewrite lookup_seq_ge by lia.
Qed.

Section wash_data_facts.

Variable column_type_detection :
  DataFrame → list string → string → Result (list string * list string).
Variable CategoryFeatureEngineer_fit_transform :
  list string → DataFrame → Result DataFrame.
Variable IsolationForest_decision_function : DataFrame → Result (list float).

Local Abbreviation isolation_forest' :=
  (OutlierDetector.isolation_forest column_type_detection
     CategoryFeatureEngineer_fit_transform IsolationForest_decision_function).
Local Abbreviation wash_data' :=
  (wash_data column_type_detection CategoryFeatureEngineer_fit_transform
     IsolationForest_decision_function).

(** The steps of a run of [wash_data] that returns. *)
Lemma wash_data_inv (data result : DataFrame) (target_column : string)
    (id_columns : list string) (outlier : bool) (out out' : stdout) :
  wash_data' data target_column id_columns outlier out = (Ok result, out') →
  ∃ (outlier_index : list nat) (out1 : stdout) (kept : DataFrame)
    (feature_column : list string),
    isolation_forest' (mkOutlierDetector (washed data) target_column id_columns) out
      = (Ok outlier_index, out1) ∧
    (if outlier
     then pd.drop (washed data) (Z.of_nat <$> outlier_index) = Ok kept ∧ out' = out1
     else kept = washed data ∧ out' = out1 ++ [outlier_rows outlier_index]) ∧
    remove_each id_columns (pd.columns_tolist kept) = Ok feature_column ∧
    pd.getitems kept feature_column = Ok result.
Proof.
  unfold wash_data. py_unfold.
  destruct (isolation_forest' _ out) as [[outlier_index|e] out1]; [| done].
  destruct outlier; cbn.
  - destruct (pd.drop _ _) as [kept|e] eqn:Hdrop; [| done].
    destruct (remove_each _ _) as [feature_column|e] eqn:Hrem; [| done].
    destruct (pd.getitems _ _) as [res|e] eqn:Hget; [| done].
    intros [= <- <-]. by exists outlier_index, out1, kept, feature_column.
  - destruct (remove_each _ _) as [feature_column|e] eqn:Hrem; [| done].
    destruct (pd.getitems _ _) as [res|e] eqn:Hget; [| done].
    intros [= <- <-]. by exists outlier_index, out1, (washed data), feature_column.
Qed.

Lemma washed_sublist (data : DataFrame) (kept : list (Z * list cell)) :
  kept `sublist_of` rows (washed data) →
  kept `sublist_of` rows data ∧
  NoDup kept.*2 ∧
  Forall (λ r, (int (np.of_nat (pd.shape1 data) * Q2Qc (6 # 10))%Qc
                ≤ Z.of_nat (pd.count r.2))%Z) kept.
Proof.
  intros Hsub. destruct (washed_rows data) as (Hrows & Hnodup & Hcount).
  split_and!.
  - by etrans.
  - eapply sublist_NoDup; [exact Hnodup | by apply fmap_sublist].
  - apply Forall_forall. intros r Hr.
    eapply Forall_forall in Hcount; [exact Hcount |].
    eapply sublist_subseteq; done.
Qed.

Lemma drop_rows (data kept : DataFrame) (labels : list Z) :
  pd.drop data labels = Ok kept →
  columns kept = columns data ∧
  rows kept = filter (λ r, r.1 ∉ labels) (rows data).
Proof. unfold pd.drop. case_decide; [| done]. by intros [= <-]. Qed.

Lemma locate_columns (data data' : DataFrame) (column_list : list string) :
  columns data' = columns data →
  pd.locate data' column_list = pd.locate data column_list.
Proof. unfold pd.locate. by intros ->. Qed.

(** C3, as the code has it.  The rows [wash_data] returns are rows of
    the input with the id columns taken out.  Before the id columns are
    taken out no two of them have the same cells, and each has at least
    [int(0.6 * columns)] cells that are not missing. *)
Theorem wash_data_rows (data result : DataFrame) (target_column : string)
    (id_columns : list string) (outlier : bool) (out out' : stdout) :
  wash_data' data target_column id_columns outlier out = (Ok result, out') →
  ∃ (kept : list (Z * list cell)) (feature_column : list string)
    (locs : list (nat * (string * dtype))),
    kept `sublist_of` rows data ∧
    NoDup kept.*2 ∧
    Forall (λ r, (int (np.of_nat (pd.shape1 data) * Q2Qc (6 # 10))%Qc
                  ≤ Z.of_nat (pd.count r.2))%Z) kept ∧
    remove_each id_columns (pd.columns_tolist data) = Ok feature_column ∧
    pd.locate data feature_column = Ok locs ∧
    rows result = pd.take_cells locs.*1 <$> kept.
Proof.
  intros (outlier_index & out1 & kept & feature_column & _ & Hkept & Hrem & Hget)
    %wash_data_inv.
  apply getitems_rows in Hget as (locs & Hlocs & _ & Hrows).
  exists (rows kept), feature_column, locs.
  assert (Hsub : rows kept `sublist_of` rows (washed data)
                 ∧ columns kept = columns data).
  { destruct outlier.
    - destruct Hkept as [(Hcols & ->)%drop_rows _]. split; [| done].
      apply sublist_filter.
    - by destruct Hkept as [-> _]. }
  destruct Hsub as [Hsub Hcols].
  destruct (washed_sublist data (rows kept) Hsub) as (? & ? & ?).
  split_and!; try done.
  - revert Hrem. unfold pd.columns_tolist. by rewrite Hcols.
  - by rewrite <-(locate_columns data kept).
Qed.

(** With [outlier=False] every row left by the first two steps is
    returned, and the flagged positions are printed. *)
Lemma wash_data_report (data result : DataFrame) (target_column : string)
    (id_columns : list string) (out out' : stdout) :
  wash_data' data target_column id_columns false out = (Ok result, out') →
  ∃ (outlier_index : list nat) (out1 : stdout)
    (locs : list (nat * (string * dtype))),
    out' = out1 ++ [outlier_rows outlier_index] ∧
    rows result = pd.take_cells locs.*1 <$> rows (washed data).
Proof.
  intros (outlier_index & out1 & kept & feature_column & _ & [-> ->] & _ & Hget)
    %wash_data_inv.
  apply getitems_rows in Hget as (locs & _ & _ & Hrows). eauto.
Qed.

(** C9. With [outlier=True] the rows [wash_data] removes after its
    first two steps are those whose index label is among the flagged
    positions.  Removing by label is removing the rows at the flagged
    positions, whatever is flagged, exactly when the labels are the
    positions 0, 1, ... *)
Theorem wash_data_drops_by_label :
  (∀ (data result : DataFrame) (target_column : string)
     (id_columns : list string) (out out' : stdout),
     wash_data' data target_column id_columns true out = (Ok result, out') →
     ∃ (outlier_index : list nat) (locs : list (nat * (string * dtype))),
       isolation_forest' (mkOutlierDetector (washed data) target_column id_columns)
         out = (Ok outlier_index, out') ∧
       rows result
       = pd.take_cells locs.*1
           <$> filter (λ r, r.1 ∉ Z.of_nat <$> outlier_index) (rows (washed data))) ∧
  (∀ data : DataFrame,
     pd.index data = Z.of_nat <$> seq 0 (pd.shape0 data) ↔
     ∀ flagged : list nat,
       Forall (λ p, p < pd.shape0 data) flagged →
       pd.drop data (Z.of_nat <$> flagged) = Ok (drop_positions data flagged)).
Proof.
  split.
  - intros data result target_column id_columns out out'.
    intros (outlier_index & out1 & kept & feature_column & Hdet & [Hdrop ->] & _ & Hget)
      %wash_data_inv.
    apply getitems_rows in Hget as (locs & _ & _ & Hrows).
    apply drop_rows in Hdrop as [_ Hkept].
    exists outlier_index, locs. by rewrite Hrows, Hkept.
  - intros data. split.
    + intros Hidx flagged. by apply drop_by_position.
    + intros Hdrop. apply default_index_of_drop. intros p Hp.
      apply (Hdrop [p]). by apply Forall_singleton.
Qed.

End wash_data_facts.

Lemma wash_data_rows_witness :
  ∃ (result : DataFrame) (out' : stdout),
    wash_data examples.no_category examples.keep_table examples.first_feature
      examples.twins_and_sparse "y" ["id"] false [] = (Ok result, out') ∧
    ∃ (kept : list (Z * list cell)) (feature_column : list string)
      (locs : list (nat * (string * dtype))),
      kept `sublist_of` rows examples.twins_and_sparse ∧
      NoDup kept.*2 ∧
      Forall (λ r, (int (np.of_nat (pd.shape1 examples.twins_and_sparse)
                         * Q2Qc (6 # 10))%Qc
                    ≤ Z.of_nat (pd.count r.2))%Z) kept ∧
      remove_each ["id"] (pd.columns_tolist examples.twins_and_sparse)
      = Ok feature_column ∧
      pd.locate examples.twins_and_sparse feature_column = Ok locs ∧
      rows result = pd.take_cells locs.*1 <$> kept.
Proof.
  eexists _, _.
  assert (Hrun :
    wash_data examples.no_category examples.keep_table examples.first_feature
      examples.twins_and_sparse "y" ["id"] false []
    = (Ok (mkDataFrame [("x", float64); ("y", float64)]
             [(0%Z, [Num (Q2Qc 5); Num (Q2Qc 1)]);
              (1%Z, [Num (Q2Qc 5); Num (Q2Qc 1)]);
              (2%Z, [NaN; NaN])]),
       [outlier_ratio (np.of_nat 0 / np.of_nat 3)%Qc; outlier_rows []]))
    by (vm_compute; reflexivity).
  split; [exact Hrun |].
  exact (wash_data_rows examples.no_category examples.keep_table
           examples.first_feature _ _ _ _ _ _ _ Hrun).
Defined.

(** C3, as stated, fails.  Whatever the estimators, when [wash_data]
    returns for this table it returns three rows, of which the first two
    are the same and the third misses two of the three values its record
    had, which is more than 40%; and with the estimators of the examples
    it does return. *)
Lemma wash_data_returns_twins_and_sparse :
  let returned :=
    mkDataFrame [("x", float64); ("y", float64)]
      [(0%Z, [Num (Q2Qc 5); Num (Q2Qc 1)]);
       (1%Z, [Num (Q2Qc 5); Num (Q2Qc 1)]);
       (2%Z, [NaN; NaN])] in
  (∀ column_type_detection CategoryFeatureEngineer_fit_transform
     IsolationForest_decision_function (result : DataFrame) (out out' : stdout),
     wash_data column_type_detection CategoryFeatureEngineer_fit_transform
       IsolationForest_decision_function
       examples.twins_and_sparse "y" ["id"] false out = (Ok result, out') →
     result = returned) ∧
  (wash_data examples.no_category examples.keep_table examples.first_feature
     examples.twins_and_sparse "y" ["id"] false []).1 = Ok returned ∧
  ¬ NoDup (rows returned).*2 ∧
  ¬ Forall (λ r, 10 * pd.missing r.2 ≤ 4 * pd.shape1 examples.twins_and_sparse)
      (rows returned).
Proof.
  cbv zeta. split_and!.
  - intros ctd cfe idf result out out'.
    intros (outlier_index & out1 & kept & feature_column & _ & [-> _] & Hrem & Hget)
      %wash_data_inv.
    vm_compute in Hrem. injection Hrem as <-.
    vm_compute in Hget. by injection Hget as <-.
  - by vm_compute.
  - intros [Hnotin _]%NoDup_cons. apply Hnotin. by left.
  - intros Hall. do 2 apply Forall_cons in Hall as [_ Hall].
    apply Forall_cons in Hall as [Hsparse _]. vm_compute in Hsparse.
    lia.
Qed.

(** C8. With [outlier=True] the row that was flagged can stay and
    another one go.  Of the twelve records the second repeats the first
    and is removed in the first step, so that the labels of the eleven
    rows left are 0, 2, 3, ..., 11.  When the detector flags the last of
    them, at position 10, with label 11, the row removed is the one
    labelled 10, and the flagged row is returned. *)
Theorem wash_data_keeps_flagged_row
    (column_type_detection :
       DataFrame → list string → string → Result (list string * list string))
    (CategoryFeatureEngineer_fit_transform :
       list string → DataFrame → Result DataFrame)
    (IsolationForest_decision_function : DataFrame → Result (list float))
    (out out1 : stdout) :
  OutlierDetector.isolation_forest column_type_detection
    CategoryFeatureEngineer_fit_transform IsolationForest_decision_function
    (mkOutlierDetector (washed examples.with_repetition) "y" ["id"]) out
  = (Ok [10], out1) →
  rows (washed examples.with_repetition) !! 10
  = Some (11%Z, [Num (Q2Qc 11); Num (Q2Qc (-100)); Num (Q2Qc 1)]) ∧
  ∃ result : DataFrame,
    wash_data column_type_detection CategoryFeatureEngineer_fit_transform
      IsolationForest_decision_function
      examples.with_repetition "y" ["id"] true out = (Ok result, out1) ∧
    pd.index result = [0; 2; 3; 4; 5; 6; 7; 8; 9; 11]%Z ∧
    (11%Z, [Num (Q2Qc (-100)); Num (Q2Qc 1)]) ∈ rows result.
Proof.
  intros Hflag. split; [by vm_compute |].
  eexists. split.
  - unfold wash_data. py_unfold. rewrite Hflag. vm_compute. reflexivity.
  - split; [by vm_compute |]. cbn. do 9 right. left.
Qed.

Lemma wash_data_keeps_flagged_row_witness :
  OutlierDetector.isolation_forest examples.no_category examples.keep_table
    examples.first_feature
    (mkOutlierDetector (washed examples.with_repetition) "y" ["id"]) []
  = (Ok [10], [outlier_ratio (np.of_nat 1 / np.of_nat 11)%Qc]) ∧
  rows (washed examples.with_repetition) !! 10
  = Some (11%Z, [Num (Q2Qc 11); Num (Q2Qc (-100)); Num (Q2Qc 1)]) ∧
  ∃ result : DataFrame,
    wash_data examples.no_category examples.keep_table examples.first_feature
      examples.with_repetition "y" ["id"] true []
    = (Ok result, [outlier_ratio (np.of_nat 1 / np.of_nat 11)%Qc]) ∧
    pd.index result = [0; 2; 3; 4; 5; 6; 7; 8; 9; 11]%Z ∧
    (11%Z, [Num (Q2Qc (-100)); Num (Q2Qc 1)]) ∈ rows result.
Proof.
  assert (Hflag :
    OutlierDetector.isolation_forest examples.no_category examples.keep_table
      examples.first_feature
      (mkOutlierDetector (washed examples.with_repetition) "y" ["id"]) []
    = (Ok [10], [outlier_ratio (np.of_nat 1 / np.of_nat 11)%Qc]))
    by (vm_compute; reflexivity).
  split; [exact Hflag |].
  exact (wash_data_keeps_flagged_row examples.no_category examples.keep_table
           examples.first_feature _ _ Hflag).
Defined.

Lemma wash_data_drops_by_label_witness :
  ∃ (result : DataFrame) (out' : stdout),
    wash_data examples.no_category examples.keep_table examples.first_feature
      examples.with_repetition "y" ["id"] true [] = (Ok result, out') ∧
    ∃ (outlier_index : list nat) (locs : list (nat * (string * dtype))),
      OutlierDetector.isolation_forest examples.no_category examples.keep_table
        examples.first_feature
        (mkOutlierDetector (washed examples.with_repetition) "y" ["id"]) []
      = (Ok outlier_index, out') ∧
      rows result
      = pd.take_cells locs.*1
          <$> filter (λ r, r.1 ∉ Z.of_nat <$> outlier_index)
                (rows (washed examples.with_repetition)).
Proof.
  eexists _, _.
  assert (Hrun :
    wash_data examples.no_category examples.keep_table examples.first_feature
      examples.with_repetition "y" ["id"] true []
    = (Ok (mkDataFrame [("x", float64); ("y", int64)]
             (((λ i, (Z.of_nat i, [Num (Q2Qc 0); Num (Q2Qc 0)]))
                 <$> (0 :: seq 2 8))
              ++ [(11%Z, [Num (Q2Qc (-100)); Num (Q2Qc 1)])])),
       [outlier_ratio (np.of_nat 1 / np.of_nat 11)%Qc]))
    by (vm_compute; reflexivity).
  split; [exact Hrun |].
  exact (proj1 (wash_data_drops_by_label examples.no_category
                  examples.keep_table examples.first_feature)
           _ _ _ _ _ _ Hrun).
Defined.

(** * Further properties *)

(** ** NaFiller: what the loops do to the table and to the filler *)

(** A turn of the loop of [fit_transform] that ends without an
    exception, step by step. *)
Lemma fit_transform_body_inv (column : string) (st st' : NaFiller.store) :
  NaFiller.fit_transform_body column st = (Ok (), st') →
  (∃ s : Series,
     pd.dtypes_getitem (NaFiller.data st) column = Ok object ∧
     pd.getitem (NaFiller.data st) column = Ok s ∧
     pd.setitem (NaFiller.data st) column object (pd.fillna s (Str "missing")).*2
     = Ok (NaFiller.data st') ∧
     NaFiller.self st' = NaFiller.self st) ∨
  (∃ (dt dtf : dtype) (s s1 fl fl' X : Series) (d1 d2 : DataFrame)
     (imp : sklearn.Imputer) (values : list cell),
     pd.dtypes_getitem (NaFiller.data st) column = Ok dt ∧
     dt ∈ [float64; int64] ∧
     pd.getitem (NaFiller.data st) column = Ok s ∧
     pd.setitem (NaFiller.data st) (column +:+ "_flag") float64
       (np.zeros (length s)) = Ok d1 ∧
     pd.getitem d1 column = Ok s1 ∧
     pd.dtypes_getitem d1 (column +:+ "_flag") = Ok dtf ∧
     pd.getitem d1 (column +:+ "_flag") = Ok fl ∧
     pd.Series_setitem fl (Z.of_nat <$> np.where_ (isnull <$> s1.*2))
       (Num (Q2Qc 1)) = Ok fl' ∧
     pd.setitem d1 (column +:+ "_flag") dtf fl'.*2 = Ok d2 ∧
     pd.getitem d2 column = Ok X ∧
     sklearn.fit_transform (numeric_method (NaFiller.self st)) X.*2
     = Ok (imp, [values]) ∧
     pd.setitem d2 column float64 values = Ok (NaFiller.data st') ∧
     NaFiller.self st'
     = mkNaFiller (numeric_method (NaFiller.self st))
         (<[column := imp]> (num_imputer_dic (NaFiller.self st)))).
Proof.
  unfold NaFiller.fit_transform_body. py_unfold.
  destruct (pd.dtypes_getitem (NaFiller.data st) column) as [dt|e] eqn:Hdt;
    [| done].
  case_decide as Hnum.
  - assert (dt = object) as ->.
    { destruct dt; [exfalso; apply Hnum; repeat constructor.. | done]. }
    destruct (pd.getitem (NaFiller.data st) column) as [s|e] eqn:Hs; [| done].
    destruct (pd.setitem _ _ _ _) as [d'|e] eqn:Hd'; [| done].
    intros [= <-]. left. by exists s.
  - destruct (pd.getitem (NaFiller.data st) column) as [s|e] eqn:Hs; [| done].
    destruct (pd.setitem _ _ _ _) as [d1|e] eqn:Hd1; [| done]. cbn.
    py_unfold. cbn.
    destruct (pd.getitem d1 column) as [s1|e] eqn:Hs1; [| done].
    destruct (pd.dtypes_getitem d1 _) as [dtf|e] eqn:Hdtf; [| done].
    destruct (pd.getitem d1 (column +:+ "_flag")) as [fl|e] eqn:Hfl; [| done].
    destruct (pd.Series_setitem _ _ _) as [fl'|e] eqn:Hfl'; [| done]. cbn.
    destruct (pd.setitem d1 _ _ _) as [d2|e] eqn:Hd2; [| done]. cbn.
    destruct (pd.getitem d2 column) as [X|e] eqn:HX; [| done].
    destruct (sklearn.fit_transform _ _) as [[imp r]|e] eqn:Himp; [| done]. cbn.
    destruct r as [|values [|??]]; try done. py_unfold. cbn.
    destruct (pd.setitem d2 column float64 values) as [d3|e] eqn:Hd3; [| done].
    intros [= <-]. right.
    exists dt, dtf, s, s1, fl, fl', X, d1, d2, imp, values. by split_and!.
Qed.

Lemma writes_ret {A} (a : A) : writes_only (mret a).
Proof. intros st. apply rtc_refl. Qed.

Lemma writes_lift {A} (r : Result A) : writes_only (lift r).
Proof. intros st. apply rtc_refl. Qed.

Lemma writes_get : writes_only get.
Proof. intros st. apply rtc_refl. Qed.

Lemma writes_bind {A B} (m : Py NaFiller.store A) (f : A → Py NaFiller.store B) :
  writes_only m → (∀ a, writes_only (f a)) → writes_only (m ≫= f).
Proof.
  intros Hm Hf st. specialize (Hm st). unfold mbind, Py_bind.
  destruct (m st) as [[a|e] st1]; [| done].
  etrans; [exact Hm | apply Hf].
Qed.

Lemma writes_data_getitem (column : string) :
  writes_only (NaFiller.data_getitem column).
Proof. apply writes_bind; [apply writes_get | intros; apply writes_lift]. Qed.

Lemma writes_data_setitem (column : string) (dt : dtype) (values : list cell) :
  writes_only (NaFiller.data_setitem column dt values).
Proof.
  intros st. unfold NaFiller.data_setitem. py_unfold.
  destruct (pd.setitem _ _ _ _) as [d|e] eqn:Hd; [| apply rtc_refl].
  apply rtc_once. by exists column, dt, values.
Qed.

Lemma writes_data_setitem_2d (column : string) (X : list (list cell)) :
  writes_only (NaFiller.data_setitem_2d column X).
Proof.
  destruct X as [|values [|??]]; cbn;
    first [apply writes_data_setitem | apply writes_lift].
Qed.

Lemma writes_data_getitem_setitem (column : string) (key : list Z) (value : cell) :
  writes_only (NaFiller.data_getitem_setitem column key value).
Proof.
  unfold NaFiller.data_getitem_setitem.
  apply writes_bind; [apply writes_get | intros st].
  apply writes_bind; [apply writes_lift | intros dt].
  apply writes_bind; [apply writes_data_getitem | intros s].
  apply writes_bind; [apply writes_lift | intros s'].
  apply writes_data_setitem.
Qed.

Lemma writes_dic_setitem (column : string) (imp : sklearn.Imputer) :
  writes_only (NaFiller.dic_setitem column imp).
Proof. intros st. apply rtc_refl. Qed.

Lemma writes_dic_getitem (column : string) :
  writes_only (NaFiller.dic_getitem column).
Proof.
  intros st. unfold NaFiller.dic_getitem. py_unfold.
  destruct (_ !! _); apply rtc_refl.
Qed.

Lemma writes_for {A} (l : list A) (body : A → Py NaFiller.store unit) :
  (∀ x, writes_only (body x)) → writes_only (NaFiller.for_ l body).
Proof.
  intros Hbody. induction l as [|x l IH]; cbn; [apply writes_ret |].
  apply writes_bind; auto.
Qed.

Create HintDb writes discriminated.
#[local] Hint Resolve writes_ret writes_lift writes_get writes_data_getitem
  writes_data_setitem writes_data_setitem_2d writes_data_getitem_setitem
  writes_dic_setitem writes_dic_getitem : writes.

Lemma writes_fit_transform_body (column : string) :
  writes_only (NaFiller.fit_transform_body column).
Proof.
  unfold NaFiller.fit_transform_body.
  repeat first [ solve [auto with writes]
               | apply writes_bind; [| intros ?]
               | case_decide ].
Qed.

Lemma writes_transform_body (column : string) :
  writes_only (NaFiller.transform_body column).
Proof.
  unfold NaFiller.transform_body.
  repeat first [ solve [auto with writes]
               | apply writes_bind; [| intros ?]
               | case_decide ].
Qed.

Lemma writes_fit_transform (column_list : list string) :
  writes_only (NaFiller.fit_transform column_list).
Proof.
  unfold NaFiller.fit_transform.
  apply writes_bind; [| intros ?].
  - apply writes_for, writes_fit_transform_body.
  - apply writes_bind; [apply writes_get | intros ?; apply writes_ret].
Qed.

Lemma writes_transform (column_list : list string) :
  writes_only (NaFiller.transform column_list).
Proof.
  unfold NaFiller.transform.
  apply writes_bind; [| intros ?].
  - apply writes_for, writes_transform_body.
  - apply writes_bind; [apply writes_get | intros ?; apply writes_ret].
Qed.

Lemma for_inv {S A} (x : A) (l : list A) (body : A → Py S unit) (s s' : S) :
  NaFiller.for_ (x :: l) body s = (Ok (), s') →
  ∃ s1, body x s = (Ok (), s1) ∧ NaFiller.for_ l body s1 = (Ok (), s').
Proof.
  rewrite for_cons. destruct (body x s) as [[[]|e] s1]; [| done]. eauto.
Qed.

Lemma fit_transform_inv (column_list : list string) (st st' : NaFiller.store)
    (filled : DataFrame) :
  NaFiller.fit_transform column_list st = (Ok filled, st') →
  NaFiller.for_ column_list NaFiller.fit_transform_body st = (Ok (), st') ∧
  filled = NaFiller.data st'.
Proof.
  unfold NaFiller.fit_transform. py_unfold.
  destruct (NaFiller.for_ _ _ st) as [[[]|e] st1]; [| done].
  by intros [= <- <-].
Qed.

(** What a write does to the list of columns: the column written stays
    where it is, or is appended. *)
Lemma setitem_columns_tolist (data data' : DataFrame) (column : string)
    (dt : dtype) (values : list cell) :
  pd.setitem data column dt values = Ok data' →
  pd.columns_tolist data'
  = if decide (column ∈ pd.columns_tolist data) then pd.columns_tolist data
    else pd.columns_tolist data ++ [column].
Proof.
  unfold pd.setitem, pd.get_loc, pd.columns_tolist. intros Hset.
  case_decide as Hlen; [| done].
  destruct (list_find (λ c, c.1 = column) (columns data)) as [[j [c d]]|] eqn:Hfind;
    simplify_eq/=.
  - apply list_find_Some in Hfind as (Hj & Hc & _). cbn in Hc. subst c.
    rewrite list_fmap_insert. cbn.
    rewrite list_insert_id by (by rewrite list_lookup_fmap, Hj).
    rewrite decide_True; [done |].
    apply list_elem_of_fmap. exists (column, d). split; [done |].
    by eapply list_elem_of_lookup_2.
  - apply list_find_None in Hfind. rewrite fmap_app. cbn.
    rewrite decide_False; [done |].
    intros ([c d] & Hc & Hin)%list_elem_of_fmap. cbn in Hc. subst c.
    eapply Forall_forall in Hfind; [| exact Hin]. by apply Hfind.
Qed.

Lemma dtypes_getitem_elem_of (data : DataFrame) (column : string) (dt : dtype) :
  pd.dtypes_getitem data column = Ok dt → column ∈ pd.columns_tolist data.
Proof.
  unfold pd.dtypes_getitem, pd.columns_tolist.
  destruct (list_find _ _) as [[j [c d]]|] eqn:Hfind; [| done]. intros _.
  apply list_find_Some in Hfind as (Hj & Hc & _). cbn in Hc. subst c.
  apply list_elem_of_fmap. exists (column, d). split; [done |].
  by eapply list_elem_of_lookup_2.
Qed.

Lemma setitem_rewrite_columns (data data' : DataFrame) (column : string)
    (dt : dtype) (values : list cell) :
  pd.setitem data column dt values = Ok data' →
  column ∈ pd.columns_tolist data →
  pd.columns_tolist data' = pd.columns_tolist data.
Proof.
  intros Hset Hin. rewrite (setitem_columns_tolist _ _ _ _ _ Hset).
  by rewrite decide_True.
Qed.

(** A turn of the loop of [fit_transform] that returns found its column
    in the table, and left the columns as they were or appended the flag
    column. *)
Lemma fit_transform_body_columns (column : string) (st st' : NaFiller.store) :
  NaFiller.fit_transform_body column st = (Ok (), st') →
  column ∈ pd.columns_tolist (NaFiller.data st) ∧
  (pd.columns_tolist (NaFiller.data st') = pd.columns_tolist (NaFiller.data st) ∨
   pd.columns_tolist (NaFiller.data st')
   = pd.columns_tolist (NaFiller.data st) ++ [column +:+ "_flag"]).
Proof.
  intros [(s & Hdt & Hs & Hset & _)
         |(dt & dtf & s & s1 & fl & fl' & X & d1 & d2 & imp & values
           & Hdt & _ & _ & Hd1 & _ & Hdtf & _ & _ & Hd2 & _ & _ & Hd3 & _)]
    %fit_transform_body_inv.
  - apply dtypes_getitem_elem_of in Hdt. split; [done |]. left.
    by eapply setitem_rewrite_columns.
  - apply dtypes_getitem_elem_of in Hdt. apply dtypes_getitem_elem_of in Hdtf.
    split; [done |].
    pose proof (setitem_columns_tolist _ _ _ _ _ Hd1) as Hc1.
    rewrite (setitem_rewrite_columns _ _ _ _ _ Hd3),
      (setitem_rewrite_columns _ _ _ _ _ Hd2), Hc1; [| done |].
    + case_decide; auto.
    + rewrite (setitem_rewrite_columns _ _ _ _ _ Hd2), Hc1 by done.
      case_decide; [done |]. apply elem_of_app. by left.
Qed.

Lemma rtc_setitem_index (data data' : DataFrame) :
  rtc setitem_step data data' → pd.index data' = pd.index data.
Proof.
  induction 1 as [|d1 d2 d3 (column & dt & values & Hset) _ IH]; [done |].
  rewrite IH. by eapply setitem_index.
Qed.

Lemma rtc_setitem_rectangular (data data' : DataFrame) :
  rtc setitem_step data data' → pd.rectangular data → pd.rectangular data'.
Proof.
  induction 1 as [|d1 d2 d3 (column & dt & values & Hset) _ IH]; [done |].
  intros Hrect. apply IH. by eapply setitem_rectangular.
Qed.

(** X1. Neither [fit_transform] nor [transform] adds, drops, reorders
    or relabels a row: whether the call returns or raises, the table it
    leaves has the index it was given. *)
Theorem filler_keeps_index (column_list : list string) (st : NaFiller.store) :
  pd.index (NaFiller.data (NaFiller.fit_transform column_list st).2)
  = pd.index (NaFiller.data st) ∧
  pd.index (NaFiller.data (NaFiller.transform column_list st).2)
  = pd.index (NaFiller.data st).
Proof.
  split; apply rtc_setitem_index.
  - apply writes_fit_transform.
  - apply writes_transform.
Qed.

Lemma for_fit_transform_columns (column_list : list string) :
  ∀ st st' : NaFiller.store,
    NaFiller.for_ column_list NaFiller.fit_transform_body st = (Ok (), st') →
    pd.columns_tolist (NaFiller.data st)
      `prefix_of` pd.columns_tolist (NaFiller.data st') ∧
    (∀ c, c ∈ column_list → c ∈ pd.columns_tolist (NaFiller.data st')) ∧
    (∀ x, x ∈ pd.columns_tolist (NaFiller.data st') →
          x ∈ pd.columns_tolist (NaFiller.data st)
          ∨ ∃ c, c ∈ column_list ∧ x = c +:+ "_flag").
Proof.
  induction column_list as [|c0 l IH]; intros st st' Hrun.
  { cbn in Hrun. injection Hrun as <-. split_and!; [done | | auto].
    by intros c ?%elem_of_nil. }
  apply for_inv in Hrun as (st1 & Hbody & Hrest).
  apply fit_transform_body_columns in Hbody as [Hc0 Hcols].
  destruct (IH _ _ Hrest) as (Hprefix & Hlisted & Hnew).
  assert (Hstep : pd.columns_tolist (NaFiller.data st)
                    `prefix_of` pd.columns_tolist (NaFiller.data st1)).
  { destruct Hcols as [-> | ->]; [done | by apply prefix_app_r]. }
  split_and!.
  - by etrans.
  - intros c [-> | Hc]%elem_of_cons; [| by apply Hlisted].
    eapply elem_of_prefix; [| exact Hprefix].
    eapply elem_of_prefix; [exact Hc0 | exact Hstep].
  - intros x [Hx | (c & Hc & ->)]%Hnew.
    + destruct Hcols as [Heq | Heq]; rewrite Heq in Hx; [by left |].
      apply elem_of_app in Hx as [Hx | ->%list_elem_of_singleton]; [by left |].
      right. exists c0. split; [by left | done].
    + right. exists c. split; [by right | done].
Qed.

(** X2. When [fit_transform] returns, the table it returns has the
    columns of the input where they were, then the flag columns it
    added; every listed column is among them, and a column that was not
    in the input is the flag column of a listed column. *)
Theorem fit_transform_columns (column_list : list string)
    (st st' : NaFiller.store) (filled : DataFrame) :
  NaFiller.fit_transform column_list st = (Ok filled, st') →
  pd.columns_tolist (NaFiller.data st) `prefix_of` pd.columns_tolist filled ∧
  (∀ c, c ∈ column_list → c ∈ pd.columns_tolist filled) ∧
  (∀ x, x ∈ pd.columns_tolist filled →
        x ∈ pd.columns_tolist (NaFiller.data st)
        ∨ ∃ c, c ∈ column_list ∧ x = c +:+ "_flag").
Proof.
  intros [Hrun ->]%fit_transform_inv. by apply for_fit_transform_columns.
Qed.

Lemma fit_transform_columns_witness :
  ∃ (filled : DataFrame) (st' : NaFiller.store),
    NaFiller.fit_transform ["c"; "a"; "b"]
      (NaFiller.mkStore (NaFiller.init "mean") examples.mixed) = (Ok filled, st') ∧
    pd.columns_tolist examples.mixed `prefix_of` pd.columns_tolist filled ∧
    (∀ c, c ∈ ["c"; "a"; "b"] → c ∈ pd.columns_tolist filled) ∧
    (∀ x, x ∈ pd.columns_tolist filled →
          x ∈ pd.columns_tolist examples.mixed
          ∨ ∃ c, c ∈ ["c"; "a"; "b"] ∧ x = c +:+ "_flag").
Proof.
  eexists _, _.
  assert (Hrun :
    NaFiller.fit_transform ["c"; "a"; "b"]
      (NaFiller.mkStore (NaFiller.init "mean") examples.mixed)
    = (Ok (NaFiller.data
             (NaFiller.fit_transform ["c"; "a"; "b"]
                (NaFiller.mkStore (NaFiller.init "mean") examples.mixed)).2),
       (NaFiller.fit_transform ["c"; "a"; "b"]
          (NaFiller.mkStore (NaFiller.init "mean") examples.mixed)).2))
    by (vm_compute; reflexivity).
  split; [exact Hrun |].
  exact (fit_transform_columns _ _ _ _ Hrun).
Defined.

Lemma setitem_numeric (data data' : DataFrame) (written column : string)
    (dtw dt : dtype) (values : list cell) :
  pd.setitem data written dtw values = Ok data' →
  dtw ∈ [float64; int64] →
  pd.dtypes_getitem data column = Ok dt → dt ∈ [float64; int64] →
  ∃ dt', pd.dtypes_getitem data' column = Ok dt' ∧ dt' ∈ [float64; int64].
Proof.
  intros Hset Hdtw Hdt Hnum. destruct (decide (column = written)) as [-> | Hne].
  - exists dtw. split; [by eapply setitem_dtypes_eq | done].
  - exists dt. split; [| done]. rewrite <-Hdt. by eapply setitem_dtypes_ne.
Qed.

Lemma float64_numeric : float64 ∈ [float64; int64].
Proof. by left. Qed.

(** A numeric column is still numeric after a turn of the loop of
    [fit_transform], whichever column the turn was for. *)
Lemma fit_transform_body_numeric (c0 column : string) (st st' : NaFiller.store)
    (dt : dtype) :
  NaFiller.fit_transform_body c0 st = (Ok (), st') →
  pd.dtypes_getitem (NaFiller.data st) column = Ok dt → dt ∈ [float64; int64] →
  ∃ dt', pd.dtypes_getitem (NaFiller.data st') column = Ok dt'
         ∧ dt' ∈ [float64; int64].
Proof.
  intros [(s & Hdt0 & Hs & Hset & _)
         |(dt0 & dtf & s & s1 & fl & fl' & X & d1 & d2 & imp & values
           & Hdt0 & _ & _ & Hd1 & _ & Hdtf & _ & _ & Hd2 & _ & _ & Hd3 & _)]
    %fit_transform_body_inv Hdt Hnum.
  - exists dt. split; [| done]. rewrite <-Hdt. eapply setitem_dtypes_ne; [done |].
    intros ->. rewrite Hdt0 in Hdt. simplify_eq. by apply numeric_not_object in Hnum.
  - rewrite (setitem_dtypes_eq _ _ _ _ _ Hd1) in Hdtf. injection Hdtf as <-.
    destruct (setitem_numeric _ _ _ column _ _ _ Hd1 float64_numeric Hdt Hnum)
      as (dt1 & Hdt1 & Hnum1).
    destruct (setitem_numeric _ _ _ column _ _ _ Hd2 float64_numeric Hdt1 Hnum1)
      as (dt2 & Hdt2 & Hnum2).
    exact (setitem_numeric _ _ _ column _ _ _ Hd3 float64_numeric Hdt2 Hnum2).
Qed.

Lemma sklearn_fit_transform_strategy (strategy : string) (X : list cell)
    (imp : sklearn.Imputer) (out : list (list cell)) :
  sklearn.fit_transform strategy X = Ok (imp, out) →
  sklearn.strategy imp = strategy.
Proof.
  unfold sklearn.fit_transform, sklearn.fit, sklearn.transform, mbind, Result_bind.
  case_decide; [| done].
  destruct (sklearn.check_array X) as [xs|]; [| done]. cbn.
  by intros [= <- _].
Qed.

(** The rules of the filler after a turn of the loop that returned: the
    old ones are kept or replaced, none is lost, and a numeric column
    gets one, of the method of the filler. *)
Lemma fit_transform_body_rules (c0 : string) (st st' : NaFiller.store) :
  NaFiller.fit_transform_body c0 st = (Ok (), st') →
  numeric_method (NaFiller.self st') = numeric_method (NaFiller.self st) ∧
  (∀ k imp, num_imputer_dic (NaFiller.self st') !! k = Some imp →
     num_imputer_dic (NaFiller.self st) !! k = Some imp
     ∨ (k = c0 ∧ sklearn.strategy imp = numeric_method (NaFiller.self st))) ∧
  (∀ k, is_Some (num_imputer_dic (NaFiller.self st) !! k) →
        is_Some (num_imputer_dic (NaFiller.self st') !! k)) ∧
  (∀ dt, pd.dtypes_getitem (NaFiller.data st) c0 = Ok dt → dt ∈ [float64; int64] →
         is_Some (num_imputer_dic (NaFiller.self st') !! c0)).
Proof.
  intros [(s & Hdt0 & _ & _ & ->)
         |(dt0 & dtf & s & s1 & fl & fl' & X & d1 & d2 & imp & values
           & Hdt0 & _ & _ & _ & _ & _ & _ & _ & _ & _ & Himp & _ & ->)]
    %fit_transform_body_inv.
  - split_and!; [done | auto | auto |].
    intros dt Hdt Hnum. rewrite Hdt0 in Hdt. simplify_eq.
    by apply numeric_not_object in Hnum.
  - apply sklearn_fit_transform_strategy in Himp. cbn. split_and!; [done | | |].
    + intros k imp' Hk. destruct (decide (k = c0)) as [-> | Hne].
      * rewrite lookup_insert_eq in Hk. injection Hk as <-. by right.
      * rewrite lookup_insert_ne in Hk by done. by left.
    + intros k Hk. destruct (decide (k = c0)) as [-> | Hne].
      * by rewrite lookup_insert_eq.
      * by rewrite lookup_insert_ne.
    + intros _ _ _. by rewrite lookup_insert_eq.
Qed.

Lemma for_fit_transform_rules (column_list : list string) :
  ∀ st st' : NaFiller.store,
    NaFiller.for_ column_list NaFiller.fit_transform_body st = (Ok (), st') →
    numeric_method (NaFiller.self st') = numeric_method (NaFiller.self st) ∧
    (∀ k imp, num_imputer_dic (NaFiller.self st') !! k = Some imp →
       num_imputer_dic (NaFiller.self st) !! k = Some imp
       ∨ (k ∈ column_list
          ∧ sklearn.strategy imp = numeric_method (NaFiller.self st))) ∧
    (∀ k, is_Some (num_imputer_dic (NaFiller.self st) !! k) →
          is_Some (num_imputer_dic (NaFiller.self st') !! k)) ∧
    (∀ c dt, c ∈ column_list →
       pd.dtypes_getitem (NaFiller.data st) c = Ok dt → dt ∈ [float64; int64] →
       is_Some (num_imputer_dic (NaFiller.self st') !! c)).
Proof.
  induction column_list as [|c0 l IH]; intros st st' Hrun.
  { cbn in Hrun. injection Hrun as <-. split_and!; [done | auto | auto |].
    by intros c dt ?%elem_of_nil. }
  apply for_inv in Hrun as (st1 & Hbody & Hrest).
  destruct (fit_transform_body_rules _ _ _ Hbody) as (Hm1 & Hfrom1 & Hkeep1 & Hnew1).
  destruct (IH _ _ Hrest) as (Hm & Hfrom & Hkeep & Hnew).
  split_and!.
  - by rewrite Hm.
  - intros k imp [Hk | [Hk Himp]]%Hfrom.
    + apply Hfrom1 in Hk as [Hk | [-> Himp]]; [by left |].
      right. split; [by left | done].
    + right. split; [by right | by rewrite <-Hm1].
  - auto.
  - intros c dt [-> | Hc]%elem_of_cons Hdt Hnum.
    + apply Hkeep. by eapply Hnew1.
    + destruct (fit_transform_body_numeric _ c _ _ _ Hbody Hdt Hnum)
        as (dt' & Hdt' & Hnum').
      by eapply Hnew.
Qed.

(** X3. When [fit_transform] returns, the filler holds a fill rule for
    every listed column that was numeric in the input; it has lost no
    rule it had, and a rule it did not have is for a listed column and
    of the method of the filler. *)
Theorem fit_transform_stores_rules (column_list : list string)
    (st st' : NaFiller.store) (filled : DataFrame) :
  NaFiller.fit_transform column_list st = (Ok filled, st') →
  (∀ c dt, c ∈ column_list →
     pd.dtypes_getitem (NaFiller.data st) c = Ok dt → dt ∈ [float64; int64] →
     is_Some (num_imputer_dic (NaFiller.self st') !! c)) ∧
  (∀ k, is_Some (num_imputer_dic (NaFiller.self st) !! k) →
        is_Some (num_imputer_dic (NaFiller.self st') !! k)) ∧
  (∀ k imp, num_imputer_dic (NaFiller.self st') !! k = Some imp →
     num_imputer_dic (NaFiller.self st) !! k = Some imp
     ∨ (k ∈ column_list
        ∧ sklearn.strategy imp = numeric_method (NaFiller.self st))).
Proof.
  intros [Hrun _]%fit_transform_inv.
  destruct (for_fit_transform_rules _ _ _ Hrun) as (_ & Hfrom & Hkeep & Hnew).
  by split_and!.
Qed.

Lemma fit_transform_stores_rules_witness :
  ∃ (filled : DataFrame) (st' : NaFiller.store),
    NaFiller.fit_transform ["c"; "a"; "b"]
      (NaFiller.mkStore (NaFiller.init "mean") examples.mixed) = (Ok filled, st') ∧
    is_Some (num_imputer_dic (NaFiller.self st') !! "a") ∧
    is_Some (num_imputer_dic (NaFiller.self st') !! "b").
Proof.
  eexists _, _.
  assert (Hrun :
    NaFiller.fit_transform ["c"; "a"; "b"]
      (NaFiller.mkStore (NaFiller.init "mean") examples.mixed)
    = (Ok (NaFiller.data
             (NaFiller.fit_transform ["c"; "a"; "b"]
                (NaFiller.mkStore (NaFiller.init "mean") examples.mixed)).2),
       (NaFiller.fit_transform ["c"; "a"; "b"]
          (NaFiller.mkStore (NaFiller.init "mean") examples.mixed)).2))
    by (vm_compute; reflexivity).
  split; [exact Hrun |].
  destruct (fit_transform_stores_rules _ _ _ _ Hrun) as (Hnew & _ & _).
  split.
  - apply (Hnew "a" float64); [repeat constructor | reflexivity | by left].
  - apply (Hnew "b" float64); [repeat constructor | reflexivity | by left].
Defined.

(** ** NaFiller: no missing entry is left *)

Lemma setitem_length (data data' : DataFrame) (column : string) (dt : dtype)
    (values : list cell) :
  pd.setitem data column dt values = Ok data' →
  length values = length (pd.index data).
Proof.
  unfold pd.setitem, pd.index. case_decide; [| done]. intros _.
  by rewrite length_fmap.
Qed.

Lemma setitem_filled (data data' : DataFrame) (written column : string)
    (dt : dtype) (values : list cell) :
  pd.rectangular data →
  pd.setitem data written dt values = Ok data' →
  Forall (λ c, isnull c = false) values →
  (filled_column data' written) ∧
  (filled_column data column → filled_column data' column).
Proof.
  intros Hrect Hset Hvalues.
  assert (Hwritten : filled_column data' written).
  { exists (zip (pd.index data) values).
    split; [by apply (getitem_setitem _ _ _ dt) |].
    rewrite snd_zip; [done |]. by rewrite (setitem_length _ _ _ _ _ Hset). }
  split; [done |]. intros (s & Hs & Hfilled).
  destruct (decide (column = written)) as [-> | Hne]; [done |].
  exists s. split; [| done]. rewrite <-Hs. by eapply getitem_setitem_ne.
Qed.

Lemma fillna_filled (s : Series) :
  Forall (λ c, isnull c = false) (pd.fillna s (Str "missing")).*2.
Proof.
  unfold pd.fillna. rewrite <-list_fmap_compose. apply Forall_fmap, Forall_forall.
  intros [l c] _. cbn. by destruct (isnull c) eqn:Hc.
Qed.

Lemma zeros_filled (n : nat) : Forall (λ c, isnull c = false) (np.zeros n).
Proof. unfold np.zeros. by apply Forall_replicate. Qed.

Lemma Series_setitem_filled (s s' : Series) (key : list Z) (value : cell) :
  pd.Series_setitem s key value = Ok s' →
  isnull value = false →
  Forall (λ c, isnull c = false) s.*2 → Forall (λ c, isnull c = false) s'.*2.
Proof.
  unfold pd.Series_setitem. intros Hset Hvalue Hs.
  repeat case_decide; simplify_eq.
  rewrite <-list_fmap_compose. apply Forall_fmap, Forall_forall.
  intros [l c] Hin. cbn. case_decide; [done |]. cbn.
  rewrite Forall_fmap, Forall_forall in Hs. by apply (Hs (l, c)).
Qed.

Lemma sklearn_fit_transform_filled (strategy : string) (X : list cell)
    (imp : sklearn.Imputer) (values : list cell) :
  sklearn.fit_transform strategy X = Ok (imp, [values]) →
  Forall (λ c, isnull c = false) values.
Proof.
  unfold sklearn.fit_transform, sklearn.fit, sklearn.transform, mbind, Result_bind.
  case_decide; [| done].
  destruct (sklearn.check_array X) as [xs|]; [| done]. cbn.
  destruct (sklearn.statistic _ _); intros [= _ <-].
  by apply Forall_fmap, Forall_forall.
Qed.

(** A turn of the loop of [fit_transform] that returns leaves its column
    without a missing entry, and no column that had none gets one. *)
Lemma fit_transform_body_filled (c0 : string) (st st' : NaFiller.store) :
  pd.rectangular (NaFiller.data st) →
  NaFiller.fit_transform_body c0 st = (Ok (), st') →
  pd.rectangular (NaFiller.data st') ∧
  filled_column (NaFiller.data st') c0 ∧
  (∀ c, filled_column (NaFiller.data st) c → filled_column (NaFiller.data st') c).
Proof.
  intros Hrect
    [(s & Hdt0 & Hs & Hset & _)
    |(dt0 & dtf & s & s1 & fl & fl' & X & d1 & d2 & imp & values
      & _ & _ & _ & Hd1 & _ & _ & Hfl & Hfl' & Hd2 & _ & Himp & Hd3 & _)]
    %fit_transform_body_inv.
  - split_and!.
    + by eapply setitem_rectangular.
    + exact (proj1 (setitem_filled _ _ c0 c0 _ _ Hrect Hset (fillna_filled s))).
    + intros c.
      exact (proj2 (setitem_filled _ _ c0 c _ _ Hrect Hset (fillna_filled s))).
  - pose proof (setitem_rectangular _ _ _ _ _ Hd1 Hrect) as Hrect1.
    pose proof (setitem_rectangular _ _ _ _ _ Hd2 Hrect1) as Hrect2.
    assert (Hflags : Forall (λ c, isnull c = false) fl'.*2).
    { eapply Series_setitem_filled; [exact Hfl' | done |].
      rewrite (getitem_setitem _ _ _ _ _ Hrect Hd1) in Hfl. injection Hfl as <-.
      rewrite snd_zip; [apply zeros_filled |].
      by rewrite (setitem_length _ _ _ _ _ Hd1). }
    pose proof (sklearn_fit_transform_filled _ _ _ _ Himp) as Hvalues.
    split_and!.
    + by eapply setitem_rectangular.
    + exact (proj1 (setitem_filled _ _ c0 c0 _ _ Hrect2 Hd3 Hvalues)).
    + intros c Hc.
      apply (proj2 (setitem_filled _ _ _ c _ _ Hrect2 Hd3 Hvalues)).
      apply (proj2 (setitem_filled _ _ _ c _ _ Hrect1 Hd2 Hflags)).
      by apply (proj2 (setitem_filled _ _ _ c _ _ Hrect Hd1 (zeros_filled _))).
Qed.

Lemma for_fit_transform_filled (column_list : list string) :
  ∀ st st' : NaFiller.store,
    pd.rectangular (NaFiller.data st) →
    NaFiller.for_ column_list NaFiller.fit_transform_body st = (Ok (), st') →
    pd.rectangular (NaFiller.data st') ∧
    (∀ c, c ∈ column_list ∨ filled_column (NaFiller.data st) c →
          filled_column (NaFiller.data st') c).
Proof.
  induction column_list as [|c0 l IH]; intros st st' Hrect Hrun.
  { cbn in Hrun. injection Hrun as <-. split; [done |].
    by intros c [?%elem_of_nil | ?]. }
  apply for_inv in Hrun as (st1 & Hbody & Hrest).
  destruct (fit_transform_body_filled _ _ _ Hrect Hbody) as (Hrect1 & Hc0 & Hkeep).
  destruct (IH _ _ Hrect1 Hrest) as (Hrect' & Hall).
  split; [done |].
  intros c [[-> | Hc]%elem_of_cons | Hc]; apply Hall; auto.
Qed.

(** X4. When [fit_transform] returns for a rectangular table, no listed
    column of the table it returns has a missing entry, and no other
    column has got one. *)
Theorem fit_transform_fills (column_list : list string)
    (st st' : NaFiller.store) (filled : DataFrame) :
  pd.rectangular (NaFiller.data st) →
  NaFiller.fit_transform column_list st = (Ok filled, st') →
  pd.rectangular filled ∧
  (∀ c, c ∈ column_list → filled_column filled c) ∧
  (∀ c, filled_column (NaFiller.data st) c → filled_column filled c).
Proof.
  intros Hrect [Hrun ->]%fit_transform_inv.
  destruct (for_fit_transform_filled _ _ _ Hrect Hrun) as [Hrect' Hall].
  split_and!; auto.
Qed.

Lemma fit_transform_fills_witness :
  ∃ (filled : DataFrame) (st' : NaFiller.store),
    pd.rectangular examples.mixed ∧
    NaFiller.fit_transform ["c"; "a"; "b"]
      (NaFiller.mkStore (NaFiller.init "mean") examples.mixed) = (Ok filled, st') ∧
    pd.rectangular filled ∧
    (∀ c, c ∈ ["c"; "a"; "b"] → filled_column filled c) ∧
    (∀ c, filled_column examples.mixed c → filled_column filled c).
Proof.
  eexists _, _.
  assert (Hrect : pd.rectangular examples.mixed) by (repeat constructor).
  assert (Hrun :
    NaFiller.fit_transform ["c"; "a"; "b"]
      (NaFiller.mkStore (NaFiller.init "mean") examples.mixed)
    = (Ok (NaFiller.data
             (NaFiller.fit_transform ["c"; "a"; "b"]
                (NaFiller.mkStore (NaFiller.init "mean") examples.mixed)).2),
       (NaFiller.fit_transform ["c"; "a"; "b"]
          (NaFiller.mkStore (NaFiller.init "mean") examples.mixed)).2))
    by (vm_compute; reflexivity).
  split; [exact Hrect |]. split; [exact Hrun |].
  exact (fit_transform_fills _
           (NaFiller.mkStore (NaFiller.init "mean") examples.mixed) _ _
           Hrect Hrun).
Defined.

(** ** NaFiller: a column that misses nothing *)

Lemma where_none (col : list cell) :
  Forall (λ c, isnull c = false) col → np.where_ (isnull <$> col) = [].
Proof.
  intros Hcol. apply elem_of_nil_inv. intros i Hi%where_spec.
  rewrite list_lookup_fmap in Hi.
  destruct (col !! i) as [c|] eqn:Hc; [| done]. cbn in Hi.
  eapply Forall_lookup_1 in Hcol; [| exact Hc]. cbn in Hcol. congruence.
Qed.

Lemma check_array_numbers (X : list cell) :
  X ≠ [] → Forall (λ c, ∃ q, c = Num q) X →
  sklearn.check_array X
  = Ok ((λ c, match c with Num q => Some q | _ => None end) <$> X).
Proof.
  intros Hne HX. unfold sklearn.check_array. rewrite decide_False by done.
  clear Hne. induction HX as [|c X [q ->] _ IH]; [done |].
  cbn. cbn in IH. by rewrite IH.
Qed.

(** The imputer leaves a column of numbers as it is. *)
Lemma sklearn_fit_transform_numbers (strategy : string) (X : list cell) :
  strategy ∈ ["mean"; "median"; "most_frequent"] →
  X ≠ [] → Forall (λ c, ∃ q, c = Num q) X →
  ∃ imp, sklearn.fit_transform strategy X = Ok (imp, [X]).
Proof.
  intros Hstrategy Hne HX.
  unfold sklearn.fit_transform, sklearn.fit, sklearn.transform, mbind, Result_bind.
  rewrite decide_True, (check_array_numbers X) by done. cbn.
  unfold sklearn.statistic.
  rewrite decide_False.
  - eexists. f_equal. f_equal.
    assert (Hsame : ∀ stat : Qc,
      (λ x : option Qc, Num (default stat x))
        <$> ((λ c, match c with Num q => Some q | _ => None end) <$> X) = X).
    { intros stat. rewrite <-list_fmap_compose.
      rewrite <-(list_fmap_id X) at 2. apply Forall_fmap_ext_1.
      eapply Forall_impl; [exact HX |]. by intros c [q ->]. }
    repeat case_decide; by rewrite Hsame.
  - destruct HX as [|c X [q ->] _]; [done |]. done.
Qed.

Lemma numbers_filled (X : list cell) :
  Forall (λ c, ∃ q, c = Num q) X → Forall (λ c, isnull c = false) X.
Proof. intros HX. eapply Forall_impl; [exact HX |]. by intros c [q ->]. Qed.

Lemma Series_setitem_nil (s : Series) (value : cell) :
  NoDup s.*1 → pd.Series_setitem s [] value = Ok s.
Proof.
  intros Hnodup. unfold pd.Series_setitem.
  rewrite decide_True, decide_True by done. f_equal.
  rewrite <-(list_fmap_id s) at 2. apply list_fmap_ext.
  intros i p _. by rewrite decide_False by (by intros ?%elem_of_nil).
Qed.

Lemma setitem_shape0 (data data' : DataFrame) (column : string) (dt : dtype)
    (values : list cell) :
  pd.setitem data column dt values = Ok data' →
  length (rows data') = length (rows data).
Proof.
  intros Hset%setitem_index. unfold pd.index in Hset.
  by rewrite <-(length_fmap fst (rows data')), Hset, length_fmap.
Qed.

(** X5. A column of floats that misses no entry comes out of
    [fit_transform] as it went in, with a flag column of zeros, whatever
    the labels of the index are, as long as none is repeated (in a table
    with one cell per column in each row, and no two columns of the
    same name). *)
Theorem fit_transform_complete_column (st : NaFiller.store) (column : string)
    (s : Series) :
  NoDup (pd.columns_tolist (NaFiller.data st)) →
  pd.rectangular (NaFiller.data st) →
  NoDup (pd.index (NaFiller.data st)) →
  pd.dtypes_getitem (NaFiller.data st) column = Ok float64 →
  pd.getitem (NaFiller.data st) column = Ok s →
  s ≠ [] →
  Forall (λ c, ∃ q, c = Num q) s.*2 →
  numeric_method (NaFiller.self st) ∈ ["mean"; "median"; "most_frequent"] →
  ∃ (filled : DataFrame) (st' : NaFiller.store),
    NaFiller.fit_transform [column] st = (Ok filled, st') ∧
    pd.getitem filled column = Ok s ∧
    pd.getitem filled (column +:+ "_flag")
    = Ok ((λ l, (l, Num (Q2Qc 0))) <$> pd.index (NaFiller.data st)).
Proof.
  intros _ Hrect Hindex Hdt Hs Hne Hnumbers Hmethod.
  destruct (getitem_length _ _ _ Hs) as [Hlen Hsidx].
  destruct (setitem_ok (NaFiller.data st) (column +:+ "_flag") float64
              (np.zeros (length s))) as [d1 Hd1].
  { unfold np.zeros. by rewrite length_replicate. }
  pose proof (getitem_setitem_ne _ _ _ column _ _ Hrect Hd1 (flag_name_fresh column))
    as Hs1.
  rewrite Hs in Hs1.
  pose proof (getitem_setitem _ _ _ _ _ Hrect Hd1) as Hflag1.
  pose proof (setitem_dtypes_eq _ _ _ _ _ Hd1) as Hdt1.
  pose proof (setitem_rectangular _ _ _ _ _ Hd1 Hrect) as Hrect1.
  pose proof (setitem_index _ _ _ _ _ Hd1) as Hidx1.
  assert (Hzeros : (zip (pd.index (NaFiller.data st)) (np.zeros (length s))).*2
                   = np.zeros (length s)).
  { rewrite snd_zip; [done |].
    unfold np.zeros. by rewrite length_replicate, <-Hsidx, length_fmap. }
  destruct (setitem_ok d1 (column +:+ "_flag") float64 (np.zeros (length s)))
    as [d2 Hd2].
  { unfold np.zeros.
    by rewrite length_replicate, Hlen, (setitem_shape0 _ _ _ _ _ Hd1). }
  pose proof (getitem_setitem _ _ _ _ _ Hrect1 Hd2) as Hflag2.
  pose proof (getitem_setitem_ne _ _ _ column _ _ Hrect1 Hd2 (flag_name_fresh column))
    as Hs2.
  rewrite Hs1 in Hs2.
  pose proof (setitem_rectangular _ _ _ _ _ Hd2 Hrect1) as Hrect2.
  pose proof (setitem_index _ _ _ _ _ Hd2) as Hidx2.
  destruct (sklearn_fit_transform_numbers _ s.*2 Hmethod) as [imp Himp];
    [by destruct s | done |].
  destruct (setitem_ok d2 column float64 s.*2) as [d3 Hd3].
  { by rewrite length_fmap, Hlen, (setitem_shape0 _ _ _ _ _ Hd2),
      (setitem_shape0 _ _ _ _ _ Hd1). }
  exists d3. eexists. split_and!.
  - unfold NaFiller.fit_transform, NaFiller.fit_transform_body. py_unfold.
    cbn [NaFiller.for_]. py_unfold. cbn.
    rewrite Hdt, decide_False, Hs, Hd1 by (intros Hout; apply Hout; by left). cbn.
    rewrite Hs1, Hdt1, Hflag1. cbn.
    rewrite (where_none _ (numbers_filled _ Hnumbers)). cbn.
    rewrite Series_setitem_nil, Hzeros, Hd2.
    2:{ rewrite fst_zip; [done |].
        unfold np.zeros. by rewrite length_replicate, <-Hsidx, length_fmap. } cbn. rewrite Hs2, Himp. cbn. py_unfold. cbn.
    rewrite Hd3. reflexivity.
  - rewrite (getitem_setitem _ _ _ _ _ Hrect2 Hd3), Hidx2, Hidx1, <-Hsidx.
    f_equal. apply zip_fst_snd.
  - rewrite (getitem_setitem_ne _ _ _ _ _ _ Hrect2 Hd3)
      by (intros Heq; by apply (flag_name_fresh column)).
    rewrite Hflag2, Hidx1. f_equal.
    rewrite <-(length_fmap fst s), Hsidx. apply zip_zeros.
Qed.

Lemma fit_transform_complete_column_witness :
  ∃ (filled : DataFrame) (st' : NaFiller.store),
    NaFiller.fit_transform ["x"]
      (NaFiller.mkStore (NaFiller.init "median") more_examples.complete)
    = (Ok filled, st') ∧
    pd.getitem filled "x" = Ok [(3%Z, Num (Q2Qc 1)); (7%Z, Num (Q2Qc 2))] ∧
    pd.getitem filled ("x" +:+ "_flag")
    = Ok ((λ l, (l, Num (Q2Qc 0))) <$> pd.index more_examples.complete).
Proof.
  apply (fit_transform_complete_column
           (NaFiller.mkStore (NaFiller.init "median") more_examples.complete)
           "x").
  - apply (bool_decide_unpack _). by vm_compute.
  - repeat constructor.
  - apply (bool_decide_unpack _). by vm_compute.
  - reflexivity.
  - reflexivity.
  - done.
  - repeat (constructor; [by eexists |]). constructor.
  - cbn. right. by left.
Defined.

(** ** NaFiller: category columns *)

Lemma bodies_agree_on_object (column : string) (st : NaFiller.store) :
  pd.dtypes_getitem (NaFiller.data st) column = Ok object →
  NaFiller.fit_transform_body column st = NaFiller.transform_body column st.
Proof.
  intros Hdt. unfold NaFiller.fit_transform_body, NaFiller.transform_body.
  py_unfold. rewrite Hdt. by rewrite decide_True by (by intros ?%numeric_not_object).
Qed.

(** On category columns the two loops do the same: they fill the columns
    in, return, and leave the filler alone. *)
Lemma for_object (column_list : list string) :
  ∀ st : NaFiller.store,
    Forall (λ c, pd.dtypes_getitem (NaFiller.data st) c = Ok object) column_list →
    ∃ d : DataFrame,
      NaFiller.for_ column_list NaFiller.transform_body st
      = (Ok (), NaFiller.mkStore (NaFiller.self st) d) ∧
      NaFiller.for_ column_list NaFiller.fit_transform_body st
      = (Ok (), NaFiller.mkStore (NaFiller.self st) d) ∧
      (∀ c, pd.dtypes_getitem (NaFiller.data st) c = Ok object →
            pd.dtypes_getitem d c = Ok object).
Proof.
  induction column_list as [|c0 l IH]; intros st Hobj.
  { exists (NaFiller.data st). by destruct st. }
  apply Forall_cons in Hobj as [Hc0 Hl].
  destruct (transform_body_object c0 st Hc0) as (s & d' & Hs & Hd' & Hbody).
  assert (Hkeep : ∀ c, pd.dtypes_getitem (NaFiller.data st) c = Ok object →
                       pd.dtypes_getitem d' c = Ok object).
  { intros c Hc. destruct (decide (c = c0)) as [-> | Hne].
    - by eapply setitem_dtypes_eq.
    - rewrite <-Hc. by eapply setitem_dtypes_ne. }
  destruct (IH (NaFiller.mkStore (NaFiller.self st) d')) as (d & Ht & Hf & Hkeep').
  { eapply Forall_impl; [exact Hl |]. cbn. auto. }
  exists d. split_and!.
  - by rewrite for_cons, Hbody.
  - by rewrite for_cons, bodies_agree_on_object, Hbody.
  - auto.
Qed.

(** Writing back what a column holds changes nothing. *)
Lemma setitem_same (data : DataFrame) (column : string) (dt : dtype) (s : Series) :
  pd.getitem data column = Ok s →
  pd.dtypes_getitem data column = Ok dt →
  pd.setitem data column dt s.*2 = Ok data.
Proof.
  unfold pd.getitem, pd.dtypes_getitem, pd.setitem, pd.get_loc.
  destruct (list_find (λ c, c.1 = column) (columns data)) as [[j [c d]]|] eqn:Hfind;
    [| done].
  cbn. intros [= <-] [= ->].
  apply list_find_Some in Hfind as (Hj & Hc & _). cbn in Hc. subst c.
  rewrite decide_True by (by rewrite !length_fmap).
  f_equal. destruct data as [cols rs]. cbn in *. f_equal.
  - by apply list_insert_id.
  - clear Hj. induction rs as [|[l r] rs IH]; [done |]. cbn. f_equal; [| done].
    f_equal. destruct (decide (j < length r)) as [Hlt | Hge].
    + apply list_insert_id. by apply list_lookup_lookup_total_lt.
    + apply list_insert_ge. lia.
Qed.

Lemma fillna_same (s : Series) :
  Forall (λ c, isnull c = false) s.*2 → pd.fillna s (Str "missing") = s.
Proof.
  intros Hs. unfold pd.fillna. rewrite <-(list_fmap_id s) at 2.
  apply Forall_fmap_ext_1. rewrite Forall_fmap in Hs.
  eapply Forall_impl; [exact Hs |]. intros [l c]. cbn. by intros ->.
Qed.

(** A category column without a missing entry is left as it is by a
    turn of either loop. *)
Lemma transform_body_fixed (column : string) (self : NaFiller) (d : DataFrame) :
  pd.dtypes_getitem d column = Ok object →
  filled_column d column →
  NaFiller.transform_body column (NaFiller.mkStore self d)
  = (Ok (), NaFiller.mkStore self d).
Proof.
  intros Hdt (s & Hs & Hfilled).
  destruct (transform_body_object column (NaFiller.mkStore self d) Hdt)
    as (s' & d' & Hs' & Hd' & ->).
  cbn in *. rewrite Hs in Hs'. injection Hs' as <-.
  rewrite (fillna_same _ Hfilled), (setitem_same _ _ _ _ Hs Hdt) in Hd'.
  by injection Hd' as <-.
Qed.

Lemma for_fixed (column_list : list string) (self : NaFiller) (d : DataFrame) :
  Forall (λ c, pd.dtypes_getitem d c = Ok object ∧ filled_column d c) column_list →
  NaFiller.for_ column_list NaFiller.transform_body (NaFiller.mkStore self d)
  = (Ok (), NaFiller.mkStore self d).
Proof.
  induction 1 as [|c0 l [Hdt Hfilled] _ IH]; [done |].
  by rewrite for_cons, transform_body_fixed.
Qed.

(** X6. On category columns [fit_transform] and [transform] are the same
    function: for a table with one cell per column in each row and no
    two columns of the same name, and a list of category columns, both
    return the same table and leave the filler as it was, and either of
    them applied to that table returns it unchanged. *)
Theorem category_columns_round_trip (column_list : list string)
    (st : NaFiller.store) :
  NoDup (pd.columns_tolist (NaFiller.data st)) →
  pd.rectangular (NaFiller.data st) →
  Forall (λ c, pd.dtypes_getitem (NaFiller.data st) c = Ok object) column_list →
  ∃ filled : DataFrame,
    NaFiller.fit_transform column_list st
    = (Ok filled, NaFiller.mkStore (NaFiller.self st) filled) ∧
    NaFiller.transform column_list st
    = (Ok filled, NaFiller.mkStore (NaFiller.self st) filled) ∧
    NaFiller.transform column_list (NaFiller.mkStore (NaFiller.self st) filled)
    = (Ok filled, NaFiller.mkStore (NaFiller.self st) filled) ∧
    NaFiller.fit_transform column_list (NaFiller.mkStore (NaFiller.self st) filled)
    = (Ok filled, NaFiller.mkStore (NaFiller.self st) filled).
Proof.
  intros _ Hrect Hobj.
  destruct (for_object column_list st Hobj) as (d & Ht & Hf & Hkeep).
  destruct (for_fit_transform_filled _ _ _ Hrect Hf) as [_ Hfilled]. cbn in Hfilled.
  assert (Hfixed : Forall (λ c, pd.dtypes_getitem d c = Ok object
                                ∧ filled_column d c) column_list).
  { apply Forall_forall. intros c Hc. split; [| by auto].
    apply Hkeep. by eapply Forall_forall in Hobj. }
  assert (Hobj' : Forall (λ c, pd.dtypes_getitem d c = Ok object) column_list).
  { eapply Forall_impl; [exact Hfixed |]. by intros c [? _]. }
  pose proof (for_fixed column_list (NaFiller.self st) d Hfixed) as Ht2.
  destruct (for_object column_list (NaFiller.mkStore (NaFiller.self st) d) Hobj')
    as (d2 & Ht2' & Hf2 & _).
  rewrite Ht2 in Ht2'. injection Ht2' as <-.
  exists d. unfold NaFiller.fit_transform, NaFiller.transform. py_unfold.
  by rewrite Ht, Hf, Ht2, Hf2.
Qed.

Lemma category_columns_round_trip_witness :
  ∃ filled : DataFrame,
    NaFiller.fit_transform ["c"; "d"]
      (NaFiller.mkStore (NaFiller.init "mean") more_examples.categories)
    = (Ok filled, NaFiller.mkStore (NaFiller.init "mean") filled) ∧
    NaFiller.transform ["c"; "d"]
      (NaFiller.mkStore (NaFiller.init "mean") more_examples.categories)
    = (Ok filled, NaFiller.mkStore (NaFiller.init "mean") filled) ∧
    NaFiller.transform ["c"; "d"] (NaFiller.mkStore (NaFiller.init "mean") filled)
    = (Ok filled, NaFiller.mkStore (NaFiller.init "mean") filled) ∧
    NaFiller.fit_transform ["c"; "d"]
      (NaFiller.mkStore (NaFiller.init "mean") filled)
    = (Ok filled, NaFiller.mkStore (NaFiller.init "mean") filled).
Proof.
  apply (category_columns_round_trip ["c"; "d"]
           (NaFiller.mkStore (NaFiller.init "mean") more_examples.categories)).
  - apply (bool_decide_unpack _). by vm_compute.
  - repeat constructor.
  - by repeat constructor.
Defined.

(** ** Lists of column names *)

Lemma remove1_Permutation (x : string) (l : list string) :
  x ∈ l → l ≡ₚ x :: remove1 x l.
Proof.
  induction l as [|y l IH]; cbn; [by intros ?%elem_of_nil |].
  case_decide as Hxy; [by subst |].
  intros [-> | Hin]%elem_of_cons; [done |].
  rewrite (IH Hin) at 1. apply Permutation_swap.
Qed.

Lemma remove1_sublist (x : string) (l : list string) : remove1 x l `sublist_of` l.
Proof.
  induction l as [|y l IH]; cbn; [done |].
  case_decide; [by apply sublist_cons | by apply sublist_skip].
Qed.

Lemma remove_each_inv (id_columns : list string) :
  ∀ l l', remove_each id_columns l = Ok l' →
          l ≡ₚ id_columns ++ l' ∧ l' `sublist_of` l.
Proof.
  induction id_columns as [|element rest IH]; intros l l'; cbn.
  { by intros [= <-]. }
  unfold list_remove, mbind, Result_bind. case_decide as Hin; [| done].
  intros [Hperm Hsub]%IH. split.
  - rewrite (remove1_Permutation _ _ Hin). by constructor.
  - etrans; [exact Hsub | apply remove1_sublist].
Qed.

Lemma filter_all {A} (P : A → Prop) `{!∀ x, Decision (P x)} (l : list A) :
  Forall P l → filter P l = l.
Proof.
  induction 1 as [|x l Hx _ IH]; [done |].
  rewrite filter_cons_True by done. by rewrite IH.
Qed.

Lemma remove1_filter (x : string) (l : list string) :
  NoDup l → remove1 x l = filter (λ c, c ≠ x) l.
Proof.
  induction 1 as [|y l Hy Hnodup IH]; [done |]. cbn [remove1].
  destruct (decide (x = y)) as [-> | Hne].
  - rewrite filter_cons_False by (by intros ?). symmetry. apply filter_all.
    apply Forall_forall. by intros c Hc ->.
  - rewrite filter_cons_True by done. by rewrite IH.
Qed.

Lemma remove_absent (x : string) (l : list string) :
  x ∉ l → filter (λ c, c ≠ x) l = l.
Proof. intros Hx. apply filter_all, Forall_forall. by intros c Hc ->. Qed.

Lemma remove_present_filter (id_columns : list string) :
  ∀ l, NoDup l → remove_present id_columns l = filter (λ c, c ∉ id_columns) l.
Proof.
  unfold remove_present.
  induction id_columns as [|element rest IH]; intros l Hnodup; cbn.
  { symmetry. apply filter_all, Forall_forall. by intros c _ ?%elem_of_nil. }
  assert (Hstep : (if decide (element ∈ l) then remove1 element l else l)
                  = filter (λ c, c ≠ element) l).
  { case_decide; [by apply remove1_filter | by rewrite remove_absent]. }
  rewrite Hstep, IH by (by apply NoDup_filter).
  rewrite list_filter_filter. apply list_filter_iff. intros c.
  rewrite elem_of_cons. tauto.
Qed.

Lemma remove_each_filter (id_columns : list string) :
  ∀ l l', NoDup l → remove_each id_columns l = Ok l' →
          l' = filter (λ c, c ∉ id_columns) l.
Proof.
  induction id_columns as [|element rest IH]; intros l l' Hnodup; cbn.
  { intros [= <-]. symmetry. apply filter_all, Forall_forall.
    by intros c _ ?%elem_of_nil. }
  unfold list_remove, mbind, Result_bind. case_decide as Hin; [| done].
  rewrite remove1_filter by done.
  intros ->%IH; [| by apply NoDup_filter].
  rewrite list_filter_filter. apply list_filter_iff. intros c.
  rewrite elem_of_cons. tauto.
Qed.

Lemma locate_names (data : DataFrame) (column_list : list string) :
  ∀ locs, pd.locate data column_list = Ok locs → locs.*2.*1 = column_list.
Proof.
  unfold pd.locate. induction column_list as [|c l IH]; intros locs; cbn.
  { by intros [= <-]. }
  unfold mbind, Result_bind.
  destruct (list_find _ _) as [[j d]|] eqn:Hfind; [| done].
  destruct (mapM _ l) as [locs'|]; [| done].
  intros [= <-]. cbn. apply list_find_Some in Hfind as (_ & <- & _).
  f_equal. by apply IH.
Qed.

Lemma getitems_columns_tolist (data out : DataFrame) (column_list : list string) :
  pd.getitems data column_list = Ok out → pd.columns_tolist out = column_list.
Proof.
  intros (locs & Hlocs & Hcols & _)%getitems_rows.
  unfold pd.columns_tolist. rewrite Hcols. by eapply locate_names.
Qed.

Lemma getitems_index (data out : DataFrame) (column_list : list string) :
  pd.getitems data column_list = Ok out → pd.index out = pd.index data.
Proof.
  intros (locs & _ & _ & Hrows)%getitems_rows.
  unfold pd.index. rewrite Hrows, <-list_fmap_compose. done.
Qed.

(** ** OutlierDetector.isolation_forest *)

Section isolation_forest_facts.

Variable column_type_detection :
  DataFrame → list string → string → Result (list string * list string).
Variable CategoryFeatureEngineer_fit_transform :
  list string → DataFrame → Result DataFrame.
Variable IsolationForest_decision_function : DataFrame → Result (list float).

Local Abbreviation isolation_forest' :=
  (OutlierDetector.isolation_forest column_type_detection
     CategoryFeatureEngineer_fit_transform IsolationForest_decision_function).
Local Abbreviation wash_data' :=
  (wash_data column_type_detection CategoryFeatureEngineer_fit_transform
     IsolationForest_decision_function).

(** The steps of a run of [isolation_forest] that returns. *)
Lemma isolation_forest_inv (self : OutlierDetector) (outlier_index : list nat)
    (out out' : stdout) :
  isolation_forest' self out = (Ok outlier_index, out') →
  ∃ (data features features' : DataFrame) (types : list string * list string)
    (feature_score : list float),
    (NaFiller.fit_transform (pd.columns_tolist (od_data self))
       (NaFiller.mkStore (NaFiller.init "mean") (od_data self))).1 = Ok data ∧
    od_target_column self ∈ pd.columns_tolist data ∧
    pd.getitems data
      (remove_present (od_id_columns self)
         (remove1 (od_target_column self) (pd.columns_tolist data)))
    = Ok features ∧
    column_type_detection data (od_id_columns self) (od_target_column self)
    = Ok types ∧
    CategoryFeatureEngineer_fit_transform types.2 features = Ok features' ∧
    IsolationForest_decision_function features' = Ok feature_score ∧
    feature_score ≠ [] ∧
    outlier_index = OutlierDetector.mean_detection feature_score ∧
    out' = out ++ [outlier_ratio (np.of_nat (length outlier_index)
                                  / np.of_nat (length feature_score))%Qc].
Proof.
  unfold OutlierDetector.isolation_forest, OutlierDetector.preprocess, list_remove.
  py_unfold.
  destruct (NaFiller.fit_transform _ _).1 as [data|]; [| done].
  case_decide as Htarget; [| done].
  destruct (pd.getitems _ _) as [features|] eqn:Hfeatures; [| done].
  destruct (column_type_detection _ _ _) as [types|] eqn:Htypes; [| done].
  destruct (CategoryFeatureEngineer_fit_transform _ _) as [features'|] eqn:Henc;
    [| done].
  destruct (IsolationForest_decision_function _) as [feature_score|] eqn:Hscore;
    [| done].
  case_decide as Hlen; [done |]. cbn. intros [= <- <-].
  exists data, features, features', types, feature_score.
  split_and!; try done. by intros ->.
Qed.

(** A run of [isolation_forest] that raises has printed nothing. *)
Lemma isolation_forest_raises_silent (self : OutlierDetector) (e : exn)
    (out out' : stdout) :
  isolation_forest' self out = (Raise e, out') → out' = out.
Proof.
  unfold OutlierDetector.isolation_forest, OutlierDetector.preprocess, list_remove.
  py_unfold.
  destruct (NaFiller.fit_transform _ _).1 as [data|]; [| by intros [= _ <-]].
  case_decide as Htarget; [| by intros [= _ <-]].
  destruct (pd.getitems _ _) as [features|]; [| by intros [= _ <-]].
  destruct (column_type_detection _ _ _) as [types|]; [| by intros [= _ <-]].
  destruct (CategoryFeatureEngineer_fit_transform _ _) as [features'|];
    [| by intros [= _ <-]].
  destruct (IsolationForest_decision_function _) as [feature_score|];
    [| by intros [= _ <-]].
  case_decide as Hlen; [by intros [= _ <-] | done].
Qed.

(** X7. [isolation_forest] prints when it returns, and only then: it
    returns the positions [mean_detection] flags in a list of scores
    that is not empty, having printed one line, the number of flagged
    positions over the number of scores; when it raises, nothing has
    been printed. *)
Theorem isolation_forest_prints_ratio (self : OutlierDetector)
    (r : Result (list nat)) (out out' : stdout) :
  isolation_forest' self out = (r, out') →
  match r with
  | Ok outlier_index =>
      ∃ feature_score : list float,
        feature_score ≠ [] ∧
        outlier_index = OutlierDetector.mean_detection feature_score ∧
        out' = out ++ [outlier_ratio (np.of_nat (length outlier_index)
                                      / np.of_nat (length feature_score))%Qc]
  | Raise _ => out' = out
  end.
Proof.
  destruct r as [outlier_index | e].
  - intros (_ & _ & _ & _ & feature_score & _ & _ & _ & _ & _ & _ & ? & ? & ?)
      %isolation_forest_inv. eauto.
  - apply isolation_forest_raises_silent.
Qed.

(** X8. When [wash_data] returns for a table with no two columns of
    the same name, the columns of the table it returns are the columns
    of the input that are not id columns, in the order of the input;
    every name in [id_columns] is a column of the input, and none is
    listed twice.  The row labels are labels of the input, in their
    order. *)
Theorem wash_data_columns (data result : DataFrame) (target_column : string)
    (id_columns : list string) (outlier : bool) (out out' : stdout) :
  NoDup (pd.columns_tolist data) →
  wash_data' data target_column id_columns outlier out = (Ok result, out') →
  NoDup id_columns ∧
  (∀ c, c ∈ id_columns → c ∈ pd.columns_tolist data) ∧
  pd.columns_tolist result
  = filter (λ c, c ∉ id_columns) (pd.columns_tolist data) ∧
  pd.index result `sublist_of` pd.index data.
Proof.
  intros Hnodup
    (outlier_index & out1 & kept & feature_column & _ & Hkept & Hrem & Hget)
    %wash_data_inv.
  assert (Hsub : rows kept `sublist_of` rows data ∧ columns kept = columns data).
  { destruct (washed_rows data) as (Hwashed & _ & _). destruct outlier.
    - destruct Hkept as [(Hcols & ->)%drop_rows _]. split; [| done].
      etrans; [apply sublist_filter | done].
    - by destruct Hkept as [-> _]. }
  destruct Hsub as [Hsub Hcols].
  rewrite (getitems_columns_tolist _ _ _ Hget), (getitems_index _ _ _ Hget).
  unfold pd.columns_tolist in *. rewrite Hcols in Hrem.
  pose proof (remove_each_inv _ _ _ Hrem) as [Hperm _].
  pose proof Hnodup as Hparts. rewrite Hperm in Hparts.
  apply NoDup_app in Hparts as (Hids & _ & _).
  split_and!.
  - done.
  - intros c Hc. rewrite Hperm. apply elem_of_app. by left.
  - by apply remove_each_filter.
  - by apply fmap_sublist.
Qed.

(** X9. What a run of [wash_data] that returns has printed: the ratio
    of [isolation_forest], and after it, when [outlier] is [False] and
    only then, the flagged positions.  A run that raises has printed
    these two lines, the first of them, or nothing. *)
Theorem wash_data_prints (data : DataFrame) (target_column : string)
    (id_columns : list string) (outlier : bool) (r : Result DataFrame)
    (out out' : stdout) :
  wash_data' data target_column id_columns outlier out = (r, out') →
  ∃ lines : list line,
    out' = out ++ lines ∧
    match r with
    | Ok _ =>
        ∃ feature_score : list float,
          let outlier_index := OutlierDetector.mean_detection feature_score in
          feature_score ≠ [] ∧
          lines = outlier_ratio (np.of_nat (length outlier_index)
                                 / np.of_nat (length feature_score))%Qc
                  :: (if outlier then [] else [outlier_rows outlier_index])
    | Raise _ =>
        match lines with
        | [] => True
        | [outlier_ratio _] => True
        | [outlier_ratio _; outlier_rows _] => outlier = false
        | _ => False
        end
    end.
Proof.
  unfold wash_data. py_unfold.
  destruct (isolation_forest' _ out) as [[outlier_index|e] out1] eqn:Hforest.
  - apply isolation_forest_inv in Hforest
      as (_ & _ & _ & _ & feature_score & _ & _ & _ & _ & _ & _ & Hscore & -> & ->).
    destruct outlier; cbn.
    + destruct (pd.drop _ _) as [kept|]; [| intros [= <- <-]; by eexists [_]].
      destruct (remove_each _ _) as [feature_column|];
        [| intros [= <- <-]; by eexists [_]].
      destruct (pd.getitems _ _) as [res|]; intros [= <- <-]; eexists [_];
        (split; [done |]); [by exists feature_score | done].
    + destruct (remove_each _ _) as [feature_column|];
        [| intros [= <- <-]; eexists [_; _]; by rewrite <-app_assoc].
      destruct (pd.getitems _ _) as [res|]; intros [= <- <-]; eexists [_; _];
        (split; [by rewrite <-app_assoc |]); [by exists feature_score | done].
  - apply isolation_forest_raises_silent in Hforest as ->.
    intros [= <- <-]. exists []. by rewrite app_nil_r.
Qed.

End isolation_forest_facts.

Lemma isolation_forest_prints_ratio_witness :
  ∃ (r : Result (list nat)) (out' : stdout),
    OutlierDetector.isolation_forest examples.no_category examples.keep_table
      examples.first_feature
      (mkOutlierDetector (washed examples.with_repetition) "y" ["id"]) []
    = (r, out') ∧
    match r with
    | Ok outlier_index =>
        ∃ feature_score : list float,
          feature_score ≠ [] ∧
          outlier_index = OutlierDetector.mean_detection feature_score ∧
          out' = [] ++ [outlier_ratio (np.of_nat (length outlier_index)
                                       / np.of_nat (length feature_score))%Qc]
    | Raise _ => out' = []
    end.
Proof.
  eexists _, _.
  assert (Hrun :
    OutlierDetector.isolation_forest examples.no_category examples.keep_table
      examples.first_feature
      (mkOutlierDetector (washed examples.with_repetition) "y" ["id"]) []
    = (Ok [10], [outlier_ratio (np.of_nat 1 / np.of_nat 11)%Qc]))
    by (vm_compute; reflexivity).
  split; [exact Hrun |].
  exact (isolation_forest_prints_ratio examples.no_category examples.keep_table
           examples.first_feature _ _ _ _ Hrun).
Defined.

Lemma wash_data_columns_witness :
  ∃ (result : DataFrame) (out' : stdout),
    wash_data examples.no_category examples.keep_table examples.first_feature
      examples.with_repetition "y" ["id"] true [] = (Ok result, out') ∧
    NoDup ["id"] ∧
    (∀ c, c ∈ ["id"] → c ∈ pd.columns_tolist examples.with_repetition) ∧
    pd.columns_tolist result
    = filter (λ c, c ∉ ["id"]) (pd.columns_tolist examples.with_repetition) ∧
    pd.index result `sublist_of` pd.index examples.with_repetition.
Proof.
  eexists _, _.
  assert (Hrun :
    wash_data examples.no_category examples.keep_table examples.first_feature
      examples.with_repetition "y" ["id"] true []
    = (Ok (mkDataFrame [("x", float64); ("y", int64)]
             (((λ i, (Z.of_nat i, [Num (Q2Qc 0); Num (Q2Qc 0)]))
                 <$> [0; 2; 3; 4; 5; 6; 7; 8; 9])
              ++ [(11%Z, [Num (Q2Qc (-100)); Num (Q2Qc 1)])])),
       [outlier_ratio (np.of_nat 1 / np.of_nat 11)%Qc]))
    by (vm_compute; reflexivity).
  split; [exact Hrun |].
  refine (wash_data_columns examples.no_category examples.keep_table
            examples.first_feature _ _ _ _ _ _ _ _ Hrun).
  apply (bool_decide_unpack _). by vm_compute.
Defined.

Lemma wash_data_prints_witness :
  ∃ (r : Result DataFrame) (out' : stdout),
    wash_data examples.no_category examples.keep_table examples.first_feature
      examples.twins_and_sparse "y" ["id"] false [] = (r, out') ∧
    ∃ lines : list line,
      out' = [] ++ lines ∧
      match r with
      | Ok _ =>
          ∃ feature_score : list float,
            let outlier_index := OutlierDetector.mean_detection feature_score in
            feature_score ≠ [] ∧
            lines = outlier_ratio (np.of_nat (length outlier_index)
                                   / np.of_nat (length feature_score))%Qc
                    :: (if false then [] else [outlier_rows outlier_index])
      | Raise _ =>
          match lines with
          | [] => True
          | [outlier_ratio _] => True
          | [outlier_ratio _; outlier_rows _] => false = false
          | _ => False
          end
      end.
Proof.
  eexists _, _.
  assert (Hrun :
    wash_data examples.no_category examples.keep_table examples.first_feature
      examples.twins_and_sparse "y" ["id"] false []
    = (Ok (mkDataFrame [("x", float64); ("y", float64)]
             [(0%Z, [Num (Q2Qc 5); Num (Q2Qc 1)]);
              (1%Z, [Num (Q2Qc 5); Num (Q2Qc 1)]);
              (2%Z, [NaN; NaN])]),
       [outlier_ratio (np.of_nat 0 / np.of_nat 3)%Qc; outlier_rows []]))
    by (vm_compute; reflexivity).
  split; [exact Hrun |].
  exact (wash_data_prints examples.no_category examples.keep_table
           examples.first_feature _ _ _ _ _ _ _ Hrun).
Defined.

(** ** wash_data without id columns *)

Lemma mapM_Forall2 {A B} (f : A → Result B) (l : list A) (k : list B) :
  Forall2 (λ x y, f x = Ok y) l k → mapM f l = Ok k.
Proof.
  induction 1 as [|x y l k Hxy _ IH]; [done |].
  cbn. by rewrite IH, Hxy.
Qed.

Lemma imap_pair_fst {A} (l : list A) : (imap pair l).*1 = seq 0 (length l).
Proof.
  rewrite fmap_imap. apply list_eq. intros i. rewrite list_lookup_imap.
  destruct (l !! i) eqn:Hi; cbn.
  - apply lookup_lt_Some in Hi. by rewrite lookup_seq_lt.
  - apply lookup_ge_None in Hi. by rewrite lookup_seq_ge.
Qed.

Lemma imap_pair_snd {A} (l : list A) : (imap pair l).*2 = l.
Proof.
  rewrite fmap_imap. apply list_eq. intros i. rewrite list_lookup_imap.
  by destruct (l !! i).
Qed.

Lemma lookup_total_seq {A} `{!Inhabited A} (r : list A) :
  (λ j, r !!! j) <$> seq 0 (length r) = r.
Proof.
  apply list_eq. intros i. rewrite list_lookup_fmap.
  destruct (decide (i < length r)) as [Hi | Hi].
  - rewrite lookup_seq_lt by done. cbn. symmetry.
    by apply list_lookup_lookup_total_lt.
  - rewrite lookup_seq_ge by lia. cbn. symmetry. apply lookup_ge_None. lia.
Qed.

(** Every column where it stands, when no two have the same name. *)
Lemma locate_all (data : DataFrame) :
  NoDup (pd.columns_tolist data) →
  pd.locate data (pd.columns_tolist data) = Ok (imap pair (columns data)).
Proof.
  unfold pd.locate, pd.columns_tolist. intros Hnodup.
  apply mapM_Forall2, Forall2_same_length_lookup_2.
  { by rewrite length_fmap, length_imap. }
  intros i c y Hc Hy.
  rewrite list_lookup_fmap in Hc. rewrite list_lookup_imap in Hy.
  destruct (columns data !! i) as [d|] eqn:Hd; [| done].
  cbn in Hc, Hy. injection Hc as <-. injection Hy as <-.
  destruct (list_find _ _) as [[j d']|] eqn:Hfind.
  - apply list_find_Some in Hfind as (Hj & Hname & _).
    assert (j = i) as ->.
    { eapply NoDup_lookup; [exact Hnodup | |].
      - by rewrite list_lookup_fmap, Hj.
      - rewrite list_lookup_fmap, Hd. cbn. by rewrite Hname. }
    by simplify_eq.
  - eapply list_find_None, Forall_lookup in Hfind; [| exact Hd]. done.
Qed.

(** [data[data.columns.tolist()]] is [data]. *)
Lemma getitems_all (data : DataFrame) :
  NoDup (pd.columns_tolist data) → pd.rectangular data →
  pd.getitems data (pd.columns_tolist data) = Ok data.
Proof.
  intros Hnodup Hrect. unfold pd.getitems, mbind, Result_bind.
  rewrite (locate_all _ Hnodup). f_equal. destruct data as [cols rs]. cbn in *.
  rewrite imap_pair_snd, imap_pair_fst. f_equal.
  rewrite <-(list_fmap_id rs) at 2. apply Forall_fmap_ext_1.
  eapply Forall_impl; [exact Hrect |]. intros [l r]. cbn. intros <-.
  unfold pd.take_cells. cbn. by rewrite lookup_total_seq.
Qed.

Lemma keep_first_fixed (rs : list (Z * list cell)) :
  ∀ seen, NoDup rs.*2 → (∀ r, r ∈ rs → r.2 ∉ seen) → pd.keep_first seen rs = rs.
Proof.
  induction rs as [|r rs IH]; intros seen Hnodup Hseen; [done |].
  cbn in *. apply NoDup_cons in Hnodup as [Hr Hnodup].
  rewrite decide_False by (apply Hseen; by left).
  f_equal. apply IH; [done |].
  intros r' Hr' [Heq | Hin]%elem_of_cons.
  - apply Hr. rewrite <-Heq. apply list_elem_of_fmap. by exists r'.
  - eapply Hseen; [by right | done].
Qed.

(** A table that has no two rows with the same cells, and in each row
    the cells the second step asks for, goes through the first two
    steps of [wash_data] as it is. *)
Lemma washed_fixed (data : DataFrame) :
  NoDup (rows data).*2 →
  Forall (λ r, (int (np.of_nat (pd.shape1 data) * Q2Qc (6 # 10))%Qc
                ≤ Z.of_nat (pd.count r.2))%Z) (rows data) →
  washed data = data.
Proof.
  intros Hnodup Hcount. unfold washed, pd.dropna, pd.drop_duplicates, pd.shape1.
  destruct data as [cols rs]. cbn in *. f_equal.
  rewrite keep_first_fixed; [| done | by intros r _ ?%elem_of_nil].
  clear Hnodup. induction Hcount as [|r rs Hr _ IH]; [done |].
  rewrite filter_cons, decide_True by done. by f_equal.
Qed.

Lemma rectangular_sublist (data kept : DataFrame) :
  columns kept = columns data → rows kept `sublist_of` rows data →
  pd.rectangular data → pd.rectangular kept.
Proof.
  unfold pd.rectangular. intros -> Hsub Hrect.
  apply Forall_forall. intros r Hr.
  eapply Forall_forall in Hrect; [exact Hrect |].
  by eapply sublist_subseteq.
Qed.

Section without_ids.

Variable column_type_detection :
  DataFrame → list string → string → Result (list string * list string).
Variable CategoryFeatureEngineer_fit_transform :
  list string → DataFrame → Result DataFrame.
Variable IsolationForest_decision_function : DataFrame → Result (list float).

Local Abbreviation wash_data' :=
  (wash_data column_type_detection CategoryFeatureEngineer_fit_transform
     IsolationForest_decision_function).

(** X10. Without id columns, for a table with one cell per column in
    each row and no two columns of the same name: the table [wash_data]
    returns has the columns of the input and rows left by its first two
    steps (all of them when [outlier] is [False]), and these two steps
    would change nothing in it: no two of its rows have the same cells,
    and none has fewer cells than the threshold. *)
Theorem wash_data_without_ids (data result : DataFrame) (target_column : string)
    (outlier : bool) (out out' : stdout) :
  pd.rectangular data →
  NoDup (pd.columns_tolist data) →
  wash_data' data target_column [] outlier out = (Ok result, out') →
  columns result = columns data ∧
  rows result `sublist_of` rows (washed data) ∧
  (outlier = false → result = washed data) ∧
  NoDup (rows result).*2 ∧
  washed result = result.
Proof.
  intros Hrect Hnodup
    (outlier_index & out1 & kept & feature_column & _ & Hkept & Hrem & Hget)
    %wash_data_inv.
  cbn in Hrem. injection Hrem as <-.
  assert (Hsub : rows kept `sublist_of` rows (washed data)
                 ∧ columns kept = columns data
                 ∧ (outlier = false → kept = washed data)).
  { destruct outlier.
    - destruct Hkept as [(Hcols & ->)%drop_rows _]. split_and!; [| done..].
      apply sublist_filter.
    - destruct Hkept as [-> _]. by split_and!. }
  destruct Hsub as (Hsub & Hcols & Hall).
  destruct (washed_sublist data (rows kept) Hsub) as (Hdata & Hdistinct & Hcount).
  rewrite getitems_all in Hget.
  - injection Hget as <-. split_and!; try done.
    apply washed_fixed; [done |]. unfold pd.shape1 in *. by rewrite Hcols.
  - unfold pd.columns_tolist in *. by rewrite Hcols.
  - by apply (rectangular_sublist data).
Qed.

End without_ids.

Lemma wash_data_without_ids_witness :
  ∃ (result : DataFrame) (out' : stdout),
    wash_data examples.no_category examples.keep_table examples.first_feature
      examples.with_repetition "y" [] false [] = (Ok result, out') ∧
    columns result = columns examples.with_repetition ∧
    rows result `sublist_of` rows (washed examples.with_repetition) ∧
    (false = false → result = washed examples.with_repetition) ∧
    NoDup (rows result).*2 ∧
    washed result = result.
Proof.
  eexists _, _.
  assert (Hrun :
    wash_data examples.no_category examples.keep_table examples.first_feature
      examples.with_repetition "y" [] false []
    = (Ok (washed examples.with_repetition),
       [outlier_ratio (np.of_nat 0 / np.of_nat 11)%Qc; outlier_rows []]))
    by (vm_compute; reflexivity).
  split; [exact Hrun |].
  refine (wash_data_without_ids examples.no_category examples.keep_table
            examples.first_feature _ _ _ _ _ _ _ _ Hrun).
  - repeat constructor.
  - apply (bool_decide_unpack _). by vm_compute.
Defined.

(** ** sample_data *)

Lemma insert_count_length (x : cell * nat) (l : list (cell * nat)) :
  length (pd.insert_count x l) = S (length l).
Proof.
  induction l as [|y l IH]; cbn; [done |]. case_decide; cbn; by rewrite ?IH.
Qed.

Lemma foldr_insert_count_length (l : list (cell * nat)) :
  length (foldr pd.insert_count [] l) = length l.
Proof.
  induction l as [|x l IH]; cbn; [done |]. by rewrite insert_count_length, IH.
Qed.

Lemma value_counts_length (s : Series) :
  length (pd.value_counts s)
  = length (pd.unique [] (filter (λ c, isnull c = false) s.*2)).
Proof. unfold pd.value_counts. by rewrite foldr_insert_count_length, length_fmap. Qed.

Lemma unique_elem_of (x : cell) (l : list cell) :
  ∀ seen, x ∈ l → x ∉ seen → x ∈ pd.unique seen l.
Proof.
  induction l as [|y l IH]; intros seen; cbn; [by intros ?%elem_of_nil |].
  intros [-> | Hin]%elem_of_cons Hseen.
  - rewrite decide_False by done. by left.
  - case_decide; [by apply IH |].
    destruct (decide (x = y)) as [-> | Hne]; [by left |].
    right. apply IH; [done |]. by intros [?|?]%elem_of_cons.
Qed.

Lemma unique_seen (l : list cell) :
  ∀ seen, Forall (λ x, x ∈ seen) l → pd.unique seen l = [].
Proof.
  induction l as [|y l IH]; intros seen; cbn; [done |].
  intros [Hy Hl]%Forall_cons. rewrite decide_True by done. by apply IH.
Qed.

Lemma unique_one_value (v : cell) (l : list cell) :
  ∀ seen, Forall (λ x, x = v) l → length (pd.unique seen l) ≤ 1.
Proof.
  induction l as [|y l IH]; intros seen; cbn; [lia |].
  intros [-> Hl]%Forall_cons. case_decide; [by apply IH |].
  cbn. rewrite unique_seen; [done |].
  eapply Forall_impl; [exact Hl |]. intros x ->. by left.
Qed.

Lemma two_elements {A} (x y : A) (l : list A) : x ∈ l → y ∈ l → x ≠ y → 2 ≤ length l.
Proof.
  destruct l as [|a [|b l]]; cbn; [by intros ?%elem_of_nil | | lia].
  by intros ->%list_elem_of_singleton ->%list_elem_of_singleton.
Qed.

Lemma getitem_eq_ok (data : DataFrame) (column : string) (s : Series) (value : cell) :
  pd.getitem data column = Ok s →
  ∃ selected, pd.getitem_eq data column value = Ok selected.
Proof.
  unfold pd.getitem, pd.getitem_eq. destruct (pd.get_loc data column); [| done].
  eauto.
Qed.

Section sample_data_facts.

Variable choice : Z → nat → nat → list nat.
Variable SMOTE_fit_sample :
  list (list cell) → list cell → Result (list (list cell) * list cell).

Local Abbreviation sample_data' := (sample_data choice SMOTE_fit_sample).

(** X11. A method that is none of the three names is not refused: for
    a table with no two columns of the same name and a target column
    with two values or more, [sample_data] returns the table it was
    given. *)
Theorem sample_data_other_method (data : DataFrame) (target_column : string)
    (id_columns : list string) (method : string) (target : Series)
    (label other : cell) :
  NoDup (pd.columns_tolist data) →
  method ∉ ["both"; "under-sampling"; "over-sampling"] →
  pd.getitem data target_column = Ok target →
  label ∈ target.*2 → other ∈ target.*2 →
  isnull label = false → isnull other = false → label ≠ other →
  sample_data' data target_column id_columns method = Ok data.
Proof.
  intros _ Hmethod Htarget Hlabel Hother Hl Ho Hne.
  assert (Hcounts : 2 ≤ length (pd.value_counts target)).
  { rewrite value_counts_length. apply (two_elements label other); [| | done].
    - apply unique_elem_of; [| by intros ?%elem_of_nil].
      by apply list_elem_of_filter.
    - apply unique_elem_of; [| by intros ?%elem_of_nil].
      by apply list_elem_of_filter. }
  unfold sample_data, mbind, Result_bind, pd.keys_getitem. rewrite Htarget.
  destruct (pd.value_counts target) as [|major [|minor counts]];
    [cbn in Hcounts; lia.. |]. cbn.
  destruct (getitem_eq_ok _ _ _ major.1 Htarget) as [major_data ->].
  destruct (getitem_eq_ok _ _ _ minor.1 Htarget) as [minor_data ->].
  rewrite !decide_False; [done | |].
  - intros Hin. apply Hmethod.
    apply elem_of_cons in Hin as [-> | Hin]; [by left |].
    apply list_elem_of_singleton in Hin as ->. by do 2 right; left.
  - intros Hin. apply Hmethod.
    apply elem_of_cons in Hin as [-> | Hin]; [by left |].
    apply list_elem_of_singleton in Hin as ->. by right; left.
Qed.

(** X12. [sample_data] needs two classes: for a table with no two
    columns of the same name, when the target column is there and the
    entries in it that are not missing all have the same value, or
    there is none, the call ends in an [IndexError], whatever the
    method. *)
Theorem sample_data_one_class_raises (data : DataFrame) (target_column : string)
    (id_columns : list string) (method : string) (target : Series) (label : cell) :
  NoDup (pd.columns_tolist data) →
  pd.getitem data target_column = Ok target →
  Forall (λ c, isnull c = false → c = label) target.*2 →
  sample_data' data target_column id_columns method = Raise IndexError.
Proof.
  intros _ Htarget Hone.
  assert (Hcounts : length (pd.value_counts target) ≤ 1).
  { rewrite value_counts_length. apply (unique_one_value label).
    apply Forall_forall. intros c [Hc Hin]%list_elem_of_filter.
    eapply Forall_forall in Hone; [| exact Hin]. auto. }
  unfold sample_data, mbind, Result_bind, pd.keys_getitem. rewrite Htarget.
  destruct (pd.value_counts target) as [|major [|minor counts]];
    [done | done | cbn in Hcounts; lia].
Qed.

End sample_data_facts.

Lemma sample_data_other_method_witness :
  sample_data examples.first_positions examples.no_synthesis
    examples.imbalanced "y" [] "under_sampling"
  = Ok examples.imbalanced.
Proof.
  apply (sample_data_other_method examples.first_positions examples.no_synthesis
           examples.imbalanced "y" [] "under_sampling"
           ((λ r, (r.1, r.2 !!! 1)) <$> rows examples.imbalanced)
           (Num (Q2Qc 0)) (Num (Q2Qc 1))).
  - apply (bool_decide_unpack _). by vm_compute.
  - apply (bool_decide_unpack _). by vm_compute.
  - reflexivity.
  - apply (bool_decide_unpack _). by vm_compute.
  - apply (bool_decide_unpack _). by vm_compute.
  - reflexivity.
  - reflexivity.
  - discriminate.
Defined.

Lemma sample_data_one_class_raises_witness :
  sample_data examples.first_positions examples.no_synthesis
    examples.majority100 "y" [] "both"
  = Raise IndexError.
Proof.
  apply (sample_data_one_class_raises examples.first_positions
           examples.no_synthesis examples.majority100 "y" [] "both"
           ((λ r, (r.1, r.2 !!! 1)) <$> rows examples.majority100)
           (Num (Q2Qc 0))).
  - apply (bool_decide_unpack _). by vm_compute.
  - reflexivity.
  - apply (bool_decide_unpack _). by vm_compute.
Defined.

(** ** The samplers *)

Lemma DataFrame_new_index (columns : list (string * dtype)) (X : list (list cell)) :
  pd.index (pd.DataFrame_new columns X) = Z.of_nat <$> seq 0 (length X).
Proof.
  unfold pd.index, pd.DataFrame_new. cbn. rewrite fmap_imap.
  apply list_eq. intros i. rewrite list_lookup_imap, list_lookup_fmap.
  destruct (X !! i) eqn:Hi; cbn.
  - apply lookup_lt_Some in Hi. by rewrite lookup_seq_lt.
  - apply lookup_ge_None in Hi. by rewrite lookup_seq_ge.
Qed.

Lemma DataFrame_new_columns_tolist (names : list string) (dt : dtype)
    (X : list (list cell)) :
  pd.columns_tolist (pd.DataFrame_new ((λ c, (c, dt)) <$> names) X) = names.
Proof.
  unfold pd.columns_tolist, pd.DataFrame_new. cbn.
  induction names as [|c l IH]; [done |]. cbn. by rewrite IH.
Qed.

Section smote_sample_facts.

Variable SMOTE_fit_sample :
  list (list cell) → list cell → Result (list (list cell) * list cell).

(** X13. The table [smote_sample] returns, for a table with no two
    columns of the same name: the target is a column of the input; the
    columns returned are the columns of the input that are neither the
    target nor an id column, in their order, and after them the target;
    the rows are labelled 0, 1, ... anew. *)
Theorem smote_sample_shape (self : OverSampler) (result : DataFrame) :
  NoDup (pd.columns_tolist (os_data self)) →
  OverSampler.smote_sample SMOTE_fit_sample self = Ok result →
  os_target_column self ∈ pd.columns_tolist (os_data self) ∧
  pd.columns_tolist result
  = (filter (λ c, (c ∉ os_id_columns self) ∧ c ≠ os_target_column self)
       (pd.columns_tolist (os_data self)))
    ++ [os_target_column self] ∧
  pd.index result = Z.of_nat <$> seq 0 (pd.shape0 result).
Proof.
  intros Hnodup. unfold OverSampler.smote_sample, list_remove, mbind, Result_bind.
  case_decide as Htarget; [| done].
  destruct (pd.getitems _ _) as [X|]; [| done].
  destruct (pd.getitem _ _) as [y|]; [| done].
  destruct (SMOTE_fit_sample _ _) as [r|]; [| done].
  destruct (pd.dtypes_getitem _ _) as [dt|]; [| done].
  intros Hset. split; [done |].
  rewrite remove1_filter, remove_present_filter, list_filter_filter in Hset
    by (done || by apply NoDup_filter).
  split.
  - rewrite (setitem_columns_tolist _ _ _ _ _ Hset).
    rewrite !DataFrame_new_columns_tolist.
    rewrite decide_False; [done |].
    by intros [[_ ?] _]%list_elem_of_filter.
  - unfold pd.shape0. rewrite (setitem_shape0 _ _ _ _ _ Hset).
    rewrite (setitem_index _ _ _ _ _ Hset), DataFrame_new_index.
    unfold pd.DataFrame_new. cbn. by rewrite length_imap.
Qed.

End smote_sample_facts.

Lemma smote_sample_shape_witness :
  ∃ result : DataFrame,
    OverSampler.smote_sample examples.no_synthesis
      (mkOverSampler examples.with_repetition "y" ["id"]) = Ok result ∧
    "y" ∈ pd.columns_tolist examples.with_repetition ∧
    pd.columns_tolist result
    = (filter (λ c, (c ∉ ["id"]) ∧ c ≠ "y")
         (pd.columns_tolist examples.with_repetition))
      ++ ["y"] ∧
    pd.index result = Z.of_nat <$> seq 0 (pd.shape0 result).
Proof.
  eexists.
  assert (Hrun :
    OverSampler.smote_sample examples.no_synthesis
      (mkOverSampler examples.with_repetition "y" ["id"])
    = Ok (mkDataFrame [("x", float64); ("y", int64)]
            (((λ i, (Z.of_nat i, [Num (Q2Qc 0); Num (Q2Qc 0)])) <$> seq 0 11)
             ++ [(11%Z, [Num (Q2Qc (-100)); Num (Q2Qc 1)])])))
    by (vm_compute; reflexivity).
  split; [exact Hrun |].
  refine (smote_sample_shape examples.no_synthesis
            (mkOverSampler examples.with_repetition "y" ["id"]) _ _ Hrun).
  apply (bool_decide_unpack _). by vm_compute.
Defined.

Lemma mapM_Ok_inv {A B} (f : A → Result B) (l : list A) :
  ∀ k, mapM f l = Ok k → Forall2 (λ x y, f x = Ok y) l k.
Proof.
  induction l as [|x l IH]; intros k; cbn.
  { intros [= <-]. constructor. }
  destruct (f x) as [y|] eqn:Hx; [| done]. cbn.
  destruct (mapM f l) as [k'|]; [| done]. cbn.
  intros [= <-]. constructor; [done | by apply IH].
Qed.

Lemma take_rows (rs taken : list (Z * list cell)) (ps : list nat) :
  Forall2 (λ i r, match rs !! i with
                  | Some r' => Ok r'
                  | None => Raise IndexError
                  end = Ok r) ps taken →
  Forall (λ p, p < length rs) ps ∧ taken = (λ i, rs !!! i) <$> ps.
Proof.
  induction 1 as [|i r ps taken Hr _ [Hbelow ->]]; [done |].
  destruct (rs !! i) as [r'|] eqn:Hi; [| done]. injection Hr as <-. split.
  - constructor; [| done]. by eapply lookup_lt_Some.
  - cbn. by rewrite (list_lookup_total_correct _ _ _ Hi).
Qed.

(** The rows of a sample are the rows at the positions the generator
    gave, which are positions of the table. *)
Lemma sample_positions (choice : Z → nat → nat → list nat) (data sampled : DataFrame)
    (frac : Qc) (random_state : Z) :
  pd.sample choice data frac random_state = Ok sampled →
  ∃ k : nat,
    Forall (λ p, p < pd.shape0 data) (choice random_state (pd.shape0 data) k) ∧
    columns sampled = columns data ∧
    rows sampled
    = (λ i, rows data !!! i) <$> choice random_state (pd.shape0 data) k.
Proof.
  unfold pd.sample. repeat (case_decide; [done |]).
  unfold mbind, Result_bind.
  destruct (mapM _ _) as [taken|] eqn:Htaken; [| done].
  intros [= <-]. eexists. cbn.
  apply mapM_Ok_inv, take_rows in Htaken as [Hbelow ->]. by split_and!.
Qed.

Section random_sample_facts.

Variable choice : Z → nat → nat → list nat.

(** X14. What [random_sample] returns, when it returns and the
    generator gives no position twice: a table with the columns of the
    input whose rows are rows of the input, under the labels they had,
    none of them taken more often than it is there; so never more rows
    than the input has. *)
Theorem random_sample_draws (self : UnderSampler) (current_ratio target_ratio : Qc)
    (result : DataFrame) :
  (∀ (seed : Z) (n k : nat), NoDup (choice seed n k)) →
  UnderSampler.random_sample choice self current_ratio target_ratio = Ok result →
  columns result = columns (us_data self) ∧
  rows result ⊆+ rows (us_data self) ∧
  pd.shape0 result ≤ pd.shape0 (us_data self).
Proof.
  intros Hnodup (k & Hbelow & Hcols & Hrows)%sample_positions.
  assert (Hsub : rows result ⊆+ rows (us_data self)).
  { rewrite Hrows.
    trans ((λ i, rows (us_data self) !!! i) <$> seq 0 (length (rows (us_data self))));
      [| by rewrite lookup_total_seq].
    apply fmap_submseteq, NoDup_submseteq; [done |].
    intros i Hi. eapply Forall_forall in Hbelow; [| exact Hi].
    apply elem_of_seq. unfold pd.shape0 in Hbelow. lia. }
  split_and!; [done.. |]. by apply submseteq_length.
Qed.

End random_sample_facts.

Lemma random_sample_draws_witness :
  ∃ result : DataFrame,
    UnderSampler.random_sample examples.first_positions
      (mkUnderSampler examples.majority100 "y") (Q2Qc 1) (Q2Qc (3 # 2))
    = Ok result ∧
    columns result = columns examples.majority100 ∧
    rows result ⊆+ rows examples.majority100 ∧
    pd.shape0 result ≤ pd.shape0 examples.majority100.
Proof.
  eexists.
  assert (Hrun :
    UnderSampler.random_sample examples.first_positions
      (mkUnderSampler examples.majority100 "y") (Q2Qc 1) (Q2Qc (3 # 2))
    = Ok (mkDataFrame [("x", float64); ("y", int64)]
            (examples.block 0 67 [Num (Q2Qc 0); Num (Q2Qc 0)])))
    by (vm_compute; reflexivity).
  split; [exact Hrun |].
  refine (random_sample_draws examples.first_positions _ _ _ _ _ Hrun).
  intros seed n k. apply NoDup_seq.
Defined.

(** ** sample_data with under-sampling alone *)

(** A sample has the columns of the table, and rows of the table. *)
Lemma sample_inv (choice : Z → nat → nat → list nat) (data sampled : DataFrame)
    (frac : Qc) (random_state : Z) :
  pd.sample choice data frac random_state = Ok sampled →
  columns sampled = columns data ∧ Forall (λ r, r ∈ rows data) (rows sampled).
Proof.
  unfold pd.sample. repeat (case_decide; [done |]).
  unfold mbind, Result_bind.
  destruct (mapM _ _) as [taken|] eqn:Htaken; [| done].
  intros [= <-]. split; [done |]. cbn.
  apply mapM_Ok_inv in Htaken. clear -Htaken.
  induction Htaken as [|i r ps taken Hr _ IH]; constructor; [| done].
  destruct (rows data !! i) as [r'|] eqn:Hi; [| done].
  injection Hr as <-. by eapply list_elem_of_lookup_2.
Qed.

Lemma insert_count_elem_of (y x : cell * nat) (l : list (cell * nat)) :
  y ∈ pd.insert_count x l → y = x ∨ y ∈ l.
Proof.
  induction l as [|z l IH]; cbn.
  { intros ->%list_elem_of_singleton. by left. }
  case_decide.
  - intros [-> | Hin]%elem_of_cons; [by left | by right].
  - intros [-> | Hin]%elem_of_cons; [right; by left |].
    destruct (IH Hin) as [-> | Hl]; [by left | right; by right].
Qed.

Lemma foldr_insert_count_elem_of (y : cell * nat) (l : list (cell * nat)) :
  y ∈ foldr pd.insert_count [] l → y ∈ l.
Proof.
  induction l as [|x l IH]; cbn; [done |].
  intros [-> | Hin]%insert_count_elem_of; [by left | right; by apply IH].
Qed.

Lemma unique_subseteq (l : list cell) :
  ∀ seen x, x ∈ pd.unique seen l → x ∈ l.
Proof.
  induction l as [|y l IH]; intros seen x; cbn; [done |].
  case_decide.
  - intros Hin. right. by eapply IH.
  - intros [-> | Hin]%elem_of_cons; [by left | right; by eapply IH].
Qed.

(** The keys of [value_counts] are values of the series, and none of
    them is missing. *)
Lemma keys_getitem_present (s : Series) (i : nat) (v : cell) :
  pd.keys_getitem (pd.value_counts s) i = Ok v → v ∈ s.*2 ∧ isnull v = false.
Proof.
  unfold pd.keys_getitem, pd.value_counts.
  destruct (_ !! i) as [v'|] eqn:Hi; [| done]. intros [= ->].
  apply list_elem_of_lookup_2, list_elem_of_fmap in Hi as ([v' n] & -> & Hin).
  apply foldr_insert_count_elem_of, list_elem_of_fmap in Hin as (v'' & [= -> _] & Hin).
  apply unique_subseteq, list_elem_of_filter in Hin as [Hnull Hin]. done.
Qed.

Lemma getitem_eq_inv (data selected : DataFrame) (column : string) (value : cell) :
  pd.getitem_eq data column value = Ok selected →
  isnull value = false →
  ∃ j, pd.get_loc data column = Some j ∧
       columns selected = columns data ∧
       rows selected = filter (λ r, r.2 !!! j = value) (rows data).
Proof.
  unfold pd.getitem_eq. destruct (pd.get_loc data column) as [j|]; [| done].
  intros [= <-] Hvalue. exists j. split_and!; [done.. |]. cbn.
  apply list_filter_iff. intros r. split; [by intros [? _] |].
  intros <-. split; [done |]. by destruct (r.2 !!! j).
Qed.

Lemma relabel_index {A} (l : list (Z * A)) :
  (imap (λ i r, (Z.of_nat i, r.2)) l).*1 = Z.of_nat <$> seq 0 (length l).
Proof.
  rewrite fmap_imap. apply list_eq. intros i.
  rewrite list_lookup_imap, list_lookup_fmap.
  destruct (l !! i) eqn:Hi; cbn.
  - apply lookup_lt_Some in Hi. by rewrite lookup_seq_lt.
  - apply lookup_ge_None in Hi. by rewrite lookup_seq_ge.
Qed.

Lemma relabel_cells {A} (l : list (Z * A)) :
  (imap (λ i r, (Z.of_nat i, r.2)) l).*2 = l.*2.
Proof.
  rewrite fmap_imap. apply list_eq. intros i.
  rewrite list_lookup_imap, list_lookup_fmap. by destruct (l !! i).
Qed.

Section under_sampling_facts.

Variable choice : Z → nat → nat → list nat.
Variable SMOTE_fit_sample :
  list (list cell) → list cell → Result (list (list cell) * list cell).

Local Abbreviation sample_data' := (sample_data choice SMOTE_fit_sample).

(** X15. What [sample_data] returns with [method='under-sampling']:
    a table with the columns of the input whose rows are labelled
    0, 1, ... anew; first come rows of the input of the most frequent
    class, then all the rows of the second class, in their order.  Rows
    of a third class are not returned. *)
Theorem sample_data_under_sampling (data result : DataFrame)
    (target_column : string) (id_columns : list string) :
  sample_data' data target_column id_columns "under-sampling" = Ok result →
  ∃ (j : nat) (target : Series) (major_label minor_label : cell)
    (taken : list (Z * list cell)),
    pd.get_loc data target_column = Some j ∧
    pd.getitem data target_column = Ok target ∧
    pd.keys_getitem (pd.value_counts target) 0 = Ok major_label ∧
    pd.keys_getitem (pd.value_counts target) 1 = Ok minor_label ∧
    Forall (λ r, r ∈ rows data ∧ r.2 !!! j = major_label) taken ∧
    columns result = columns data ∧
    pd.index result = Z.of_nat <$> seq 0 (pd.shape0 result) ∧
    (rows result).*2
    = taken.*2 ++ (filter (λ r, r.2 !!! j = minor_label) (rows data)).*2.
Proof.
  unfold sample_data, mbind, Result_bind.
  destruct (pd.getitem data target_column) as [target|] eqn:Htarget; [| done].
  destruct (pd.keys_getitem _ 0) as [major_label|] eqn:Hmajor; [| done].
  destruct (pd.keys_getitem _ 1) as [minor_label|] eqn:Hminor; [| done].
  destruct (pd.getitem_eq data _ major_label) as [major_data|] eqn:Hmajor_data;
    [| done].
  destruct (pd.getitem_eq data _ minor_label) as [minor_data|] eqn:Hminor_data;
    [| done].
  rewrite decide_True by (right; by left).
  unfold UnderSampler.random_sample. cbn [us_data].
  destruct (pd.sample _ _ _ _) as [sampled|] eqn:Hsampled; [| done].
  rewrite (decide_False (P := "under-sampling" ∈ ["both"; "over-sampling"])).
  2:{ intros [?|?%list_elem_of_singleton]%elem_of_cons; discriminate. }
  intros [= <-].
  apply sample_inv in Hsampled as [Hcols Htaken].
  apply keys_getitem_present in Hmajor as Hmajor'. destruct Hmajor' as [_ Hmajor'].
  apply keys_getitem_present in Hminor as Hminor'. destruct Hminor' as [_ Hminor'].
  apply getitem_eq_inv in Hmajor_data as (j & Hj & Hmajor_cols & Hmajor_rows);
    [| done].
  apply getitem_eq_inv in Hminor_data as (j' & Hj' & _ & Hminor_rows); [| done].
  rewrite Hj in Hj'. injection Hj' as <-.
  exists j, target, major_label, minor_label, (rows sampled).
  split_and!; try done.
  - eapply Forall_impl; [exact Htaken |]. intros r. cbn.
    rewrite Hmajor_rows. by intros [? ?]%list_elem_of_filter.
  - cbn. by rewrite Hcols.
  - unfold pd.index, pd.shape0, pd.concat. cbn [rows].
    by rewrite relabel_index, length_imap.
  - unfold pd.concat. cbn [rows]. rewrite relabel_cells. cbn.
    by rewrite app_nil_r, fmap_app, Hminor_rows.
Qed.

End under_sampling_facts.

Lemma sample_data_under_sampling_witness :
  ∃ result : DataFrame,
    sample_data examples.first_positions examples.no_synthesis
      more_examples.three_classes "y" [] "under-sampling" = Ok result ∧
    ∃ (j : nat) (target : Series) (major_label minor_label : cell)
      (taken : list (Z * list cell)),
      pd.get_loc more_examples.three_classes "y" = Some j ∧
      pd.getitem more_examples.three_classes "y" = Ok target ∧
      pd.keys_getitem (pd.value_counts target) 0 = Ok major_label ∧
      pd.keys_getitem (pd.value_counts target) 1 = Ok minor_label ∧
      Forall (λ r, r ∈ rows more_examples.three_classes ∧ r.2 !!! j = major_label)
        taken ∧
      columns result = columns more_examples.three_classes ∧
      pd.index result = Z.of_nat <$> seq 0 (pd.shape0 result) ∧
      (rows result).*2
      = taken.*2
        ++ (filter (λ r, r.2 !!! j = minor_label)
              (rows more_examples.three_classes)).*2.
Proof.
  eexists.
  assert (Hrun :
    sample_data examples.first_positions examples.no_synthesis
      more_examples.three_classes "y" [] "under-sampling"
    = Ok (mkDataFrame [("x", float64); ("y", int64)]
            [(0%Z, [Num (Q2Qc 1); Num (Q2Qc 0)]);
             (1%Z, [Num (Q2Qc 3); Num (Q2Qc 0)]);
             (2%Z, [Num (Q2Qc 6); Num (Q2Qc 0)]);
             (3%Z, [Num (Q2Qc 2); Num (Q2Qc 1)]);
             (4%Z, [Num (Q2Qc 5); Num (Q2Qc 1)])]))
    by (vm_compute; reflexivity).
  split; [exact Hrun |].
  exact (sample_data_under_sampling examples.first_positions
           examples.no_synthesis _ _ _ _ Hrun).
Defined.

(** ** The two classes of sample_data *)

Lemma insert_count_Permutation (x : cell * nat) (l : list (cell * nat)) :
  pd.insert_count x l ≡ₚ x :: l.
Proof.
  induction l as [|y l IH]; cbn; [done |]. case_decide; [done |].
  rewrite IH. apply Permutation_swap.
Qed.

Lemma foldr_insert_count_Permutation (l : list (cell * nat)) :
  foldr pd.insert_count [] l ≡ₚ l.
Proof.
  induction l as [|x l IH]; cbn; [done |].
  by rewrite insert_count_Permutation, IH.
Qed.

Lemma insert_count_sorted (x : cell * nat) (l : list (cell * nat)) :
  descending l → descending (pd.insert_count x l).
Proof.
  induction l as [|y l IH]; cbn.
  { by split. }
  intros [Hy Hl]. case_decide as Hyx; cbn.
  - split_and!; [| done..]. constructor; [done |].
    eapply Forall_impl; [exact Hy |]. cbn. lia.
  - split; [| by apply IH].
    apply Forall_forall. intros z [-> | Hz]%insert_count_elem_of; [lia |].
    by eapply Forall_forall in Hy.
Qed.

Lemma value_counts_sorted (s : Series) : descending (pd.value_counts s).
Proof.
  unfold pd.value_counts. induction (_ <$> pd.unique _ _) as [|x l IH]; cbn.
  - done.
  - by apply insert_count_sorted.
Qed.

Lemma unique_NoDup (l : list cell) :
  ∀ seen, NoDup (pd.unique seen l) ∧ ∀ x, x ∈ pd.unique seen l → x ∉ seen.
Proof.
  induction l as [|y l IH]; intros seen; cbn.
  { split; [constructor | by intros x ?%elem_of_nil]. }
  case_decide as Hy; [apply IH |].
  destruct (IH (y :: seen)) as [Hnodup Hfresh]. split.
  - constructor; [| done]. intros Hin%Hfresh. apply Hin. by left.
  - intros x [-> | Hin%Hfresh]%elem_of_cons; [done |].
    intros Hx. apply Hin. by right.
Qed.

Lemma fmap_fst_pair {A B} (g : A → B) (l : list A) :
  ((λ v, (v, g v)) <$> l).*1 = l.
Proof. induction l as [|x l IH]; [done |]. cbn. by rewrite IH. Qed.

Lemma value_counts_keys (s : Series) :
  NoDup (pd.value_counts s).*1.
Proof.
  unfold pd.value_counts. rewrite foldr_insert_count_Permutation.
  rewrite fmap_fst_pair. apply unique_NoDup.
Qed.

(** The number [value_counts] gives for a value is the number of rows
    [data[data[column] == value]] selects. *)
Lemma count_rows (j : nat) (v : cell) (rs : list (Z * list cell)) :
  isnull v = false →
  length (filter (v =.) (filter (λ c, isnull c = false) ((λ r, r.2 !!! j) <$> rs)))
  = length (filter (λ r, r.2 !!! j = v ∧ v ≠ NaN) rs).
Proof.
  intros Hv. induction rs as [|r rs IH]; [done |].
  cbn [fmap list_fmap]. rewrite !filter_cons.
  destruct (decide (r.2 !!! j = v)) as [Heq | Hne].
  - rewrite decide_True by (by rewrite Heq). rewrite filter_cons.
    rewrite !decide_True; [cbn; by rewrite IH | | by symmetry].
    split; [done |]. intros ->. discriminate.
  - rewrite (decide_False (P := _ ∧ _)) by (by intros [? _]).
    destruct (decide (isnull (r.2 !!! j) = false)); [| done].
    by rewrite filter_cons_False by (by intros ?).
Qed.

Lemma value_counts_entry (data : DataFrame) (column : string) (s : Series)
    (selected : DataFrame) (v : cell) (n : nat) :
  pd.getitem data column = Ok s →
  (v, n) ∈ pd.value_counts s →
  pd.getitem_eq data column v = Ok selected →
  n = pd.shape0 selected ∧ 1 ≤ n.
Proof.
  unfold pd.getitem, pd.getitem_eq, pd.value_counts, pd.shape0.
  destruct (pd.get_loc data column) as [j|]; [| done].
  intros [= <-] Hin [= <-]. cbn.
  apply foldr_insert_count_elem_of, list_elem_of_fmap in Hin as (v' & [= <- ->] & Hin).
  apply unique_subseteq in Hin. rewrite <-list_fmap_compose in Hin |- *.
  pose proof Hin as [Hnull Hv]%list_elem_of_filter.
  split.
  - by apply (count_rows j).
  - assert (Hpos : v ∈ filter (v =.)
                     (filter (λ c, isnull c = false)
                        (snd ∘ (λ r : Z * list cell, (r.1, r.2 !!! j)) <$> rows data)))
      by (by apply list_elem_of_filter).
    destruct (filter (v =.) _); [by apply elem_of_nil in Hpos | cbn; lia].
Qed.

(** X16. The two classes [sample_data] works with: the one it takes
    for the majority has at least as many rows as the one it takes for
    the minority, which is another class and has a row, so that the
    current ratio is a number, and at least one. *)
Theorem sample_data_classes (data : DataFrame) (target_column : string)
    (target : Series) (major_label minor_label : cell)
    (major_data minor_data : DataFrame) :
  pd.getitem data target_column = Ok target →
  pd.keys_getitem (pd.value_counts target) 0 = Ok major_label →
  pd.keys_getitem (pd.value_counts target) 1 = Ok minor_label →
  pd.getitem_eq data target_column major_label = Ok major_data →
  pd.getitem_eq data target_column minor_label = Ok minor_data →
  major_label ≠ minor_label ∧
  1 ≤ pd.shape0 minor_data ≤ pd.shape0 major_data.
Proof.
  intros Htarget Hmajor Hminor Hmajor_data Hminor_data.
  pose proof (value_counts_sorted target) as Hsorted.
  pose proof (value_counts_keys target) as Hkeys.
  unfold pd.keys_getitem in Hmajor, Hminor.
  destruct (pd.value_counts target) as [|[v1 n1] [|[v2 n2] counts]] eqn:Hcounts;
    [done.. |].
  cbn in Hmajor, Hminor. injection Hmajor as ->. injection Hminor as ->.
  destruct (value_counts_entry data target_column target major_data major_label n1)
    as [<- _]; [done | rewrite Hcounts; by left | done |].
  destruct (value_counts_entry data target_column target minor_data minor_label n2)
    as [<- Hone]; [done | rewrite Hcounts; right; by left | done |].
  split.
  - cbn in Hkeys. apply NoDup_cons in Hkeys as [Hfresh _].
    intros ->. apply Hfresh. by left.
  - destruct Hsorted as [Hle _].
    apply Forall_cons in Hle as [Hle _]. cbn in Hle. lia.
Qed.

Lemma sample_data_classes_witness :
  Num (Q2Qc 0) ≠ Num (Q2Qc 1) ∧
  1 ≤ pd.shape0 (mkDataFrame (columns examples.imbalanced)
                   (examples.block 100 10 [Num (Q2Qc 1); Num (Q2Qc 1)]))
    ≤ pd.shape0 examples.majority100.
Proof.
  apply (sample_data_classes examples.imbalanced "y"
           ((λ r, (r.1, r.2 !!! 1)) <$> rows examples.imbalanced)).
  - reflexivity.
  - by vm_compute.
  - by vm_compute.
  - by vm_compute.
  - by vm_compute.
Defined.

(** ** Columns that are not there *)

Lemma dtypes_getitem_absent (data : DataFrame) (column : string) :
  column ∉ pd.columns_tolist data → pd.dtypes_getitem data column = Raise KeyError.
Proof.
  unfold pd.dtypes_getitem, pd.columns_tolist. intros Hout.
  destruct (list_find _ _) as [[j [c d]]|] eqn:Hfind; [| done].
  apply list_find_Some in Hfind as (Hj & Hc & _). cbn in Hc. subst c.
  exfalso. apply Hout. apply list_elem_of_fmap. exists (column, d).
  split; [done |]. by eapply list_elem_of_lookup_2.
Qed.

Lemma for_app_raise {S A} (l rest : list A) (x : A) (body : A → Py S unit)
    (s s1 s2 : S) (e : exn) :
  NaFiller.for_ l body s = (Ok (), s1) →
  body x s1 = (Raise e, s2) →
  NaFiller.for_ (l ++ x :: rest) body s = (Raise e, s2).
Proof.
  revert s. induction l as [|y l IH]; intros s; cbn [app].
  - intros [= ->] Hx. by rewrite for_cons, Hx.
  - intros (s' & Hy & Hl)%for_inv Hx. rewrite for_cons, Hy. by apply IH.
Qed.

Lemma transform_inv (column_list : list string) (st st' : NaFiller.store)
    (filled : DataFrame) :
  NaFiller.transform column_list st = (Ok filled, st') →
  NaFiller.for_ column_list NaFiller.transform_body st = (Ok (), st') ∧
  filled = NaFiller.data st'.
Proof.
  unfold NaFiller.transform. py_unfold.
  destruct (NaFiller.for_ _ _ st) as [[[]|e] st1]; [| done].
  by intros [= <- <-].
Qed.

(** X17. A listed column that is not in the table ends [fit_transform],
    and [transform], in a [KeyError] when its turn comes: the columns
    listed before it have been filled in by then, in the table of the
    caller, and the columns listed after it are not looked at. *)
Theorem filler_missing_column (column_list rest : list string) (column : string)
    (st st1 : NaFiller.store) (filled : DataFrame) :
  column ∉ pd.columns_tolist filled →
  (NaFiller.fit_transform column_list st = (Ok filled, st1) →
   NaFiller.fit_transform (column_list ++ column :: rest) st
   = (Raise KeyError, st1)) ∧
  (NaFiller.transform column_list st = (Ok filled, st1) →
   NaFiller.transform (column_list ++ column :: rest) st
   = (Raise KeyError, st1)).
Proof.
  intros Hout. split.
  - intros [Hrun ->]%fit_transform_inv.
    unfold NaFiller.fit_transform. py_unfold.
    rewrite (for_app_raise _ _ column _ _ st1 st1 KeyError Hrun); [done |].
    unfold NaFiller.fit_transform_body. py_unfold.
    by rewrite dtypes_getitem_absent.
  - intros [Hrun ->]%transform_inv.
    unfold NaFiller.transform. py_unfold.
    rewrite (for_app_raise _ _ column _ _ st1 st1 KeyError Hrun); [done |].
    unfold NaFiller.transform_body. py_unfold.
    by rewrite dtypes_getitem_absent.
Qed.

Lemma filler_missing_column_witness :
  let filled :=
    mkDataFrame [("c", object); ("a", float64); ("b", float64)]
      [(0%Z, [Str "u"; NaN; Num (Q2Qc 1)]);
       (1%Z, [Str "missing"; Num (Q2Qc 2); NaN])] in
  NaFiller.fit_transform (["c"] ++ "z" :: ["a"])
    (NaFiller.mkStore (NaFiller.init "mean") examples.mixed)
  = (Raise KeyError, NaFiller.mkStore (NaFiller.init "mean") filled) ∧
  NaFiller.transform (["c"] ++ "z" :: ["a"])
    (NaFiller.mkStore (NaFiller.init "mean") examples.mixed)
  = (Raise KeyError, NaFiller.mkStore (NaFiller.init "mean") filled).
Proof.
  intros filled.
  destruct (filler_missing_column ["c"] ["a"] "z"
              (NaFiller.mkStore (NaFiller.init "mean") examples.mixed)
              (NaFiller.mkStore (NaFiller.init "mean") filled) filled)
    as [Hfit Htransform].
  - apply (bool_decide_unpack _). by vm_compute.
  - split; [apply Hfit | apply Htransform]; by vm_compute.
Defined.

(** ** A target that is not there *)

Section missing_target.

Variable column_type_detection :
  DataFrame → list string → string → Result (list string * list string).
Variable CategoryFeatureEngineer_fit_transform :
  list string → DataFrame → Result DataFrame.
Variable IsolationForest_decision_function : DataFrame → Result (list float).

Local Abbreviation isolation_forest' :=
  (OutlierDetector.isolation_forest column_type_detection
     CategoryFeatureEngineer_fit_transform IsolationForest_decision_function).
Local Abbreviation wash_data' :=
  (wash_data column_type_detection CategoryFeatureEngineer_fit_transform
     IsolationForest_decision_function).

Lemma isolation_forest_missing_target (self : OutlierDetector) (out : stdout) :
  od_target_column self ∉ pd.columns_tolist (od_data self) →
  (∀ c, c ∈ pd.columns_tolist (od_data self) →
        od_target_column self ≠ c +:+ "_flag") →
  ∃ e, isolation_forest' self out = (Raise e, out).
Proof.
  intros Hout Hflag.
  destruct (isolation_forest' self out) as [[outlier_index|e] out'] eqn:Hrun.
  - exfalso. apply isolation_forest_inv in Hrun
      as (data & _ & _ & _ & _ & Hfilled & Htarget & _).
    destruct (NaFiller.fit_transform _ _) as [r st'] eqn:Hfit.
    cbn in Hfilled. subst r.
    apply fit_transform_inv in Hfit as [Hfor ->].
    apply for_fit_transform_columns in Hfor as (_ & _ & Hnew).
    destruct (Hnew _ Htarget) as [Hin | (c & Hc & Heq)]; [done |].
    by eapply Hflag.
  - apply isolation_forest_raises_silent in Hrun as ->. eauto.
Qed.

(** X18. Without the target column nothing is returned and nothing
    printed: when the target is no column of the table, and not the
    name the filler gives to the flag column of one, [isolation_forest]
    raises, and so does [wash_data], whatever the estimators. *)
Theorem missing_target_raises (data : DataFrame) (target_column : string)
    (id_columns : list string) (outlier : bool) (out : stdout) :
  target_column ∉ pd.columns_tolist data →
  (∀ c, c ∈ pd.columns_tolist data → target_column ≠ c +:+ "_flag") →
  (∃ e, isolation_forest' (mkOutlierDetector data target_column id_columns) out
        = (Raise e, out)) ∧
  (∃ e, wash_data' data target_column id_columns outlier out = (Raise e, out)).
Proof.
  intros Hout Hflag. split.
  - by apply isolation_forest_missing_target.
  - destruct (isolation_forest_missing_target
                (mkOutlierDetector (washed data) target_column id_columns) out)
      as [e He]; [done.. |].
    exists e. unfold wash_data. py_unfold. by rewrite He.
Qed.

End missing_target.

Lemma missing_target_raises_witness :
  (∃ e, OutlierDetector.isolation_forest examples.no_category examples.keep_table
          examples.first_feature
          (mkOutlierDetector examples.with_repetition "label" ["id"]) []
        = (Raise e, [])) ∧
  (∃ e, wash_data examples.no_category examples.keep_table examples.first_feature
          examples.with_repetition "label" ["id"] true [] = (Raise e, [])).
Proof.
  apply (missing_target_raises examples.no_category examples.keep_table
           examples.first_feature examples.with_repetition "label" ["id"] true []).
  - apply (bool_decide_unpack _). by vm_compute.
  - intros c Hc. cbn in Hc.
    repeat (apply elem_of_cons in Hc as [-> | Hc]; [discriminate |]).
    by apply elem_of_nil in Hc.
Defined.

(** ** What is filled in *)

Lemma check_array_inv (X : list cell) (xs : list (option Qc)) :
  sklearn.check_array X = Ok xs →
  omap id xs = numbers X ∧
  ∀ stat : Qc,
    (λ x, Num (default stat x)) <$> xs
    = (λ c, if isnull c then Num stat else c) <$> X.
Proof.
  unfold sklearn.check_array. case_decide as Hne; [done |]. clear Hne.
  intros HX%mapM_Ok_inv. unfold numbers.
  induction HX as [|c x X xs Hc _ [IH1 IH2]]; [done |].
  destruct c as [q|?|]; simplify_eq; cbn; rewrite ?IH1; split; try done.
  - intros stat. by rewrite IH2.
  - intros stat. by rewrite IH2.
Qed.

(** What the imputer learns from a column and returns for it. *)
Lemma sklearn_fit_transform_inv (strategy : string) (X values : list cell)
    (imp : sklearn.Imputer) :
  sklearn.fit_transform strategy X = Ok (imp, [values]) →
  ∃ stat : Qc,
    sklearn.statistic strategy (numbers X) = Num stat ∧
    imp = sklearn.mkImputer strategy (Num stat) ∧
    values = (λ c, if isnull c then Num stat else c) <$> X.
Proof.
  unfold sklearn.fit_transform, sklearn.fit, sklearn.transform, mbind, Result_bind.
  case_decide; [| done].
  destruct (sklearn.check_array X) as [xs|] eqn:Hxs; [| done]. cbn.
  apply check_array_inv in Hxs as [Hpresent Hvalues]. rewrite Hpresent.
  destruct (sklearn.statistic strategy (numbers X)) as [stat|?|] eqn:Hstat;
    [| done..].
  intros [= <- <-]. exists stat. by rewrite Hvalues.
Qed.

(** X19. What [fit_transform] fills in: when it returns for a column
    of floats, the entries the column missed have all become one and
    the same number, the statistic in the rule the filler keeps for the
    column; the other entries are as they were, and every entry is
    under the label it had. *)
Theorem fit_transform_imputes (st st' : NaFiller.store) (column : string)
    (s : Series) (filled : DataFrame) :
  pd.rectangular (NaFiller.data st) →
  pd.dtypes_getitem (NaFiller.data st) column = Ok float64 →
  pd.getitem (NaFiller.data st) column = Ok s →
  NaFiller.fit_transform [column] st = (Ok filled, st') →
  ∃ stat : Qc,
    pd.getitem filled column
    = Ok ((λ p, (p.1, if isnull p.2 then Num stat else p.2)) <$> s) ∧
    num_imputer_dic (NaFiller.self st') !! column
    = Some (sklearn.mkImputer (numeric_method (NaFiller.self st)) (Num stat)).
Proof.
  intros Hrect Hdt Hs [Hrun ->]%fit_transform_inv.
  apply for_inv in Hrun as (st1 & Hbody & [= <-]).
  apply fit_transform_body_inv in Hbody
    as [(s0 & Hobj & _) |
        (dt0 & dtf & s0 & s1 & fl & fl' & X & d1 & d2 & imp & values & _ & _ & _ &
         Hd1 & _ & _ & _ & _ & Hd2 & HX & Himp & Hd3 & Hself)].
  { rewrite Hdt in Hobj. discriminate. }
  pose proof (setitem_rectangular _ _ _ _ _ Hd1 Hrect) as Hrect1.
  pose proof (setitem_rectangular _ _ _ _ _ Hd2 Hrect1) as Hrect2.
  rewrite (getitem_setitem_ne _ _ _ column _ _ Hrect1 Hd2 (flag_name_fresh column)),
    (getitem_setitem_ne _ _ _ column _ _ Hrect Hd1 (flag_name_fresh column)), Hs in HX.
  injection HX as <-.
  apply sklearn_fit_transform_inv in Himp as (stat & Hstat & -> & ->).
  exists stat. split.
  - rewrite (getitem_setitem _ _ _ _ _ Hrect2 Hd3).
    rewrite (setitem_index _ _ _ _ _ Hd2), (setitem_index _ _ _ _ _ Hd1).
    destruct (getitem_length _ _ _ Hs) as [_ <-]. f_equal.
    apply (zip_fst_fmap_snd (λ c, if isnull c then Num stat else c)).
  - rewrite Hself. cbn. apply lookup_insert_eq.
Qed.

Lemma fit_transform_imputes_witness :
  ∃ (filled : DataFrame) (st' : NaFiller.store),
    NaFiller.fit_transform ["x"]
      (NaFiller.mkStore (NaFiller.init "mean") examples.one_missing)
    = (Ok filled, st') ∧
    ∃ stat : Qc,
      pd.getitem filled "x"
      = Ok ((λ p, (p.1, if isnull p.2 then Num stat else p.2))
              <$> [(0%Z, NaN); (1%Z, Num (Q2Qc 1))]) ∧
      num_imputer_dic (NaFiller.self st') !! "x"
      = Some (sklearn.mkImputer "mean" (Num stat)).
Proof.
  eexists _, _.
  assert (Hrun :
    NaFiller.fit_transform ["x"]
      (NaFiller.mkStore (NaFiller.init "mean") examples.one_missing)
    = (Ok (NaFiller.data
             (NaFiller.fit_transform ["x"]
                (NaFiller.mkStore (NaFiller.init "mean") examples.one_missing)).2),
       (NaFiller.fit_transform ["x"]
          (NaFiller.mkStore (NaFiller.init "mean") examples.one_missing)).2))
    by (vm_compute; reflexivity).
  split; [exact Hrun |].
  refine (fit_transform_imputes
            (NaFiller.mkStore (NaFiller.init "mean") examples.one_missing) _
            "x" [(0%Z, NaN); (1%Z, Num (Q2Qc 1))] _ _ _ _ Hrun).
  - repeat constructor.
  - reflexivity.
  - reflexivity.
Defined.
